(** * wificond: interface lifecycle of [Server] and [ApInterfaceImpl]

    A shallow embedding of [server.cpp] and of the access-point controller
    ([ApInterfaceImpl], [ap_interface_impl.cpp]), followed by the theorems
    that settle the properties stated about them.

    The daemon talks to the kernel (netlink), to the interface tool, to the
    hostapd manager, to the vendor qsap library and to remote binder objects.
    None of these is part of the sources: every such call is recorded as an
    [Event] and its answer is taken from a [World], an arbitrary function of
    the history of events that happened before the call.

    The scanner's history of SSIDs written in GBK ([scanning/wifi_gbk2utf.cpp])
    is embedded after the daemon, with its three globals and the two ICU calls
    it makes. *)

From Stdlib Require Import ZArith NArith List String Ascii Strings.Byte Bool Lia.
From Stdlib Require Import DecimalString.
Import ListNotations.

Local Open Scope list_scope.

(** ** Plain data *)

(** Severities of [LOG(...)]. *)
Inductive Severity : Type := DEBUG | INFO | WARNING | ERROR.

(** [binder::Status]; only [Status::ok()] is ever built by the sources. *)
Inductive Status : Type :=
| Status_ok
| Status_exception (code : Z).

Definition isOk (st : Status) : bool :=
  match st with Status_ok => true | Status_exception _ => false end.

(** [InterfaceInfo(index, name, mac_address)], as built in
    [Server::QcSetupInterface]. *)
Record InterfaceInfo : Type := mkInterfaceInfo {
  index : N;
  name : string;
  mac_address : list byte
}.

(** The only interface mode the sources name. *)
Inductive InterfaceMode : Type := STATION_MODE.

(** [StationEvent], the two kinds [OnStationEvent] tests for. *)
Inductive StationEvent : Type := NEW_STATION | DEL_STATION.

(** A strong pointer to a remote [IInterfaceEventCallback]: the proxy object
    and the binder it stands for.  Two proxies are the same listener when
    [IInterface::asBinder] gives the same binder. *)
Record IInterfaceEventCallback : Type := mkCallback {
  proxy : N;
  asBinder : N
}.

(** [sp<IApInterface>] and [sp<IClientInterface>]: the identity of the binder
    object; [None] is [nullptr]. *)
Definition IApInterface : Type := N.
Definition IClientInterface : Type := N.

(** ** Events: everything the daemon does to the outside *)

Inductive Event : Type :=
| Log (sev : Severity) (msg : string)
(* NetlinkUtils *)
| EGetWiphyIndexWithInterfaceName (ifname : string)
| EGetInterfaces (wiphy : N)
| ESubscribeRegDomainChange (wiphy : N)
| EUnsubscribeRegDomainChange (wiphy : N)
| ESubscribeStationEvent (ifindex : N)
| EUnsubscribeStationEvent (ifindex : N)
| ESetInterfaceMode (ifindex : N) (mode : InterfaceMode)
(* InterfaceTool *)
| ESetUpState (ifname : string) (up : bool)
(* HostapdManager *)
| EHostapdManagerStart
| EHostapdManagerStop
(* libc and the vendor qsap library *)
| Eif_nametoindex (ifname : string)
| Elinux_get_ifhwaddr (ifname : string)
| Eqsap_hostd_exec (argv : list string)
| Eqsap_add_or_remove_interface (ifname : string) (create : Z)
| Eqsap_control_bridge (argv : list string)
| EqsapsetSoftap (argv : list string)
(* binder objects of the daemon *)
| ENotifyImplDead (binder : IApInterface)
| EstartHostapd (binder : IApInterface) (dual : bool)
| EstopHostapd (binder : IApInterface) (dual : bool)
| EClientInterfaceImplCreated (binder : IClientInterface)
| EClientInterfaceImplDestroyed (binder : IClientInterface)
(* remote listeners *)
| EOnClientInterfaceReady (listener : IInterfaceEventCallback) (iface : IClientInterface)
| EOnApInterfaceReady (listener : IInterfaceEventCallback) (iface : IApInterface)
| EOnClientTorndownEvent (listener : IInterfaceEventCallback) (iface : IClientInterface)
| EOnApTorndownEvent (listener : IInterfaceEventCallback) (iface : IApInterface)
| EOnSoftApClientEvent (listener : IInterfaceEventCallback) (mac : list byte)
                       (connect_status : bool).

Definition History : Type := list Event.

(** ** The world outside

    Each field answers one kind of outside call, given the history up to
    (and excluding) the call. *)
Record World : Type := mkWorld {
  (* NetlinkUtils *)
  netlink_GetWiphyIndexWithInterfaceName : History -> string -> option N;
  netlink_GetInterfaces : History -> N -> option (list InterfaceInfo);
  netlink_SetInterfaceMode : History -> N -> InterfaceMode -> bool;
  (* InterfaceTool *)
  if_tool_SetUpState : History -> string -> bool -> bool;
  (* HostapdManager *)
  hostapd_manager_StartHostapd : History -> bool;
  hostapd_manager_StopHostapd : History -> bool;
  (* libc, qsap *)
  libc_if_nametoindex : History -> string -> N;
  libc_strerror_errno : History -> string;
  qsap_linux_get_ifhwaddr : History -> string -> Z * list byte;
  qsap_hostd_exec : History -> list string -> Z;
  qsap_add_or_remove_interface : History -> string -> Z -> Z;
  qsap_control_bridge : History -> list string -> Z;
  qsapsetSoftap : History -> list string -> Z;
  (* the binder side of an AP interface: the status of the call and the
     value written to [*out_success], if any *)
  binder_startHostapd : History -> IApInterface -> bool -> Status * option bool;
  binder_stopHostapd : History -> IApInterface -> bool -> Status * option bool;
  (* addresses handed out by [new] *)
  new_ApInterfaceBinder : History -> IApInterface;
  new_ClientInterfaceBinder : History -> IClientInterface;
  (* LoggingUtils::GetMacString *)
  GetMacString : list byte -> string
}.

(** ** A monad for code that changes an object and talks to the outside

    A computation reads the history so far and the object's state, and
    returns its result, the new state and the events it added. *)
Definition M (St A : Type) : Type := History -> St -> A * St * list Event.

Definition ret {St A : Type} (a : A) : M St A :=
  fun _ s => (a, s, []).

Definition bind {St A B : Type} (m : M St A) (k : A -> M St B) : M St B :=
  fun h s =>
    let r1 := m h s in
    let r2 := k (fst (fst r1)) (h ++ snd r1) (snd (fst r1)) in
    (fst (fst r2), snd (fst r2), snd r1 ++ snd r2).

Declare Scope m_scope.
Delimit Scope m_scope with M.
Notation "x <- m ;; k" := (bind m (fun x => k))
  (at level 61, m at next level, right associativity) : m_scope.
Notation "m ;; k" := (bind m (fun _ => k))
  (at level 61, right associativity) : m_scope.
Local Open Scope m_scope.

(** An outside call: the event is recorded, the world answers. *)
Definition call {St A : Type} (e : Event) (answer : History -> A) : M St A :=
  fun h s => (answer h, s, [e]).

(** An outside call whose answer is not looked at. *)
Definition emit {St : Type} (e : Event) : M St unit :=
  fun _ s => (tt, s, [e]).

(** An answer of the world that leaves no trace ([new], [strerror]). *)
Definition ask {St A : Type} (answer : History -> A) : M St A :=
  fun h s => (answer h, s, []).

Definition LOG {St : Type} (sev : Severity) (msg : string) : M St unit :=
  emit (Log sev msg).

(** The object is read. *)
Definition get {St : Type} : M St St := fun _ s => (s, s, []).

(** A member is assigned. *)
Definition modify {St : Type} (f : St -> St) : M St unit := fun _ s => (tt, f s, []).

(** [for (auto& it : xs) body(it);] *)
Fixpoint for_each {St A : Type} (xs : list A) (body : A -> M St unit) : M St unit :=
  match xs with
  | [] => ret tt
  | x :: rest => body x ;; for_each rest body
  end.

(** The three components of a run: what is returned, the object afterwards,
    the events added. *)
Definition result {St A : Type} (r : A * St * list Event) : A := fst (fst r).
Definition state {St A : Type} (r : A * St * list Event) : St := snd (fst r).
Definition events {St A : Type} (r : A * St * list Event) : list Event := snd r.

(** ** Text *)

Definition dec_of_N (n : N) : string := NilZero.string_of_uint (N.to_uint n).
Definition dec_of_Z (z : Z) : string := NilZero.string_of_int (Z.to_int z).

(** [android::base::StartsWith(s, prefix)] *)
Definition StartsWith (s pre : string) : bool := String.prefix pre s.

(** [s.c_str()] read back as a C string: the text up to the first NUL. *)
Fixpoint c_str (s : string) : string :=
  match s with
  | EmptyString => EmptyString
  | String c rest => if Ascii.eqb c Ascii.zero then EmptyString else String c (c_str rest)
  end.

(** [!strcmp(a, b)] *)
Definition streq (a b : string) : bool := String.eqb a b.

(** ** 32-bit [int] *)

Definition INT_MIN : Z := -2147483648.
Definition INT_MAX : Z := 2147483647.

(** Two's-complement wrap-around of a mathematical integer into [int]. *)
Definition wrap_int (z : Z) : Z := (z + 2147483648) mod 4294967296 - 2147483648.

Local Open Scope string_scope.
Local Open Scope list_scope.

(** [isspace] in the classic locale: space, [\t], [\n], [\v], [\f], [\r]. *)
Definition isspace (c : ascii) : bool :=
  let n := N_of_ascii c in
  (N.eqb n 32 || (N.leb 9 n && N.leb n 13))%bool.

(** [std::istream_iterator<std::string>] over the text: the maximal runs of
    characters that are not white space.  [cur] is the token being read. *)
Fixpoint tokens_of (cur : string) (text : string) : list string :=
  match text with
  | EmptyString => if String.eqb cur "" then [] else [cur]
  | String c rest =>
      if isspace c
      then (if String.eqb cur "" then tokens_of "" rest else cur :: tokens_of "" rest)
      else tokens_of (cur ++ String c "") rest
  end.

Definition tokenize (text : string) : list string := tokens_of "" text.

(** [std::string(mac_addr)] for a [char] buffer: the bytes before the first
    zero byte. *)
Fixpoint until_nul (bs : list byte) : list byte :=
  match bs with
  | [] => []
  | b :: rest => if Byte.eqb b x00 then [] else b :: until_nul rest
  end.

Definition is_empty {A : Type} (l : list A) : bool :=
  match l with [] => true | _ :: _ => false end.

Section Daemon.

Variable W : World.

(** ** [ApInterfaceImpl] *)

Record ApInterfaceImpl : Type := mkApInterfaceImpl {
  interface_name_ : string;
  interface_index_ : N;
  binder_ : IApInterface;
  (* an [int] *)
  number_of_associated_stations_ : Z
}.

Definition set_number_of_associated_stations (this : ApInterfaceImpl) (n : Z) : ApInterfaceImpl :=
  mkApInterfaceImpl (interface_name_ this) (interface_index_ this) (binder_ this) n.

(** [ApInterfaceImpl::ApInterfaceImpl]: the members are initialised, the
    creation is logged and the object subscribes to the station events of its
    interface index. *)
Definition ApInterfaceImpl_ctor {St : Type} (interface_name : string) (interface_index : N)
  : M St ApInterfaceImpl :=
  b <- ask (new_ApInterfaceBinder W) ;;
  LOG DEBUG ("Created ap interface " ++ interface_name
             ++ " with index " ++ dec_of_N interface_index) ;;
  emit (ESubscribeStationEvent interface_index) ;;
  ret (mkApInterfaceImpl interface_name interface_index b 0).

(** [ApInterfaceImpl::~ApInterfaceImpl] *)
Definition ApInterfaceImpl_dtor {St : Type} (this : ApInterfaceImpl) : M St unit :=
  emit (ENotifyImplDead (binder_ this)) ;;
  _ <- call (ESetUpState (interface_name_ this) false)
            (fun h => if_tool_SetUpState W h (interface_name_ this) false) ;;
  emit (EUnsubscribeStationEvent (interface_index_ this)).

Definition GetBinder (this : ApInterfaceImpl) : IApInterface := binder_ this.

Definition StartHostapd : M ApInterfaceImpl bool :=
  call EHostapdManagerStart (hostapd_manager_StartHostapd W).

Definition StopHostapd : M ApInterfaceImpl bool :=
  this <- get ;;
  (* Drop SIGKILL on hostapd. *)
  stopped <- call EHostapdManagerStop (hostapd_manager_StopHostapd W) ;;
  if negb stopped then ret false else
  (* Take down the interface. *)
  down <- call (ESetUpState (interface_name_ this) false)
               (fun h => if_tool_SetUpState W h (interface_name_ this) false) ;;
  if negb down then ret false else
  (* Set the interface mode back to station mode. *)
  reset <- call (ESetInterfaceMode (interface_index_ this) STATION_MODE)
                (fun h => netlink_SetInterfaceMode W h (interface_index_ this) STATION_MODE) ;;
  if negb reset
  then LOG ERROR "Failed to set interface back to station mode" ;; ret false
  else ret true.

Definition OnStationEvent (event : StationEvent) (mac_address : list byte)
  : M ApInterfaceImpl unit :=
  match event with
  | NEW_STATION =>
      LOG INFO ("New station " ++ GetMacString W mac_address
                ++ " associated with hotspot") ;;
      modify (fun this => set_number_of_associated_stations this
                (wrap_int (number_of_associated_stations_ this + 1)))
  | DEL_STATION =>
      LOG INFO ("Station " ++ GetMacString W mac_address
                ++ " disassociated from hotspot") ;;
      this <- get ;;
      if (number_of_associated_stations_ this <=? 0)%Z
      then LOG ERROR ("Received DEL_STATION event when station counter is: "
                      ++ dec_of_Z (number_of_associated_stations_ this))
      else modify (fun this => set_number_of_associated_stations this
                     (wrap_int (number_of_associated_stations_ this - 1)))
  end.

Definition GetNumberOfAssociatedStations (this : ApInterfaceImpl) : Z :=
  number_of_associated_stations_ this.

(** The station events of one interface, delivered one after the other. *)
Fixpoint deliver (evs : list (StationEvent * list byte)) : M ApInterfaceImpl unit :=
  match evs with
  | [] => ret tt
  | (event, mac) :: rest => OnStationEvent event mac ;; deliver rest
  end.

(** ** [Server] *)

(** [ClientInterfaceImpl] is not among the sources at hand: the object keeps
    what [Server::createClientInterface] passes to its constructor, and its
    construction and destruction are recorded as one event each. *)
Record ClientInterfaceImpl : Type := mkClientInterfaceImpl {
  client_wiphy_index : N;
  client_interface_name : string;
  client_interface_index : N;
  client_mac_address : list byte;
  client_binder : IClientInterface
}.

Definition ClientInterfaceImpl_ctor {St : Type}
  (wiphy_index : N) (interface_name : string) (interface_index : N) (mac : list byte)
  : M St ClientInterfaceImpl :=
  b <- ask (new_ClientInterfaceBinder W) ;;
  emit (EClientInterfaceImplCreated b) ;;
  ret (mkClientInterfaceImpl wiphy_index interface_name interface_index mac b).

Definition ClientInterfaceImpl_dtor {St : Type} (this : ClientInterfaceImpl) : M St unit :=
  emit (EClientInterfaceImplDestroyed (client_binder this)).

Definition kBaseIfName : string := "wlan0".

(** The members of [Server] that change, and [ap_interface], the
    function-local [static] of [setHostapdParam]. *)
Record Server : Type := mkServer {
  interface_event_callbacks_ : list IInterfaceEventCallback;
  client_interfaces_ : list ClientInterfaceImpl;
  ap_interfaces_ : list ApInterfaceImpl;
  interfaces_ : list InterfaceInfo;
  wiphy_index_ : N;
  ap_interface : option IApInterface
}.

Definition set_interface_event_callbacks (s : Server) v : Server :=
  mkServer v (client_interfaces_ s) (ap_interfaces_ s) (interfaces_ s)
           (wiphy_index_ s) (ap_interface s).
Definition set_client_interfaces (s : Server) v : Server :=
  mkServer (interface_event_callbacks_ s) v (ap_interfaces_ s) (interfaces_ s)
           (wiphy_index_ s) (ap_interface s).
Definition set_ap_interfaces (s : Server) v : Server :=
  mkServer (interface_event_callbacks_ s) (client_interfaces_ s) v (interfaces_ s)
           (wiphy_index_ s) (ap_interface s).
Definition set_interfaces (s : Server) v : Server :=
  mkServer (interface_event_callbacks_ s) (client_interfaces_ s) (ap_interfaces_ s) v
           (wiphy_index_ s) (ap_interface s).
Definition set_wiphy_index (s : Server) v : Server :=
  mkServer (interface_event_callbacks_ s) (client_interfaces_ s) (ap_interfaces_ s)
           (interfaces_ s) v (ap_interface s).
Definition set_ap_interface (s : Server) v : Server :=
  mkServer (interface_event_callbacks_ s) (client_interfaces_ s) (ap_interfaces_ s)
           (interfaces_ s) (wiphy_index_ s) v.

(** The server as its constructor leaves it.  [wiphy_index_] is not
    initialised by the constructor; it is written before it is first read. *)
Definition Server_ctor (wiphy0 : N) : Server := mkServer [] [] [] [] wiphy0 None.

(** *** The listener registry *)

Definition same_binder (a b : IInterfaceEventCallback) : bool :=
  N.eqb (asBinder a) (asBinder b).

(** The loop of [RegisterCallback]: is there an entry with the binder of
    [callback]? *)
Fixpoint registered (callback : IInterfaceEventCallback)
  (callbacks : list IInterfaceEventCallback) : bool :=
  match callbacks with
  | [] => false
  | it :: rest => if same_binder callback it then true else registered callback rest
  end.

Definition RegisterCallback (callback : IInterfaceEventCallback) : M Server Status :=
  s <- get ;;
  if registered callback (interface_event_callbacks_ s)
  then LOG WARNING "Ignore duplicate interface event callback registration" ;;
       ret Status_ok
  else LOG INFO "New interface event callback registered" ;;
       modify (fun s => set_interface_event_callbacks s
                          (interface_event_callbacks_ s ++ [callback])) ;;
       ret Status_ok.

(** The loop of [UnregisterCallback]: erase the first entry with the binder
    of [callback]; [None] when the loop runs to the end. *)
Fixpoint erase_first (callback : IInterfaceEventCallback)
  (callbacks : list IInterfaceEventCallback) : option (list IInterfaceEventCallback) :=
  match callbacks with
  | [] => None
  | it :: rest =>
      if same_binder callback it then Some rest
      else match erase_first callback rest with
           | Some rest' => Some (it :: rest')
           | None => None
           end
  end.

Definition UnregisterCallback (callback : IInterfaceEventCallback) : M Server Status :=
  s <- get ;;
  match erase_first callback (interface_event_callbacks_ s) with
  | Some callbacks' =>
      modify (fun s => set_interface_event_callbacks s callbacks') ;;
      LOG INFO "Unregister interface event callback" ;;
      ret Status_ok
  | None =>
      LOG WARNING "Failed to find registered interface event callback to unregister" ;;
      ret Status_ok
  end.

Definition BroadcastClientInterfaceReady (network_interface : IClientInterface) : M Server unit :=
  s <- get ;;
  for_each (interface_event_callbacks_ s)
           (fun it => emit (EOnClientInterfaceReady it network_interface)).

Definition BroadcastApInterfaceReady (network_interface : IApInterface) : M Server unit :=
  s <- get ;;
  for_each (interface_event_callbacks_ s)
           (fun it => emit (EOnApInterfaceReady it network_interface)).

Definition BroadcastClientInterfaceTornDown (network_interface : IClientInterface) : M Server unit :=
  s <- get ;;
  for_each (interface_event_callbacks_ s)
           (fun it => emit (EOnClientTorndownEvent it network_interface)).

Definition BroadcastApInterfaceTornDown (network_interface : IApInterface) : M Server unit :=
  s <- get ;;
  for_each (interface_event_callbacks_ s)
           (fun it => emit (EOnApTorndownEvent it network_interface)).

Definition BroadcastSoftApClientConnectStatus (mac_address : list byte)
  (connect_status : bool) : M Server unit :=
  s <- get ;;
  for_each (interface_event_callbacks_ s)
           (fun it => emit (EOnSoftApClientEvent it mac_address connect_status)).

(** *** Choosing the interface *)

(** A failing [GetWiphyIndexWithInterfaceName] is taken to leave its
    out-parameter as it was. *)
Definition RefreshWiphyIndex : M Server bool :=
  r <- call (EGetWiphyIndexWithInterfaceName kBaseIfName)
            (fun h => netlink_GetWiphyIndexWithInterfaceName W h kBaseIfName) ;;
  match r with
  | Some wiphy => modify (fun s => set_wiphy_index s wiphy) ;; ret true
  | None => LOG ERROR "Failed to get wiphy index" ;; ret false
  end.

(** The test in the loop of [SetupInterface]. *)
Definition station_usable (iface : InterfaceInfo) : bool :=
  (negb (String.eqb (name iface) "p2p0")
   && negb (StartsWith (name iface) "aware_data")
   && negb (StartsWith (name iface) "softap"))%bool.

(** The loop of [SetupInterface]: the first interface that passes the test. *)
Fixpoint first_usable (ifaces : list InterfaceInfo) : option InterfaceInfo :=
  match ifaces with
  | [] => None
  | iface :: rest => if station_usable iface then Some iface else first_usable rest
  end.

(** [Server::SetupInterface]: [Some iface] is [true] with [*interface]
    written, [None] is [false]. A failing [GetInterfaces] is taken to leave
    the vector it was given (just cleared) empty. *)
Definition SetupInterface : M Server (option InterfaceInfo) :=
  s <- get ;;
  if negb (is_empty (client_interfaces_ s))
  then LOG ERROR "Cannot create STA interface when other interfaces exist" ;;
       ret None
  else
  refreshed <- RefreshWiphyIndex ;;
  if negb refreshed then ret None else
  s <- get ;;
  emit (ESubscribeRegDomainChange (wiphy_index_ s)) ;;
  modify (fun s => set_interfaces s []) ;;
  r <- call (EGetInterfaces (wiphy_index_ s))
            (fun h => netlink_GetInterfaces W h (wiphy_index_ s)) ;;
  match r with
  | None => LOG ERROR "Failed to get interfaces info from kernel" ;; ret None
  | Some ifaces =>
      modify (fun s => set_interfaces s ifaces) ;;
      match first_usable ifaces with
      | Some iface => ret (Some iface)
      | None => LOG ERROR "No usable interface found" ;; ret None
      end
  end.

(** The loop of [QcSetupInterface]: every interface looked at is logged. *)
Fixpoint first_with_prefix (ifaces : list InterfaceInfo) (ifname : string)
  : M Server (option InterfaceInfo) :=
  match ifaces with
  | [] => ret None
  | iface :: rest =>
      LOG ERROR (name iface) ;;
      if StartsWith (name iface) ifname then ret (Some iface)
      else first_with_prefix rest ifname
  end.

Definition QcSetupInterface (ifname : string) : M Server (option InterfaceInfo) :=
  refreshed <- RefreshWiphyIndex ;;
  if negb refreshed then ret None else
  s <- get ;;
  emit (ESubscribeRegDomainChange (wiphy_index_ s)) ;;
  modify (fun s => set_interfaces s []) ;;
  r <- call (EGetInterfaces (wiphy_index_ s))
            (fun h => netlink_GetInterfaces W h (wiphy_index_ s)) ;;
  match r with
  | None => LOG ERROR "Failed to get interfaces info from kernel" ;; ret None
  | Some ifaces =>
      modify (fun s => set_interfaces s ifaces) ;;
      found <- first_with_prefix ifaces ifname ;;
      match found with
      | Some iface => ret (Some iface)
      | None =>
          (* Bridge interface is not part of GetInterfaces. *)
          br_index <- call (Eif_nametoindex ifname)
                           (fun h => libc_if_nametoindex W h ifname) ;;
          let no_usable :=
            LOG ERROR ("No usable interface found with name " ++ ifname) ;; ret None in
          if N.eqb br_index 0
          then reason <- ask (libc_strerror_errno W) ;;
               LOG ERROR ("Failed to get requested interface " ++ reason) ;;
               no_usable
          else
            hw <- call (Elinux_get_ifhwaddr ifname)
                       (fun h => qsap_linux_get_ifhwaddr W h ifname) ;;
            if Z.eqb (fst hw) 0
            then LOG INFO ("Bridged iface found " ++ ifname) ;;
                 ret (Some (mkInterfaceInfo br_index ifname
                                            (until_nul (firstn 6 (snd hw)))))
            else no_usable
      end
  end.

(** *** Creating interfaces

    [created_interface] is the value [*created_interface] has when the call
    is made; the second component of the result is its value afterwards. *)

Definition createApInterface (created_interface : option IApInterface)
  : M Server (Status * option IApInterface) :=
  r <- SetupInterface ;;
  match r with
  | None => ret (Status_ok, created_interface)
  | Some interface =>
      ap <- ApInterfaceImpl_ctor (name interface) (index interface) ;;
      modify (fun s => set_ap_interfaces s (ap_interfaces_ s ++ [ap])) ;;
      BroadcastApInterfaceReady (GetBinder ap) ;;
      ret (Status_ok, Some (GetBinder ap))
  end.

Definition createClientInterface (created_interface : option IClientInterface)
  : M Server (Status * option IClientInterface) :=
  r <- SetupInterface ;;
  match r with
  | None => ret (Status_ok, created_interface)
  | Some interface =>
      s <- get ;;
      client <- ClientInterfaceImpl_ctor (wiphy_index_ s) (name interface)
                                         (index interface) (mac_address interface) ;;
      modify (fun s => set_client_interfaces s (client_interfaces_ s ++ [client])) ;;
      BroadcastClientInterfaceReady (client_binder client) ;;
      ret (Status_ok, Some (client_binder client))
  end.

Definition QcCreateApInterface (ifname : list byte) (created_interface : option IApInterface)
  : M Server (Status * option IApInterface) :=
  r <- QcSetupInterface (c_str (string_of_list_byte ifname)) ;;
  match r with
  | None => ret (Status_ok, created_interface)
  | Some interface =>
      ap <- ApInterfaceImpl_ctor (name interface) (index interface) ;;
      modify (fun s => set_ap_interfaces s (ap_interfaces_ s ++ [ap])) ;;
      BroadcastApInterfaceReady (GetBinder ap) ;;
      ret (Status_ok, Some (GetBinder ap))
  end.

(** *** Tearing down *)

(** [client_interfaces_.clear()] and [ap_interfaces_.clear()]: the elements
    are destroyed from the last to the first, as libc++ does. *)
Definition clear_client_interfaces : M Server unit :=
  s <- get ;;
  for_each (rev (client_interfaces_ s)) ClientInterfaceImpl_dtor ;;
  modify (fun s => set_client_interfaces s []).

Definition clear_ap_interfaces : M Server unit :=
  s <- get ;;
  for_each (rev (ap_interfaces_ s)) ApInterfaceImpl_dtor ;;
  modify (fun s => set_ap_interfaces s []).

Definition MarkDownAllInterfaces : M Server unit :=
  r <- call (EGetWiphyIndexWithInterfaceName kBaseIfName)
            (fun h => netlink_GetWiphyIndexWithInterfaceName W h kBaseIfName) ;;
  match r with
  | None => ret tt
  | Some wiphy_index =>
      r' <- call (EGetInterfaces wiphy_index)
                 (fun h => netlink_GetInterfaces W h wiphy_index) ;;
      match r' with
      | None => ret tt
      | Some interfaces =>
          for_each interfaces
            (fun interface =>
               _ <- call (ESetUpState (name interface) false)
                         (fun h => if_tool_SetUpState W h (name interface) false) ;;
               ret tt)
      end
  end.

Definition tearDownStaInterfaces : M Server Status :=
  s <- get ;;
  for_each (client_interfaces_ s)
           (fun it => BroadcastClientInterfaceTornDown (client_binder it)) ;;
  clear_client_interfaces ;;
  ret Status_ok.

Definition tearDownApInterfaces : M Server Status :=
  s <- get ;;
  for_each (ap_interfaces_ s)
           (fun it => BroadcastApInterfaceTornDown (GetBinder it)) ;;
  clear_ap_interfaces ;;
  ret Status_ok.

Definition tearDownInterfaces : M Server Status :=
  s <- get ;;
  for_each (client_interfaces_ s)
           (fun it => BroadcastClientInterfaceTornDown (client_binder it)) ;;
  clear_client_interfaces ;;
  for_each (ap_interfaces_ s)
           (fun it => BroadcastApInterfaceTornDown (GetBinder it)) ;;
  clear_ap_interfaces ;;
  MarkDownAllInterfaces ;;
  s' <- get ;;
  emit (EUnsubscribeRegDomainChange (wiphy_index_ s')) ;;
  ret Status_ok.

(** *** The raw command of the vendor build: [setHostapdParam] *)

Definition max_arg_size : nat := 10.

(** The loop that copies the tokens into [data]: [None] is the early return
    of "Command too long", [Some data] the array once the loop is over (its
    length is [argc]). *)
Fixpoint copy_tokens (tokens : list string) (data : list string) : option (list string) :=
  match tokens with
  | [] => Some data
  | s :: rest =>
      if (max_arg_size <=? List.length data)%nat then None
      else copy_tokens rest (data ++ [c_str s])
  end.

(** [argv[i]] *)
Definition arg (argv : list string) (i : nat) : string := nth i argv "".

(** What [*out_success] holds after a binder call that may have written it. *)
Definition written (w : option bool) (old : bool) : bool :=
  match w with Some v => v | None => old end.

(** The body shared by the two [stopap] branches ([dual] tells them apart). *)
Definition stop_ap (dual : bool) : M Server bool :=
  s <- get ;;
  match is_empty (ap_interfaces_ s), ap_interface s with
  | false, Some ap =>
      r <- call (EstopHostapd ap dual) (fun h => binder_stopHostapd W h ap dual) ;;
      if isOk (fst r)
      then clear_ap_interfaces ;;
           modify (fun s => set_ap_interface s None) ;;
           LOG INFO "hostapd stopped" ;;
           ret true
      else LOG INFO "Failed to stop hostapd" ;; ret false
  | _, _ => LOG INFO "Failed to stop hostapd" ;; ret false
  end.

(** The [startap dual] branch once [argc >= 6]: the conjunction is evaluated
    from left to right and stops at the first conjunct that is false. *)
Definition start_dual_ap (bridge sap0 sap1 : string) : M Server bool :=
  let failed : M Server bool :=
    LOG ERROR "Failed to start dual hostapd" ;; ret false in
  s <- get ;;
  r1 <- QcCreateApInterface (list_byte_of_string bridge) (ap_interface s) ;;
  modify (fun s => set_ap_interface s (snd r1)) ;;
  if negb (isOk (fst r1)) then failed else
  (* dual_ap_interface starts as nullptr *)
  r2 <- QcCreateApInterface (list_byte_of_string sap0) None ;;
  if negb (isOk (fst r2)) then failed else
  r3 <- QcCreateApInterface (list_byte_of_string sap1) (snd r2) ;;
  if negb (isOk (fst r3)) then failed else
  s3 <- get ;;
  match ap_interface s3 with
  | None => failed
  | Some ap =>
      r <- call (EstartHostapd ap true) (fun h => binder_startHostapd W h ap true) ;;
      if isOk (fst r)
      then LOG INFO "dual hostapd started" ;; ret true
      else failed
  end.

(** The branch [argc > 2]: the chain of [else if], last link first. *)
Definition three_or_more (argv : list string) : M Server bool :=
  let argc := List.length argv in
  let a1 := arg argv 1 in
  let a2 := arg argv 2 in
  let try_setsoftap : M Server bool :=
    if streq a1 "setsoftap"
    then r <- call (EqsapsetSoftap argv) (fun h => qsapsetSoftap W h argv) ;;
         ret (Z.eqb r 0)
    else ret false in
  let try_stopap : M Server bool :=
    if (streq a1 "stopap" && streq a2 "dual")%bool then stop_ap true
    else try_setsoftap in
  let try_startap : M Server bool :=
    if (streq a1 "startap" && streq a2 "dual")%bool
    then (if (argc <? 6)%nat
          then LOG ERROR "Need additional args <bridge, sap0, sap1>" ;; ret false
          else start_dual_ap (arg argv 3) (arg argv 4) (arg argv 5))
    else try_stopap in
  let try_bridge : M Server bool :=
    if streq a1 "bridge"
    then r <- call (Eqsap_control_bridge argv) (fun h => qsap_control_bridge W h argv) ;;
         ret (Z.eqb r 0)
    else try_startap in
  let try_remove : M Server bool :=
    if streq a1 "remove"
    then r <- call (Eqsap_add_or_remove_interface a2 0)
                   (fun h => qsap_add_or_remove_interface W h a2 0) ;;
         if negb (Z.eqb r 0) then ret true else try_bridge
    else try_bridge in
  let try_create : M Server bool :=
    if streq a1 "create"
    then r <- call (Eqsap_add_or_remove_interface a2 1)
                   (fun h => qsap_add_or_remove_interface W h a2 1) ;;
         if negb (Z.eqb r 0) then ret true else try_remove
    else try_remove in
  if streq a1 "qccmd"
  then r <- call (Eqsap_hostd_exec argv) (fun h => qsap_hostd_exec W h argv) ;;
       ret (Z.eqb r 0)
  else try_create.

(** The branch [argc == 2]. *)
Definition exactly_two (argv : list string) : M Server bool :=
  let a1 := arg argv 1 in
  let otherwise (out_success : bool) : M Server bool :=
    if streq a1 "stopap" then stop_ap false else ret out_success in
  if streq a1 "startap" then
    s <- get ;;
    r <- createApInterface (ap_interface s) ;;
    modify (fun s => set_ap_interface s (snd r)) ;;
    if negb (isOk (fst r)) then otherwise false else
    match snd r with
    | None => otherwise false
    | Some ap =>
        st <- call (EstartHostapd ap false) (fun h => binder_startHostapd W h ap false) ;;
        if isOk (fst st)
        then LOG INFO "hostapd started" ;; ret true
        else otherwise (written (snd st) false)
    end
  else otherwise false.

(** [Server::setHostapdParam]: the status and the final [*out_success]. *)
Definition setHostapdParam (cmd : list byte) : M Server (Status * bool) :=
  let text := string_of_list_byte cmd in
  LOG INFO ("Command: " ++ text ++ " (len=" ++ dec_of_N (N.of_nat (List.length cmd)) ++ ")") ;;
  match copy_tokens (tokenize text) [] with
  | None => LOG ERROR "Command too long" ;; ret (Status_ok, false)
  | Some argv =>
      out_success <-
        (if (2 <? List.length argv)%nat then three_or_more argv
         else if (1 <? List.length argv)%nat then exactly_two argv
         else LOG ERROR ("Wrong/Unknown command: " ++ text) ;; ret false) ;;
      ret (Status_ok, out_success)
  end.

End Daemon.

(** ** Notions used to state the properties *)

Definition conflict_log : Event :=
  Log ERROR "Cannot create STA interface when other interfaces exist".

(** [n] calls of [createClientInterface], one after the other; every call is
    given the out-parameter as the call before left it. *)
Fixpoint attempts (W : World) (n : nat) (created_interface : option IClientInterface)
  : M Server (list (Status * option IClientInterface)) :=
  match n with
  | O => ret []
  | S k =>
      r <- createClientInterface W created_interface ;;
      rs <- attempts W k (snd r) ;;
      ret (r :: rs)
  end.

(** The position of the first event of a kind, if there is one. *)
Fixpoint first_index (kind : Event -> bool) (evs : list Event) : option nat :=
  match evs with
  | [] => None
  | e :: rest =>
      if kind e then Some O
      else match first_index kind rest with
           | Some i => Some (S i)
           | None => None
           end
  end.

Definition is_unsubscribe (e : Event) : bool :=
  match e with EUnsubscribeStationEvent _ => true | _ => false end.
Definition is_mark_down (e : Event) : bool :=
  match e with ESetUpState _ false => true | _ => false end.
Definition is_daemon_stop (e : Event) : bool :=
  match e with EHostapdManagerStop | EstopHostapd _ _ => true | _ => false end.
Definition is_mode_reset (e : Event) : bool :=
  match e with ESetInterfaceMode _ STATION_MODE => true | _ => false end.
Definition is_anomaly (e : Event) : bool :=
  match e with Log ERROR _ => true | _ => false end.

(** [a] happens, and before any [b] does. *)
Definition precedes (a b : Event -> bool) (evs : list Event) : bool :=
  match first_index a evs, first_index b evs with
  | Some i, Some j => (i <? j)%nat
  | Some _, None => true
  | None, _ => false
  end.

(** What one destroyed AP controller does, and what the listeners hear when
    an AP interface is torn down. *)
Definition dtor_events (this : ApInterfaceImpl) : list Event :=
  [ENotifyImplDead (binder_ this);
   ESetUpState (interface_name_ this) false;
   EUnsubscribeStationEvent (interface_index_ this)].

Definition torn_down_events (listeners : list IInterfaceEventCallback)
  (this : ApInterfaceImpl) : list Event :=
  map (fun it => EOnApTorndownEvent it (binder_ this)) listeners.

(** The events of [StopHostapd] when its three outside calls answer
    [stopped], [down] and [reset]. *)
Definition stop_events (this : ApInterfaceImpl) (stopped down reset : bool) : list Event :=
  EHostapdManagerStop ::
  (if stopped
   then ESetUpState (interface_name_ this) false ::
        (if down
         then ESetInterfaceMode (interface_index_ this) STATION_MODE ::
              (if reset then []
               else [Log ERROR "Failed to set interface back to station mode"])
         else [])
   else []).

(** The names station mode must not take, in the words of the specification:
    [p2p0], and any name that starts with [aware_data] or [softap]. *)
Definition reserved (n : string) : Prop :=
  n = "p2p0" \/ String.prefix "aware_data" n = true \/ String.prefix "softap" n = true.

(** The outside calls of [SetupInterface] up to the interface list, and the
    history at the moment the list is asked for. *)
Definition setup_events (wiphy : N) : list Event :=
  [EGetWiphyIndexWithInterfaceName kBaseIfName;
   ESubscribeRegDomainChange wiphy;
   EGetInterfaces wiphy].

Definition at_snapshot (h : History) (wiphy : N) : History :=
  h ++ [EGetWiphyIndexWithInterfaceName kBaseIfName; ESubscribeRegDomainChange wiphy].

(** The server once [SetupInterface] has refreshed the wiphy index and the
    interface list. *)
Definition refreshed (s : Server) (wiphy : N) (ifaces : list InterfaceInfo) : Server :=
  set_interfaces (set_wiphy_index s wiphy) ifaces.

Definition no_usable_log : Event := Log ERROR "No usable interface found".

(** What the listeners hear when an interface is ready. *)
Definition client_ready_events (listeners : list IInterfaceEventCallback)
  (b : IClientInterface) : list Event :=
  map (fun it => EOnClientInterfaceReady it b) listeners.

Definition ap_ready_events (listeners : list IInterfaceEventCallback)
  (b : IApInterface) : list Event :=
  map (fun it => EOnApInterfaceReady it b) listeners.

(** The events of a constructed AP controller. *)
Definition ap_created_events (i : InterfaceInfo) : list Event :=
  [Log DEBUG ("Created ap interface " ++ name i ++ " with index " ++ dec_of_N (index i));
   ESubscribeStationEvent (index i)].

(** The counter alone: what one station event, and a sequence of them, does
    to [number_of_associated_stations_]. *)
Definition count_step (c : Z) (ev : StationEvent) : Z :=
  match ev with
  | NEW_STATION => wrap_int (c + 1)
  | DEL_STATION => if (c <=? 0)%Z then c else wrap_int (c - 1)
  end.

Definition count_after (evs : list (StationEvent * list byte)) (c : Z) : Z :=
  fold_left count_step (map fst evs) c.

Definition is_join (e : StationEvent * list byte) : bool :=
  match fst e with NEW_STATION => true | DEL_STATION => false end.

(** How many of the events are joins. *)
Definition joins (evs : list (StationEvent * list byte)) : nat :=
  List.length (filter is_join evs).

(** No join arrives while the counter reads [INT_MAX]: every join of the
    sequence finds the counter, as the events before it left it, below
    [INT_MAX]. *)
Fixpoint no_join_at_max (evs : list (StationEvent * list byte)) (c : Z) : Prop :=
  match evs with
  | [] => True
  | e :: rest =>
      (is_join e = true -> (c < INT_MAX)%Z)
      /\ no_join_at_max rest (count_step c (fst e))
  end.

(** The registry: the entries that stand for the binder of [callback], the
    notifications sent to that binder, and a registry in which no binder
    occurs twice. *)
Definition count_listener (callback : IInterfaceEventCallback)
  (callbacks : list IInterfaceEventCallback) : nat :=
  List.length (filter (same_binder callback) callbacks).

Definition listener_of (e : Event) : option IInterfaceEventCallback :=
  match e with
  | EOnClientInterfaceReady it _ | EOnApInterfaceReady it _
  | EOnClientTorndownEvent it _ | EOnApTorndownEvent it _
  | EOnSoftApClientEvent it _ _ => Some it
  | _ => None
  end.

Definition notifies (callback : IInterfaceEventCallback) (e : Event) : bool :=
  match listener_of e with
  | Some it => same_binder callback it
  | None => false
  end.

Definition notifications (callback : IInterfaceEventCallback) (evs : list Event) : nat :=
  List.length (filter (notifies callback) evs).

Definition distinct_listeners (callbacks : list IInterfaceEventCallback) : Prop :=
  NoDup (map asBinder callbacks).

(** ** The daemon at work

    Everything that reaches the server: the calls of its binder interface
    and the station events the kernel delivers to one of its AP controllers. *)
Inductive Request : Type :=
| ReqRegisterCallback (callback : IInterfaceEventCallback)
| ReqUnregisterCallback (callback : IInterfaceEventCallback)
| ReqCreateApInterface
| ReqCreateClientInterface
| ReqQcCreateApInterface (ifname : list byte)
| ReqTearDownInterfaces
| ReqTearDownStaInterfaces
| ReqTearDownApInterfaces
| ReqSetHostapdParam (cmd : list byte)
| ReqStationEvent (nth_ap : nat) (event : StationEvent) (mac_address : list byte).

Fixpoint update_nth {A : Type} (n : nat) (x : A) (l : list A) : list A :=
  match l, n with
  | [], _ => []
  | _ :: rest, O => x :: rest
  | y :: rest, S k => y :: update_nth k x rest
  end.

(** A station event for the [n]th AP controller, if there is one. *)
Definition station_event_at (W : World) (n : nat) (event : StationEvent)
  (mac_address : list byte) : M Server unit :=
  fun h s =>
    match nth_error (ap_interfaces_ s) n with
    | Some this =>
        let r := OnStationEvent W event mac_address h this in
        (tt, set_ap_interfaces s (update_nth n (state r) (ap_interfaces_ s)), events r)
    | None => (tt, s, [])
    end.

Definition serve (W : World) (req : Request) : M Server unit :=
  match req with
  | ReqRegisterCallback callback => _ <- RegisterCallback callback ;; ret tt
  | ReqUnregisterCallback callback => _ <- UnregisterCallback callback ;; ret tt
  | ReqCreateApInterface => _ <- createApInterface W None ;; ret tt
  | ReqCreateClientInterface => _ <- createClientInterface W None ;; ret tt
  | ReqQcCreateApInterface ifname => _ <- QcCreateApInterface W ifname None ;; ret tt
  | ReqTearDownInterfaces => _ <- tearDownInterfaces W ;; ret tt
  | ReqTearDownStaInterfaces => _ <- tearDownStaInterfaces ;; ret tt
  | ReqTearDownApInterfaces => _ <- tearDownApInterfaces W ;; ret tt
  | ReqSetHostapdParam cmd => _ <- setHostapdParam W cmd ;; ret tt
  | ReqStationEvent n event mac_address => station_event_at W n event mac_address
  end.

(** The server after a sequence of requests, from its construction on. *)
Definition serve_all (W : World) (reqs : list Request) : M Server unit :=
  for_each reqs (serve W).

(** A computation that leaves the registry of listeners as it is. *)
Definition keeps_registry {A : Type} (m : M Server A) : Prop :=
  forall h s,
    interface_event_callbacks_ (state (m h s)) = interface_event_callbacks_ s.

(** The five broadcasts of the server. *)
Inductive Broadcast : Type :=
| ClientInterfaceReady (iface : IClientInterface)
| ApInterfaceReady (iface : IApInterface)
| ClientInterfaceTornDown (iface : IClientInterface)
| ApInterfaceTornDown (iface : IApInterface)
| SoftApClientConnectStatus (mac_address : list byte) (connect_status : bool).

Definition broadcast (b : Broadcast) : M Server unit :=
  match b with
  | ClientInterfaceReady i => BroadcastClientInterfaceReady i
  | ApInterfaceReady i => BroadcastApInterfaceReady i
  | ClientInterfaceTornDown i => BroadcastClientInterfaceTornDown i
  | ApInterfaceTornDown i => BroadcastApInterfaceTornDown i
  | SoftApClientConnectStatus mac st => BroadcastSoftApClientConnectStatus mac st
  end.

Definition broadcast_event (b : Broadcast) (it : IInterfaceEventCallback) : Event :=
  match b with
  | ClientInterfaceReady i => EOnClientInterfaceReady it i
  | ApInterfaceReady i => EOnApInterfaceReady it i
  | ClientInterfaceTornDown i => EOnClientTorndownEvent it i
  | ApInterfaceTornDown i => EOnApTorndownEvent it i
  | SoftApClientConnectStatus mac st => EOnSoftApClientEvent it mac st
  end.

(** ** Concrete worlds and states, for the examples *)

(** A world with a fixed wiphy (index 0) reached through [wlan0], a fixed
    interface list, one bridge [br0] known to the OS only, and outside calls
    that succeed or fail as the three flags say.  [new] hands out the length
    of the history as the address of the object. *)
Definition sample_world (snapshot : list InterfaceInfo)
  (stop_ok down_ok mode_ok : bool) : World :=
  {| netlink_GetWiphyIndexWithInterfaceName :=
       fun _ ifname => if String.eqb ifname "wlan0" then Some 0%N else None;
     netlink_GetInterfaces := fun _ _ => Some snapshot;
     netlink_SetInterfaceMode := fun _ _ _ => mode_ok;
     if_tool_SetUpState := fun _ _ _ => down_ok;
     hostapd_manager_StartHostapd := fun _ => true;
     hostapd_manager_StopHostapd := fun _ => stop_ok;
     libc_if_nametoindex := fun _ ifname => if String.eqb ifname "br0" then 7%N else 0%N;
     libc_strerror_errno := fun _ => "No such device";
     qsap_linux_get_ifhwaddr := fun _ _ => (0%Z, [x02; x1a; x11; xf0; x0c; x01]);
     qsap_hostd_exec := fun _ _ => 0%Z;
     qsap_add_or_remove_interface := fun _ _ _ => 1%Z;
     qsap_control_bridge := fun _ _ => 0%Z;
     qsapsetSoftap := fun _ _ => 0%Z;
     binder_startHostapd := fun _ _ _ => (Status_ok, Some true);
     binder_stopHostapd := fun _ _ _ => (Status_ok, Some true);
     new_ApInterfaceBinder := fun h => N.of_nat (List.length h);
     new_ClientInterfaceBinder := fun h => N.of_nat (List.length h);
     GetMacString := fun _ => "02:1a:11:f0:0c:01" |}.

Definition iface (i : N) (n : string) : InterfaceInfo :=
  mkInterfaceInfo i n [x02; x1a; x11; xf0; x0c; x01].

(** The interface list of the exclusion example. *)
Definition sample_snapshot : list InterfaceInfo :=
  [iface 3 "p2p0"; iface 4 "aware_data0"; iface 5 "softap0"; iface 6 "wlan1"].

(** A server in which one station interface exists. *)
Definition sample_station : ClientInterfaceImpl :=
  mkClientInterfaceImpl 0 "wlan1" 6 [x02; x1a; x11; xf0; x0c; x01] 40%N.

Definition server_with_station : Server :=
  mkServer [] [sample_station] [] sample_snapshot 0 None.

(** An AP controller on [wlan0]. *)
Definition sample_ap : ApInterfaceImpl := mkApInterfaceImpl "wlan0" 3 50%N 0.

Definition sample_listener : IInterfaceEventCallback := mkCallback 1 100.

(** A world in which every outside call succeeds and the kernel lists the
    interfaces of the exclusion example; one in which it lists [softap0]
    only. *)
Definition all_fine : World := sample_world sample_snapshot true true true.
Definition softap_only : World := sample_world [iface 5 "softap0"] true true true.

(** A server with one listener and one AP controller. *)
Definition server_with_ap : Server :=
  mkServer [sample_listener] [] [sample_ap] [] 0 None.

(** Eleven tokens. *)
Definition eleven_tokens : list byte :=
  list_byte_of_string "softap a b c d e f g h i j".

(** Worlds for the dual-AP command: the OS knows the bridge [br0]; the
    kernel lists both [sap0] and [sap1], or [sap1] only. *)
Definition dual_world : World :=
  sample_world [iface 8 "sap0"; iface 9 "sap1"] true true true.
Definition dual_world_without_sap0 : World :=
  sample_world [iface 9 "sap1"] true true true.

Definition startap_dual : list byte :=
  list_byte_of_string "cmd startap dual br0 sap0 sap1".

(** A world in which hostapd cannot be stopped. *)
Definition hostapd_stuck : World := sample_world sample_snapshot false true true.

(** Three station events. *)
Definition sample_mac : list byte := [x02; x1a; x11; xf0; x0c; x01].
Definition leave_join_leave : list (StationEvent * list byte) :=
  [(DEL_STATION, sample_mac); (NEW_STATION, sample_mac); (DEL_STATION, sample_mac)].

(** A station that joins and leaves again, [n] times over. *)
Fixpoint in_and_out (n : nat) : list (StationEvent * list byte) :=
  match n with
  | O => []
  | S k => (NEW_STATION, sample_mac) :: (DEL_STATION, sample_mac) :: in_and_out k
  end.

(** So many joins that a 32-bit counter cannot hold them. *)
Definition too_many_joins : list (StationEvent * list byte) :=
  repeat (NEW_STATION, []) (Z.to_nat 2147483648).

(** ** More of [Server] *)

(** [sp<IBinder>]: the binder behind an interface handle. *)
Definition IBinder : Type := N.

(** [Server::GetClientInterfaces] and [Server::GetApInterfaces]: the loop
    pushes the binder of every controller onto the vector the caller passed;
    the result is the status and the vector afterwards. *)
Definition GetClientInterfaces (out_client_interfaces : list IBinder)
  : M Server (Status * list IBinder) :=
  s <- get ;;
  ret (Status_ok,
       fold_left (fun out it => out ++ [client_binder it])
                 (client_interfaces_ s) out_client_interfaces).

Definition GetApInterfaces (out_ap_interfaces : list IBinder)
  : M Server (Status * list IBinder) :=
  s <- get ;;
  ret (Status_ok,
       fold_left (fun out it => out ++ [GetBinder it])
                 (ap_interfaces_ s) out_ap_interfaces).

(** A computation that leaves a member of the server as it is, and one after
    which no station controller is left. *)
Definition untouched {X A : Type} (member : Server -> X) (m : M Server A) : Prop :=
  forall h s, member (state (m h s)) = member s.

Definition no_station_left {A : Type} (m : M Server A) : Prop :=
  forall h s, client_interfaces_ (state (m h s)) = [].

(** What the listeners hear when a station interface is torn down, and what
    a destroyed station controller does. *)
Definition client_torn_down_events (listeners : list IInterfaceEventCallback)
  (this : ClientInterfaceImpl) : list Event :=
  map (fun it => EOnClientTorndownEvent it (client_binder this)) listeners.

Definition client_dtor_events (this : ClientInterfaceImpl) : list Event :=
  [EClientInterfaceImplDestroyed (client_binder this)].

(** The events of [tearDownStaInterfaces] and of [tearDownApInterfaces] on a
    server. *)
Definition sta_teardown_events (s : Server) : list Event :=
  flat_map (client_torn_down_events (interface_event_callbacks_ s)) (client_interfaces_ s)
  ++ flat_map client_dtor_events (rev (client_interfaces_ s)).

Definition ap_teardown_events (s : Server) : list Event :=
  flat_map (torn_down_events (interface_event_callbacks_ s)) (ap_interfaces_ s)
  ++ flat_map dtor_events (rev (ap_interfaces_ s)).

(** The events of [MarkDownAllInterfaces] when the wiphy lookup answers
    [wiphy] and the interface list [listed]. *)
Definition mark_down_events (wiphy : option N) (listed : option (list InterfaceInfo))
  : list Event :=
  EGetWiphyIndexWithInterfaceName kBaseIfName ::
  match wiphy with
  | None => []
  | Some w =>
      EGetInterfaces w ::
      match listed with
      | None => []
      | Some interfaces => map (fun i => ESetUpState (name i) false) interfaces
      end
  end.

(** Station-event subscriptions of an interface index in a history: taken
    out, given back, and those still standing. *)
Definition subscribes (i : N) (e : Event) : bool :=
  match e with ESubscribeStationEvent j => N.eqb i j | _ => false end.
Definition unsubscribes (i : N) (e : Event) : bool :=
  match e with EUnsubscribeStationEvent j => N.eqb i j | _ => false end.

Definition standing (i : N) (evs : list Event) : Z :=
  (Z.of_nat (List.length (filter (subscribes i) evs))
   - Z.of_nat (List.length (filter (unsubscribes i) evs)))%Z.

(** The AP controllers of the server on interface index [i]. *)
Definition controllers_on (i : N) (s : Server) : Z :=
  Z.of_nat (List.length (filter (fun this => N.eqb i (interface_index_ this))
                                (ap_interfaces_ s))).

(** A computation that takes out or gives back as many subscriptions of [i]
    as it adds or removes AP controllers on [i]. *)
Definition balanced {A : Type} (i : N) (m : M Server A) : Prop :=
  forall h s,
    (standing i (events (m h s))
     = controllers_on i (state (m h s)) - controllers_on i s)%Z.

(** The leaves among station events, and the errors logged. *)
Definition is_leave (e : StationEvent * list byte) : bool :=
  match fst e with NEW_STATION => false | DEL_STATION => true end.

Definition leaves (evs : list (StationEvent * list byte)) : nat :=
  List.length (filter is_leave evs).

Definition anomalies (evs : list Event) : nat :=
  List.length (filter is_anomaly evs).

(** The names [QcSetupInterface] logs while it looks for a prefix. *)
Definition name_logs (ifaces : list InterfaceInfo) : list Event :=
  map (fun i => Log ERROR (name i)) ifaces.

(** [argv] as [setHostapdParam] has it once the tokens are copied, and the
    line it logs first. *)
Definition argv_of (cmd : list byte) : option (list string) :=
  copy_tokens (tokenize (string_of_list_byte cmd)) [].

Definition command_log (cmd : list byte) : Event :=
  Log INFO ("Command: " ++ string_of_list_byte cmd
            ++ " (len=" ++ dec_of_N (N.of_nat (List.length cmd)) ++ ")").

(** The second token is one of the words [setHostapdParam] knows when there
    are more than two tokens, and when there are exactly two. *)
Definition known_long (a1 : string) : bool :=
  (streq a1 "qccmd" || streq a1 "create" || streq a1 "remove" || streq a1 "bridge"
   || streq a1 "startap" || streq a1 "stopap" || streq a1 "setsoftap")%bool.

Definition known_short (a1 : string) : bool :=
  (streq a1 "startap" || streq a1 "stopap")%bool.

(** A server that remembers the handle of its AP controller, and one that
    remembers a handle while a station interface exists. *)
Definition server_with_handle : Server :=
  mkServer [sample_listener] [] [sample_ap] [] 0 (Some 50%N).

Definition station_and_handle : Server :=
  mkServer [] [sample_station] [] sample_snapshot 0 (Some 50%N).

(** ** SSIDs in GBK: [scanning/wifi_gbk2utf.cpp]

    The scanner keeps a history of the access points whose SSID is written in
    GBK, each with its SSID converted to UTF-8.  The file has three globals:
    a mutex and the two ends of a singly linked list.  The conversion itself
    is done by ICU, which is not part of the sources: its two calls are
    recorded and answered by an [Icu], as the calls of the daemon are by a
    [World]. *)

Definition CONVERT_LINE_LEN : nat := 512.
Definition CHARSET_CN : string := "gbk".

(** [struct accessPointObjectItem].  [pNext] is the rest of the list the
    item stands in. *)
Record accessPointObjectItem : Type := mkItem {
  ssid : list byte;
  utf_ssid : list byte
}.

(** The globals.  [g_pItemListMutex] is [None] when it is [NULL]; otherwise
    it tells whether the mutex is locked.  [g_pItemList] is the chain of
    items from the head on; [g_pLastNode] points to its last item, and is
    [NULL] when there is none. *)
Record Globals : Type := mkGlobals {
  g_pItemListMutex : option bool;
  g_pItemList : list accessPointObjectItem
}.

Definition set_g_pItemListMutex (g : Globals) v : Globals :=
  mkGlobals v (g_pItemList g).
Definition set_g_pItemList (g : Globals) v : Globals :=
  mkGlobals (g_pItemListMutex g) v.

(** The globals when the program starts. *)
Definition globals_at_start : Globals := mkGlobals None [].

(** What the file does to the outside: log lines and ICU calls.  The line of
    [wifigbk_dumpSsid] ends with the text [display] points to. *)
Inductive GbkEvent : Type :=
| ELogSsid (text : string) (display : string)
| ELogInfo (msg : string)
| Eucnv_open (converterName : string)
| Eucnv_toAlgorithmic (source : list byte) (sourceLength : Z)
| Eucnv_close.

(** ICU.  [ucnv_open_fails] is [U_FAILURE(err)] after [ucnv_open];
    [ucnv_toAlgorithmic_utf8] gives the bytes the call wrote from the start of
    its target buffer, and [U_FAILURE(err)] afterwards. *)
Record Icu : Type := mkIcu {
  ucnv_open_fails : list GbkEvent -> string -> bool;
  ucnv_toAlgorithmic_utf8 : list GbkEvent -> list byte -> Z -> list byte * bool
}.

(** Computations on the globals.  [None] is a run the language leaves
    undefined: a mutex that is [NULL] or not in the state the call needs, a
    read past the end of a buffer, a [char*] that is [NULL] streamed into a
    log line. *)
Definition G (A : Type) : Type :=
  list GbkEvent -> Globals -> option (A * Globals * list GbkEvent).

Definition gret {A : Type} (a : A) : G A := fun _ g => Some (a, g, []).

Definition gbind {A B : Type} (m : G A) (k : A -> G B) : G B :=
  fun h g =>
    match m h g with
    | None => None
    | Some (a, g1, e1) =>
        match k a (h ++ e1) g1 with
        | None => None
        | Some (b, g2, e2) => Some (b, g2, e1 ++ e2)
        end
    end.

Declare Scope g_scope.
Delimit Scope g_scope with G.
Notation "x <- m ;; k" := (gbind m (fun x => k))
  (at level 61, m at next level, right associativity) : g_scope.
Notation "m ;; k" := (gbind m (fun _ => k))
  (at level 61, right associativity) : g_scope.

Definition gget : G Globals := fun _ g => Some (g, g, []).
Definition gmodify (f : Globals -> Globals) : G unit := fun _ g => Some (tt, f g, []).
Definition gemit (e : GbkEvent) : G unit := fun _ g => Some (tt, g, [e]).
Definition gcall {A : Type} (e : GbkEvent) (answer : list GbkEvent -> A) : G A :=
  fun h g => Some (answer h, g, [e]).
Definition undefined {A : Type} : G A := fun _ _ => None.

(** [pthread_mutex_lock(g_pItemListMutex)] and
    [pthread_mutex_unlock(g_pItemListMutex)]. *)
Definition pthread_mutex_lock : G unit :=
  fun _ g =>
    match g_pItemListMutex g with
    | Some false => Some (tt, set_g_pItemListMutex g (Some true), [])
    | _ => None
    end.

Definition pthread_mutex_unlock : G unit :=
  fun _ g =>
    match g_pItemListMutex g with
    | Some true => Some (tt, set_g_pItemListMutex g (Some false), [])
    | _ => None
    end.

(** The loop of [__isSsidEual] from index [i] on, with [n] indices to go. *)
Fixpoint same_from (ssid1 ssid2 : list byte) (i n : nat) : bool :=
  match n with
  | O => true
  | S n' =>
      if negb (Byte.eqb (nth i ssid1 x00) (nth i ssid2 x00)) then false
      else same_from ssid1 ssid2 (S i) n'
  end.

Definition __isSsidEual (ssid1 ssid2 : list byte) : bool :=
  if negb (Nat.eqb (List.length ssid1) (List.length ssid2)) then false
  else same_from ssid1 ssid2 0 (List.length ssid1).

(** [nBytes] as the first byte of a sequence sets it; [None] is
    [return false]. *)
Definition lead_length (chr : N) : option N :=
  if ((0xFC <=? chr) && (chr <=? 0xFD))%N then Some 6%N
  else if (0xF8 <=? chr)%N then Some 5%N
  else if (0xF0 <=? chr)%N then Some 4%N
  else if (0xE0 <=? chr)%N then Some 3%N
  else if (0xC0 <=? chr)%N then Some 2%N
  else None.

(** The loop of [__isUTF8String] over the bytes [str[i]], [i < length], still
    to be read; [None] is [return false]. *)
Fixpoint utf8_loop (str : list byte) (nBytes : N) (bAllAscii : bool) : option (N * bool) :=
  match str with
  | [] => Some (nBytes, bAllAscii)
  | c :: rest =>
      let chr := Byte.to_N c in
      let bAllAscii := if negb (N.land chr 0x80 =? 0)%N then false else bAllAscii in
      if (0 =? nBytes)%N then
        if (0x80 <=? chr)%N then
          match lead_length chr with
          | Some n => utf8_loop rest (n - 1)%N bAllAscii
          | None => None
          end
        else utf8_loop rest nBytes bAllAscii
      else
        if negb (N.land chr 0xC0 =? 0x80)%N then None
        else utf8_loop rest (nBytes - 1)%N bAllAscii
  end.

(** [__isUTF8String(str, length)]; [length] is an [int], and the bytes read
    are the first [length] ones. *)
Definition __isUTF8String (str : list byte) (length : Z) : bool :=
  match utf8_loop (firstn (Z.to_nat length) str) 0 true with
  | None => false
  | Some (nBytes, bAllAscii) =>
      if ((0 <? nBytes)%N || bAllAscii)%bool then false else true
  end.

(** The loop of [__isGBKString]; an accepted pair of bytes moves on by two,
    and [(i+1) < length] is: a byte follows. *)
Fixpoint gbk_loop (str : list byte) (isAllASCII : bool) : option bool :=
  match str with
  | [] => Some isAllASCII
  | b1 :: rest =>
      let byte1 := Byte.to_N b1 in
      if ((0x81 <=? byte1)%N && (byte1 <? 0xFF)%N && negb (is_empty rest))%bool then
        match rest with
        | b2 :: rest' =>
            let byte2 := Byte.to_N b2 in
            if ((0x40 <=? byte2)%N && (byte2 <? 0xFF)%N && negb (byte2 =? 0x7F)%N)%bool
            then gbk_loop rest' false
            else None
        | [] => None
        end
      else if (byte1 <? 0x80)%N then gbk_loop rest isAllASCII
      else None
  end.

Definition __isGBKString (str : list byte) (length : Z) : bool :=
  match gbk_loop (firstn (Z.to_nat length) str) true with
  | None => false
  | Some isAllASCII => if isAllASCII then false else true
  end.

(** [wifigbk_isGbk]: [ssid.size()] is a [size_t]; it arrives as an [int]. *)
Definition wifigbk_isGbk (ssid : list byte) : bool :=
  let ssid_len := wrap_int (Z.of_nat (List.length ssid)) in
  let isUTF8 := __isUTF8String ssid ssid_len in
  let isGbk := __isGBKString ssid ssid_len in
  if (negb isUTF8 && isGbk)%bool then true else false.

(** [" %02x"]: a blank and two hexadecimal digits in lower case. *)
Definition hex_digit (n : N) : ascii :=
  if (n <? 10)%N then ascii_of_N (48 + n) else ascii_of_N (87 + n).

Definition hex2 (b : byte) : string :=
  String " " (String (hex_digit (Byte.to_N b / 16))
                     (String (hex_digit (Byte.to_N b mod 16)) "")).

(** The loop of [snprintf] calls of [wifigbk_dumpSsid]: each call writes
    three characters and a zero byte at [strbuf + 3 * i]; the next call
    writes over the zero byte. *)
Fixpoint show_bytes (bytes : list byte) : string :=
  match bytes with
  | [] => ""
  | b :: rest => hex2 b ++ show_bytes rest
  end.

(** [wifigbk_dumpSsid].  [display] is set only when the SSID is not
    empty. *)
Definition wifigbk_dumpSsid (tag : string) (ssid : list byte) : G unit :=
  let len := List.length ssid in
  if negb (len =? 0)%nat
  then let len_show := if (32 <? len)%nat then 32%nat else len in
       let display := show_bytes (firstn len_show ssid) in
       gemit (ELogSsid (tag ++ "[len=" ++ dec_of_N (N.of_nat len) ++ "] ") display)
  else
    (* [display] is still [NULL], and [LOG(INFO) << ... << display] streams a
       [char*] that is [NULL] *)
    undefined.

(** [WIFIGBK_DEBUG] is not defined in the sources: the body is compiled out. *)
Definition wifigbk_dumpHistory : G unit := gret tt.

(** The loop of [wifigbk_addToHistory]: is there an item with this
    [ssid]? *)
Fixpoint entry_exists (wanted : list byte) (items : list accessPointObjectItem) : bool :=
  match items with
  | [] => false
  | pTmpItemNode :: pNext =>
      if __isSsidEual wanted (ssid pTmpItemNode) then true
      else entry_exists wanted pNext
  end.

(** [wifigbk_addToHistory].  [new] does not return [NULL], and the [memset]
    over the new item leaves its two vectors empty, as they are.  The two
    lines are logged before the item is linked and before the mutex is
    unlocked: an empty [ssid] or [utf_ssid] is undefined there. *)
Definition wifigbk_addToHistory (ssid utf_ssid : list byte) : G unit :=
  (pthread_mutex_lock ;;
   g <- gget ;;
   (if negb (entry_exists ssid (g_pItemList g))
    then
      let pItemNode := mkItem ssid utf_ssid in
      wifigbk_dumpSsid "wifigbk_addToHistory: GBK " ssid ;;
      wifigbk_dumpSsid "wifigbk_addToHistory: UTF " utf_ssid ;;
      gmodify (fun g => set_g_pItemList g (g_pItemList g ++ [pItemNode]))
    else gret tt) ;;
   pthread_mutex_unlock)%G.

(** [wifigbk_init].  [new] does not return [NULL]: the path that returns -1
    is never taken. *)
Definition wifigbk_init : G Z :=
  (g <- gget ;;
   match g_pItemListMutex g with
   | None =>
       gmodify (fun g => set_g_pItemListMutex g (Some false)) ;;
       gret 0%Z
   | Some _ => gret 0%Z
   end)%G.

(** [wifigbk_deinit]: every item is deleted, then the mutex. *)
Definition wifigbk_deinit : G Z :=
  (g <- gget ;;
   match g_pItemListMutex g with
   | Some _ =>
       pthread_mutex_lock ;;
       gmodify (fun g => set_g_pItemList g []) ;;
       pthread_mutex_unlock ;;
       gmodify (fun g => set_g_pItemListMutex g None) ;;
       gret 0%Z
   | None => gret 0%Z
   end)%G.

(** [strlen(buf)] for a buffer: undefined when no byte of it is zero. *)
Definition strlen (buf : list byte) : option nat :=
  if existsb (Byte.eqb x00) buf then Some (List.length (until_nul buf)) else None.

(** Where the pointer [utf_ssid] of [wifigbk_toUtf] points: to a vector of
    its own, with what it holds, or to the very vector [ssid] refers to. *)
Inductive OutVector : Type :=
| Separate (content : list byte)
| SameAsSsid.

(** [wifigbk_toUtf]: the result and [*utf_ssid] afterwards.  [buf] starts
    as 512 zero bytes.  [ssid] is a reference: once [*utf_ssid] is assigned,
    it reads the new bytes when the two are the same vector. *)
Definition wifigbk_toUtf (icu : Icu) (ssid : list byte) (utf_ssid : OutVector)
  : G (Z * list byte) :=
  let ssid_len := wrap_int (Z.of_nat (List.length ssid)) in
  let as_it_was :=
    match utf_ssid with Separate content => content | SameAsSsid => ssid end in
  (failed <- gcall (Eucnv_open CHARSET_CN) (fun h => ucnv_open_fails icu h CHARSET_CN) ;;
   if failed then gret ((-1)%Z, as_it_was) else
   r <- gcall (Eucnv_toAlgorithmic ssid ssid_len)
              (fun h => ucnv_toAlgorithmic_utf8 icu h ssid ssid_len) ;;
   let buf := firstn CONVERT_LINE_LEN (fst r ++ repeat x00 CONVERT_LINE_LEN) in
   if snd r then gemit Eucnv_close ;; gret ((-2)%Z, as_it_was) else
   match strlen buf with
   | None => undefined
   | Some n =>
       let assigned := firstn n buf in
       let ssid := match utf_ssid with Separate _ => ssid | SameAsSsid => assigned end in
       wifigbk_addToHistory ssid assigned ;;
       gemit Eucnv_close ;;
       gret (0%Z, assigned)
   end)%G.

(** The loop of [wifigbk_getFromHistory]: the other side of the first item
    that matches. *)
Fixpoint first_match (in_ssid : list byte) (isGbk : bool)
  (items : list accessPointObjectItem) : option (list byte) :=
  match items with
  | [] => None
  | pTmpItemNode :: pNext =>
      if __isSsidEual in_ssid
           (if isGbk then ssid pTmpItemNode else utf_ssid pTmpItemNode)
      then Some (if isGbk then utf_ssid pTmpItemNode else ssid pTmpItemNode)
      else first_match in_ssid isGbk pNext
  end.

(** [wifigbk_getFromHistory]: the result and [out_ssid] afterwards. *)
Definition wifigbk_getFromHistory (in_ssid out_ssid : list byte) : G (Z * list byte) :=
  (g <- gget ;;
   match g_pItemListMutex g with
   | None =>
       gemit (ELogInfo "wifigbk_toGbk fail as wifigbk is not inited.") ;;
       gret ((-2)%Z, out_ssid)
   | Some _ =>
       let isGbk := wifigbk_isGbk in_ssid in
       pthread_mutex_lock ;;
       g <- gget ;;
       let found := first_match in_ssid isGbk (g_pItemList g) in
       pthread_mutex_unlock ;;
       match found with
       | Some other => gret (0%Z, other)
       | None => gret ((-1)%Z, out_ssid)
       end
   end)%G.

(** The calls of the header, one after the other. *)
Inductive GbkCall : Type :=
| Call_init
| Call_deinit
| Call_isGbk (ssid : list byte)
| Call_toUtf (ssid : list byte) (utf_ssid : OutVector)
| Call_getFromHistory (in_ssid out_ssid : list byte)
| Call_addToHistory (ssid utf_ssid : list byte)
| Call_dumpSsid (tag : string) (ssid : list byte)
| Call_dumpHistory.

Definition gbk_call (icu : Icu) (c : GbkCall) : G unit :=
  match c with
  | Call_init => (_ <- wifigbk_init ;; gret tt)%G
  | Call_deinit => (_ <- wifigbk_deinit ;; gret tt)%G
  | Call_isGbk _ => gret tt
  | Call_toUtf ssid utf_ssid => (_ <- wifigbk_toUtf icu ssid utf_ssid ;; gret tt)%G
  | Call_getFromHistory in_ssid out_ssid =>
      (_ <- wifigbk_getFromHistory in_ssid out_ssid ;; gret tt)%G
  | Call_addToHistory ssid utf_ssid => wifigbk_addToHistory ssid utf_ssid
  | Call_dumpSsid tag ssid => wifigbk_dumpSsid tag ssid
  | Call_dumpHistory => wifigbk_dumpHistory
  end.

Fixpoint gbk_calls (icu : Icu) (cs : list GbkCall) : G unit :=
  match cs with
  | [] => gret tt
  | c :: rest => (gbk_call icu c ;; gbk_calls icu rest)%G
  end.

(** *** Notions used to state the properties of the SSID code *)

(** The three parts of a run on the globals. *)
Definition gresult {A : Type} (r : A * Globals * list GbkEvent) : A := fst (fst r).
Definition gstate {A : Type} (r : A * Globals * list GbkEvent) : Globals := snd (fst r).
Definition gevents {A : Type} (r : A * Globals * list GbkEvent) : list GbkEvent := snd r.

(** The globals after a run, when it is defined. *)
Definition gstate_of {A : Type} (r : option (A * Globals * list GbkEvent))
  : option Globals :=
  option_map gstate r.

(** Bytes by their role: ASCII, the first and the second byte of a GBK
    character, a UTF-8 continuation byte. *)
Definition is_ascii (b : byte) : bool := (Byte.to_N b <? 0x80)%N.

Definition gbk_lead (b : byte) : bool :=
  ((0x81 <=? Byte.to_N b) && (Byte.to_N b <=? 0xFE))%N.

Definition gbk_trail (b : byte) : bool :=
  ((0x40 <=? Byte.to_N b) && (Byte.to_N b <=? 0xFE) && negb (Byte.to_N b =? 0x7F))%N.

Definition continuation (b : byte) : bool :=
  (N.land (Byte.to_N b) 0xC0 =? 0x80)%N.

(** A text made of ASCII bytes and of two-byte GBK characters; the flag
    tells whether there is a two-byte character. *)
Inductive gbk_text : bool -> list byte -> Prop :=
| gbk_text_nil : gbk_text false []
| gbk_text_ascii (b : byte) (rest : list byte) (p : bool) :
    is_ascii b = true -> gbk_text p rest -> gbk_text p (b :: rest)
| gbk_text_pair (b1 b2 : byte) (rest : list byte) (p : bool) :
    gbk_lead b1 = true -> gbk_trail b2 = true -> gbk_text p rest ->
    gbk_text true (b1 :: b2 :: rest).

(** A text made of ASCII bytes and of sequences: a first byte that announces
    [n] bytes, followed by [n - 1] continuation bytes; the flag tells whether
    there is a sequence. *)
Inductive utf8_shaped : bool -> list byte -> Prop :=
| utf8_shaped_nil : utf8_shaped false []
| utf8_shaped_ascii (b : byte) (rest : list byte) (p : bool) :
    is_ascii b = true -> utf8_shaped p rest -> utf8_shaped p (b :: rest)
| utf8_shaped_seq (b : byte) (n : N) (tail rest : list byte) (p : bool) :
    lead_length (Byte.to_N b) = Some n ->
    N.of_nat (List.length tail) = (n - 1)%N ->
    forallb continuation tail = true ->
    utf8_shaped p rest ->
    utf8_shaped true (b :: tail ++ rest).

(** The value of a hexadecimal digit in lower case. *)
Definition hex_value (c : ascii) : N :=
  let n := N_of_ascii c in
  if (n <? 58)%N then (n - 48)%N else (n - 87)%N.

(** The buffer of [wifigbk_toUtf] once ICU has written to it, and the text
    it holds: the bytes before the first zero byte. *)
Definition buffer_after (written : list byte) : list byte :=
  firstn CONVERT_LINE_LEN (written ++ repeat x00 CONVERT_LINE_LEN).

Definition text_of (written : list byte) : list byte :=
  until_nul (buffer_after written).

(** ICU answers that leave a zero byte in the buffer. *)
Definition terminated (written : list byte) : Prop :=
  In x00 (buffer_after written).


(** The line [wifigbk_dumpSsid] logs for an SSID that is not empty. *)
Definition ssid_line (tag : string) (ssid : list byte) : GbkEvent :=
  ELogSsid (tag ++ "[len=" ++ dec_of_N (N.of_nat (List.length ssid)) ++ "] ")
           (show_bytes (firstn 32 ssid)).

(** The globals once an item is appended, and the two lines logged then. *)
Definition with_item (g : Globals) (ssid utf_ssid : list byte) : Globals :=
  set_g_pItemList g (g_pItemList g ++ [mkItem ssid utf_ssid]).

Definition added_lines (ssid utf_ssid : list byte) : list GbkEvent :=
  [ssid_line "wifigbk_addToHistory: GBK " ssid;
   ssid_line "wifigbk_addToHistory: UTF " utf_ssid].

(** The UTF-8 form of an item. *)
Definition utf_form (it : accessPointObjectItem) : list byte := utf_ssid it.

(** The keys of the history. *)
Definition history_keys (g : Globals) : list (list byte) := map ssid (g_pItemList g).

(** What holds of the globals between two calls. *)
Definition gbk_inv (g : Globals) : Prop :=
  NoDup (history_keys g)
  /\ g_pItemListMutex g <> Some true
  /\ (g_pItemListMutex g = None -> g_pItemList g = []).

(** Sample data: the SSID of two GBK characters and its UTF-8 form, and an
    ICU that knows this one conversion. *)
Definition bytes_of (l : list N) : list byte :=
  map (fun n => match Byte.of_N n with Some b => b | None => x00 end) l.

Definition zhongwen_gbk : list byte := bytes_of [0xd6; 0xd0; 0xce; 0xc4]%N.
Definition zhongwen_utf8 : list byte := bytes_of [0xe4; 0xb8; 0xad; 0xe6; 0x96; 0x87]%N.

Definition sample_icu : Icu :=
  {| ucnv_open_fails := fun _ _ => false;
     ucnv_toAlgorithmic_utf8 :=
       fun _ source _ =>
         if __isSsidEual source zhongwen_gbk then (zhongwen_utf8, false)
         else ([], true) |}.

Definition initialised : Globals := mkGlobals (Some false) [].

(** A text that is shaped like UTF-8 and like GBK at once. *)
Definition copyright_sign : list byte := bytes_of [0xc2; 0xa9]%N.

(** A history at work: the SSID is converted twice, everything is given up,
    and the SSID is converted again. *)
Definition sample_calls : list GbkCall :=
  [Call_init; Call_toUtf zhongwen_gbk (Separate []);
   Call_toUtf zhongwen_gbk (Separate []);
   Call_getFromHistory zhongwen_utf8 []; Call_deinit;
   Call_init; Call_toUtf zhongwen_gbk (Separate [])].

(** An SSID in GBK whose first byte is zero, and an ICU that converts it: the
    text in the buffer is empty. *)
Definition nul_then_zhong : list byte := bytes_of [0x00; 0xd6; 0xd0]%N.

Definition nul_icu : Icu :=
  {| ucnv_open_fails := fun _ _ => false;
     ucnv_toAlgorithmic_utf8 :=
       fun _ _ _ => (bytes_of [0x00; 0xe4; 0xb8; 0xad]%N, false) |}.


(** * Theorems *)

Ltac run_m :=
  cbv beta iota zeta delta
    [bind ret get modify emit call ask LOG result state events fst snd].

(** Histories and event lists, brought to one shape. *)
Ltac norm_h :=
  repeat rewrite app_nil_r; repeat rewrite <- app_assoc; cbn [app].

(** ** The embedding on small inputs *)

Example tokenize_white_space :
  tokenize (String "009" "cmd  stopap" ++ String "010" " dual" ++ String "013" "")
  = ["cmd"; "stopap"; "dual"].
Proof. reflexivity. Qed.

Example c_str_stops_at_nul :
  c_str ("br0" ++ String Ascii.zero "xyz") = "br0".
Proof. reflexivity. Qed.

Example copy_tokens_ten :
  copy_tokens ["0"; "1"; "2"; "3"; "4"; "5"; "6"; "7"; "8"; "9"] []
  = Some ["0"; "1"; "2"; "3"; "4"; "5"; "6"; "7"; "8"; "9"].
Proof. reflexivity. Qed.

Example wrap_int_at_the_ends :
  wrap_int (INT_MAX + 1) = INT_MIN /\ wrap_int INT_MAX = INT_MAX
  /\ wrap_int (INT_MIN - 1) = INT_MAX.
Proof. repeat split. Qed.

Example first_station_interface :
  createClientInterface all_fine None [] (Server_ctor 0)
  = ((Status_ok, Some 3%N),
     mkServer [] [mkClientInterfaceImpl 0 "wlan1" 6 sample_mac 3%N] []
              sample_snapshot 0 None,
     [EGetWiphyIndexWithInterfaceName "wlan0"; ESubscribeRegDomainChange 0;
      EGetInterfaces 0; EClientInterfaceImplCreated 3%N]).
Proof. reflexivity. Qed.

Example bridge_by_name :
  result (QcSetupInterface all_fine "br0" [] (Server_ctor 0))
  = Some (mkInterfaceInfo 7 "br0" sample_mac).
Proof. reflexivity. Qed.

Example stopap_without_session :
  setHostapdParam all_fine (list_byte_of_string "cmd stopap") [] (Server_ctor 0)
  = ((Status_ok, false), Server_ctor 0,
     [Log INFO "Command: cmd stopap (len=10)"; Log INFO "Failed to stop hostapd"]).
Proof. reflexivity. Qed.

Section Proofs.

Variable W : World.

(** ** A second station interface *)

Lemma SetupInterface_conflict (s : Server) (h : History) :
  client_interfaces_ s <> [] ->
  SetupInterface W h s = (None, s, [conflict_log]).
Proof.
  intros Hne. unfold SetupInterface.
  destruct (client_interfaces_ s) as [|c cs] eqn:Hc; [congruence|].
  run_m. rewrite Hc. reflexivity.
Qed.

Lemma createClientInterface_refused
  (s : Server) (h : History) (out : option IClientInterface) :
  client_interfaces_ s <> [] ->
  createClientInterface W out h s = ((Status_ok, out), s, [conflict_log]).
Proof.
  intros Hne. unfold createClientInterface, bind.
  rewrite (SetupInterface_conflict s h Hne). reflexivity.
Qed.

Lemma attempts_conflict (s : Server) (out : option IClientInterface) (n : nat) :
  client_interfaces_ s <> [] ->
  forall h, attempts W n out h s
            = (repeat (Status_ok, out) n, s, repeat conflict_log n).
Proof.
  intros Hne. induction n as [|n IH]; intros h.
  - reflexivity.
  - cbn [attempts]. unfold bind.
    rewrite (createClientInterface_refused s h out Hne). cbn [fst snd].
    rewrite IH. unfold ret. cbn [fst snd app repeat].
    rewrite app_nil_r. reflexivity.
Qed.

(** C1. When a station-mode controller is already registered,
    [createClientInterface] only logs the conflict: the status is OK, the
    out-parameter and the whole server state are as before, and no outside
    call is made (no subscription, no interface list fetched, no controller
    created or registered, no listener notified).  Any number of attempts made
    one after the other end the same way. *)
Theorem createClientInterface_conflict
  (s : Server) (h : History) (out : option IClientInterface) (n : nat) :
  client_interfaces_ s <> [] ->
  createClientInterface W out h s = ((Status_ok, out), s, [conflict_log])
  /\ attempts W n out h s = (repeat (Status_ok, out) n, s, repeat conflict_log n).
Proof.
  intros Hne. split.
  - apply createClientInterface_refused; assumption.
  - apply attempts_conflict; assumption.
Qed.

(** ** Stopping hostapd *)

(** C3 (amended). [StopHostapd] runs its three steps in order, each one only
    when the step before it succeeded: stop the daemon, take the interface
    down, set the interface back to station mode.  It returns [true] exactly
    when the three of them succeed, and [false] at the first one that fails;
    only a failing mode reset is logged. The object itself is not changed. *)
Theorem StopHostapd_stops_at_first_failure (h : History) (this : ApInterfaceImpl) :
  let stopped := hostapd_manager_StopHostapd W h in
  let down :=
    if_tool_SetUpState W (h ++ [EHostapdManagerStop]) (interface_name_ this) false in
  let reset :=
    netlink_SetInterfaceMode W
      (h ++ [EHostapdManagerStop; ESetUpState (interface_name_ this) false])
      (interface_index_ this) STATION_MODE in
  StopHostapd W h this
  = ((stopped && down && reset)%bool, this, stop_events this stopped down reset).
Proof.
  cbv zeta. unfold StopHostapd, stop_events. run_m. norm_h.
  destruct (hostapd_manager_StopHostapd W h); cbn; [|reflexivity].
  norm_h.
  destruct (if_tool_SetUpState W (h ++ [EHostapdManagerStop]) (interface_name_ this) false);
    cbn; [|reflexivity].
  norm_h.
  destruct (netlink_SetInterfaceMode W _ (interface_index_ this) STATION_MODE);
    reflexivity.
Qed.

(** ** Tearing down AP controllers *)

Lemma for_each_flat_map {St A : Type} (body : A -> M St unit) (f : St -> A -> list Event) :
  (forall x h s, body x h s = (tt, s, f s x)) ->
  forall xs h s, for_each xs body h s = (tt, s, flat_map (f s) xs).
Proof.
  intros Hbody. induction xs as [|x xs IH]; intros h s.
  - reflexivity.
  - cbn [for_each flat_map]. unfold bind. rewrite Hbody. cbn [fst snd].
    rewrite IH. reflexivity.
Qed.

Lemma ApInterfaceImpl_dtor_run {St : Type} (this : ApInterfaceImpl) (h : History) (st : St) :
  ApInterfaceImpl_dtor W this h st = (tt, st, dtor_events this).
Proof. reflexivity. Qed.

Lemma BroadcastApInterfaceTornDown_run (this : ApInterfaceImpl) (h : History) (s : Server) :
  BroadcastApInterfaceTornDown (GetBinder this) h s
  = (tt, s, torn_down_events (interface_event_callbacks_ s) this).
Proof.
  unfold BroadcastApInterfaceTornDown, bind, get. cbn [fst snd app].
  rewrite (for_each_flat_map _ (fun _ it => [EOnApTorndownEvent it (GetBinder this)]))
    by reflexivity.
  unfold torn_down_events, GetBinder. cbn [fst snd].
  f_equal.
Qed.

Lemma clear_ap_interfaces_run (h : History) (s : Server) :
  clear_ap_interfaces W h s
  = (tt, set_ap_interfaces s [], flat_map dtor_events (rev (ap_interfaces_ s))).
Proof.
  unfold clear_ap_interfaces, bind, get. cbn [fst snd app].
  rewrite (for_each_flat_map _ (fun _ => dtor_events)) by (intros; apply ApInterfaceImpl_dtor_run).
  unfold modify. cbn [fst snd]. rewrite app_nil_r. reflexivity.
Qed.

(** C5 (amended). A destroyed AP controller (1) tells its binder that the
    implementation is gone, (2) marks the kernel interface down and only then
    (3) unsubscribes from the station events of its interface index; it does
    not stop the daemon.  [tearDownApInterfaces] first tells every listener
    about every AP interface going away, then destroys the controllers, and
    leaves the AP collection empty. *)
Theorem teardown_order (h : History) (s : Server) :
  (forall this h' , ApInterfaceImpl_dtor W this h' s = (tt, s, dtor_events this))
  /\ (forall this,
        precedes is_mark_down is_unsubscribe (dtor_events this) = true
        /\ first_index is_daemon_stop (dtor_events this) = None)
  /\ tearDownApInterfaces W h s
     = (Status_ok, set_ap_interfaces s [],
        flat_map (torn_down_events (interface_event_callbacks_ s)) (ap_interfaces_ s)
        ++ flat_map dtor_events (rev (ap_interfaces_ s))).
Proof.
  split; [|split].
  - intros. apply ApInterfaceImpl_dtor_run.
  - intros this. split; reflexivity.
  - unfold tearDownApInterfaces, bind, get. cbn [fst snd app].
    rewrite (for_each_flat_map _ (fun s' => torn_down_events (interface_event_callbacks_ s')))
      by (intros; apply BroadcastApInterfaceTornDown_run).
    cbn [fst snd]. rewrite clear_ap_interfaces_run.
    unfold ret. cbn [fst snd]. rewrite app_nil_r. reflexivity.
Qed.

(** ** Commands that are too long *)

Lemma copy_tokens_too_long (tokens data : list string) :
  (List.length data <= max_arg_size)%nat ->
  (max_arg_size < List.length data + List.length tokens)%nat ->
  copy_tokens tokens data = None.
Proof.
  revert data. induction tokens as [|t tokens IH]; intros data Hle Hlt.
  - cbn in Hlt. lia.
  - cbn [copy_tokens].
    destruct (Nat.leb_spec max_arg_size (List.length data)) as [Hfull|Hroom].
    + reflexivity.
    + apply IH; rewrite length_app; cbn [List.length] in *; lia.
Qed.

(** C8. A command whose text splits on white space into more than ten tokens
    is refused whatever the tokens are: the status is OK, the success flag is
    [false], the server state is as before and nothing but two log lines
    happens. *)
Theorem setHostapdParam_too_long (cmd : list byte) (h : History) (s : Server) :
  (10 < List.length (tokenize (string_of_list_byte cmd)))%nat ->
  setHostapdParam W cmd h s
  = ((Status_ok, false), s,
     [Log INFO ("Command: " ++ string_of_list_byte cmd
                ++ " (len=" ++ dec_of_N (N.of_nat (List.length cmd)) ++ ")");
      Log ERROR "Command too long"]).
Proof.
  intros Hlen. unfold setHostapdParam.
  rewrite copy_tokens_too_long; [reflexivity| cbn; unfold max_arg_size; lia |].
  cbn [List.length]. unfold max_arg_size. lia.
Qed.

(** ** Choosing the interface *)

Lemma station_usable_iff (i : InterfaceInfo) :
  station_usable i = true <-> ~ reserved (name i).
Proof.
  unfold station_usable, reserved, StartsWith.
  rewrite !andb_true_iff, !negb_true_iff. split.
  - intros [[Hp Ha] Hs] [H|[H|H]].
    + apply String.eqb_neq in Hp. contradiction.
    + congruence.
    + congruence.
  - intros Hn. repeat split.
    + apply String.eqb_neq. intros H. apply Hn. left. exact H.
    + destruct (String.prefix "aware_data" (name i)) eqn:E; [|reflexivity].
      exfalso. apply Hn. right. left. reflexivity.
    + destruct (String.prefix "softap" (name i)) eqn:E; [|reflexivity].
      exfalso. apply Hn. right. right. reflexivity.
Qed.

Lemma station_usable_false_iff (i : InterfaceInfo) :
  station_usable i = false <-> reserved (name i).
Proof.
  split.
  - intros Hf. unfold station_usable, StartsWith in Hf. unfold reserved.
    destruct (String.eqb_spec (name i) "p2p0") as [Hp|Hp]; [left; exact Hp|].
    destruct (String.prefix "aware_data" (name i)); [right; left; reflexivity|].
    destruct (String.prefix "softap" (name i)); [right; right; reflexivity|].
    discriminate Hf.
  - intros Hr. destruct (station_usable i) eqn:E; [|reflexivity].
    apply station_usable_iff in E. contradiction.
Qed.

(** The loop picks the first interface whose name is not reserved. *)
Lemma first_usable_first (before after : list InterfaceInfo) (i : InterfaceInfo) :
  Forall (fun j => reserved (name j)) before ->
  ~ reserved (name i) ->
  first_usable (before ++ i :: after) = Some i.
Proof.
  intros Hbefore Hi. induction Hbefore as [|j before Hj _ IH]; cbn [app first_usable].
  - apply station_usable_iff in Hi. rewrite Hi. reflexivity.
  - apply station_usable_false_iff in Hj. rewrite Hj. exact IH.
Qed.

Lemma first_usable_none (ifaces : list InterfaceInfo) :
  Forall (fun j => reserved (name j)) ifaces ->
  first_usable ifaces = None.
Proof.
  intros Hall. induction Hall as [|j l Hj _ IH]; cbn [first_usable].
  - reflexivity.
  - apply station_usable_false_iff in Hj. rewrite Hj. exact IH.
Qed.

Lemma SetupInterface_run (s : Server) (h : History) (wiphy : N) (ifaces : list InterfaceInfo) :
  client_interfaces_ s = [] ->
  netlink_GetWiphyIndexWithInterfaceName W h kBaseIfName = Some wiphy ->
  netlink_GetInterfaces W (at_snapshot h wiphy) wiphy = Some ifaces ->
  SetupInterface W h s
  = (first_usable ifaces, refreshed s wiphy ifaces,
     setup_events wiphy
     ++ match first_usable ifaces with Some _ => [] | None => [no_usable_log] end).
Proof.
  intros Hc Hw Hi. unfold SetupInterface, RefreshWiphyIndex, at_snapshot in *.
  run_m. rewrite Hc. cbn [is_empty negb]. norm_h. rewrite Hw.
  cbn [negb set_wiphy_index wiphy_index_]. norm_h. rewrite Hi.
  destruct (first_usable ifaces); reflexivity.
Qed.

Lemma BroadcastClientInterfaceReady_run (b : IClientInterface) (h : History) (s : Server) :
  BroadcastClientInterfaceReady b h s
  = (tt, s, client_ready_events (interface_event_callbacks_ s) b).
Proof.
  unfold BroadcastClientInterfaceReady, bind, get. cbn [fst snd app].
  rewrite (for_each_flat_map _ (fun _ it => [EOnClientInterfaceReady it b])) by reflexivity.
  unfold client_ready_events. cbn [fst snd]. f_equal.
Qed.

Lemma BroadcastApInterfaceReady_run (b : IApInterface) (h : History) (s : Server) :
  BroadcastApInterfaceReady b h s
  = (tt, s, ap_ready_events (interface_event_callbacks_ s) b).
Proof.
  unfold BroadcastApInterfaceReady, bind, get. cbn [fst snd app].
  rewrite (for_each_flat_map _ (fun _ it => [EOnApInterfaceReady it b])) by reflexivity.
  unfold ap_ready_events. cbn [fst snd]. f_equal.
Qed.

(** [createClientInterface] when no station interface exists and the kernel
    answers. *)
Lemma createClientInterface_run
  (s : Server) (h : History) (out : option IClientInterface)
  (wiphy : N) (ifaces : list InterfaceInfo) :
  client_interfaces_ s = [] ->
  netlink_GetWiphyIndexWithInterfaceName W h kBaseIfName = Some wiphy ->
  netlink_GetInterfaces W (at_snapshot h wiphy) wiphy = Some ifaces ->
  createClientInterface W out h s
  = match first_usable ifaces with
    | Some i =>
        let b := new_ClientInterfaceBinder W (h ++ setup_events wiphy) in
        ((Status_ok, Some b),
         set_client_interfaces (refreshed s wiphy ifaces)
           [mkClientInterfaceImpl wiphy (name i) (index i) (mac_address i) b],
         setup_events wiphy ++ EClientInterfaceImplCreated b
         :: client_ready_events (interface_event_callbacks_ s) b)
    | None =>
        ((Status_ok, out), refreshed s wiphy ifaces, setup_events wiphy ++ [no_usable_log])
    end.
Proof.
  intros Hc Hw Hi. unfold createClientInterface, bind at 1.
  rewrite (SetupInterface_run s h wiphy ifaces Hc Hw Hi).
  destruct (first_usable ifaces) as [i|]; cbn [fst snd]; [|reflexivity].
  unfold ClientInterfaceImpl_ctor. run_m.
  rewrite BroadcastClientInterfaceReady_run. cbn [fst snd].
  cbn [refreshed set_interfaces set_wiphy_index wiphy_index_ client_interfaces_
       set_client_interfaces interface_event_callbacks_ ap_interfaces_ interfaces_
       ap_interface client_binder].
  rewrite Hc. norm_h. reflexivity.
Qed.

(** [createApInterface] in the same situation. *)
Lemma createApInterface_run
  (s : Server) (h : History) (out : option IApInterface)
  (wiphy : N) (ifaces : list InterfaceInfo) :
  client_interfaces_ s = [] ->
  netlink_GetWiphyIndexWithInterfaceName W h kBaseIfName = Some wiphy ->
  netlink_GetInterfaces W (at_snapshot h wiphy) wiphy = Some ifaces ->
  createApInterface W out h s
  = match first_usable ifaces with
    | Some i =>
        let b := new_ApInterfaceBinder W (h ++ setup_events wiphy) in
        ((Status_ok, Some b),
         set_ap_interfaces (refreshed s wiphy ifaces)
           (ap_interfaces_ s ++ [mkApInterfaceImpl (name i) (index i) b 0]),
         setup_events wiphy ++ ap_created_events i
         ++ ap_ready_events (interface_event_callbacks_ s) b)
    | None =>
        ((Status_ok, out), refreshed s wiphy ifaces, setup_events wiphy ++ [no_usable_log])
    end.
Proof.
  intros Hc Hw Hi. unfold createApInterface, bind at 1.
  rewrite (SetupInterface_run s h wiphy ifaces Hc Hw Hi).
  destruct (first_usable ifaces) as [i|]; cbn [fst snd]; [|reflexivity].
  unfold ApInterfaceImpl_ctor. run_m.
  rewrite BroadcastApInterfaceReady_run. cbn [fst snd].
  cbn [refreshed set_interfaces set_wiphy_index wiphy_index_ client_interfaces_
       set_client_interfaces interface_event_callbacks_ ap_interfaces_ interfaces_
       ap_interface set_ap_interfaces GetBinder binder_].
  norm_h. reflexivity.
Qed.

(** C9. With no station interface yet and the kernel answering, station
    creation takes the first interface of the fresh list whose name is not
    [p2p0] and does not start with [aware_data] or [softap]: a controller for
    that very interface becomes the one station controller and its binder is
    returned.  For the list [p2p0], [aware_data0], [softap0], [wlan1] that is
    [wlan1].  When every name is reserved, nothing is created: the
    out-parameter stays as it was and "No usable interface found" is logged. *)
Theorem station_interface_choice
  (s : Server) (h : History) (out : option IClientInterface)
  (wiphy : N) (ifaces : list InterfaceInfo) :
  client_interfaces_ s = [] ->
  netlink_GetWiphyIndexWithInterfaceName W h kBaseIfName = Some wiphy ->
  netlink_GetInterfaces W (at_snapshot h wiphy) wiphy = Some ifaces ->
  let b := new_ClientInterfaceBinder W (h ++ setup_events wiphy) in
  let r := createClientInterface W out h s in
  (forall before i after,
      ifaces = before ++ i :: after ->
      Forall (fun j => reserved (name j)) before ->
      ~ reserved (name i) ->
      result r = (Status_ok, Some b)
      /\ client_interfaces_ (state r)
         = [mkClientInterfaceImpl wiphy (name i) (index i) (mac_address i) b])
  /\ (ifaces = sample_snapshot ->
      map client_interface_name (client_interfaces_ (state r)) = ["wlan1"])
  /\ (Forall (fun j => reserved (name j)) ifaces ->
      r = ((Status_ok, out), refreshed s wiphy ifaces,
           setup_events wiphy ++ [no_usable_log])).
Proof.
  intros Hc Hw Hi b r. subst r b.
  rewrite (createClientInterface_run s h out wiphy ifaces Hc Hw Hi).
  split; [|split].
  - intros before i after Heq Hbefore Hfree.
    rewrite Heq, (first_usable_first before after i Hbefore Hfree).
    split; reflexivity.
  - intros ->. reflexivity.
  - intros Hall. rewrite (first_usable_none ifaces Hall). reflexivity.
Qed.

(** C4 (amended). [createApInterface] goes through the same
    [SetupInterface] as station creation, with all of its checks.  It is
    refused with the same conflict while a station controller exists.
    Otherwise it takes the first interface whose name is not reserved
    ([p2p0], [aware_data*] and [softap*] are not taken) and appends a new AP
    controller to the AP collection, whatever AP controllers exist already;
    when every name is reserved nothing is created. *)
Theorem createApInterface_same_setup
  (s : Server) (h : History) (out : option IApInterface) :
  (client_interfaces_ s <> [] ->
   createApInterface W out h s = ((Status_ok, out), s, [conflict_log]))
  /\ (forall wiphy ifaces,
        client_interfaces_ s = [] ->
        netlink_GetWiphyIndexWithInterfaceName W h kBaseIfName = Some wiphy ->
        netlink_GetInterfaces W (at_snapshot h wiphy) wiphy = Some ifaces ->
        let b := new_ApInterfaceBinder W (h ++ setup_events wiphy) in
        let r := createApInterface W out h s in
        (forall before i after,
            ifaces = before ++ i :: after ->
            Forall (fun j => reserved (name j)) before ->
            ~ reserved (name i) ->
            result r = (Status_ok, Some b)
            /\ ap_interfaces_ (state r)
               = ap_interfaces_ s ++ [mkApInterfaceImpl (name i) (index i) b 0])
        /\ (Forall (fun j => reserved (name j)) ifaces ->
            r = ((Status_ok, out), refreshed s wiphy ifaces,
                 setup_events wiphy ++ [no_usable_log]))).
Proof.
  split.
  - intros Hne. unfold createApInterface, bind.
    rewrite (SetupInterface_conflict s h Hne). reflexivity.
  - intros wiphy ifaces Hc Hw Hi b r. subst r b.
    rewrite (createApInterface_run s h out wiphy ifaces Hc Hw Hi). split.
    + intros before i after Heq Hbefore Hfree.
      rewrite Heq, (first_usable_first before after i Hbefore Hfree).
      split; reflexivity.
    + intros Hall. rewrite (first_usable_none ifaces Hall). reflexivity.
Qed.

(** ** The status of the public operations *)

(** C10. Every public operation of the server returns [Status::ok()],
    whether it achieved anything or not.  A creation that fails leaves the
    out-parameter as the caller passed it (null if it was null), a creation
    that succeeds writes a binder into it: the out-parameter is the only
    part of the return that tells the two apart. *)
Theorem public_operations_return_ok (h : History) (s : Server) :
  (forall out, exists b,
      result (createClientInterface W out h s)
      = (Status_ok, match result (SetupInterface W h s) with
                    | None => out | Some _ => Some b end))
  /\ (forall out, exists b,
      result (createApInterface W out h s)
      = (Status_ok, match result (SetupInterface W h s) with
                    | None => out | Some _ => Some b end))
  /\ (forall ifname out, exists b,
      result (QcCreateApInterface W ifname out h s)
      = (Status_ok,
         match result (QcSetupInterface W (c_str (string_of_list_byte ifname)) h s) with
         | None => out | Some _ => Some b end))
  /\ result (tearDownInterfaces W h s) = Status_ok
  /\ result (tearDownStaInterfaces h s) = Status_ok
  /\ result (tearDownApInterfaces W h s) = Status_ok
  /\ (forall callback, result (RegisterCallback callback h s) = Status_ok)
  /\ (forall callback, result (UnregisterCallback callback h s) = Status_ok)
  /\ (forall cmd, fst (result (setHostapdParam W cmd h s)) = Status_ok).
Proof.
  repeat split.
  - intros out. unfold createClientInterface, bind, result.
    destruct (SetupInterface W h s) as [[[i|] s1] e1]; cbn [fst snd].
    + eexists. reflexivity.
    + exists 0%N. reflexivity.
  - intros out. unfold createApInterface, bind, result.
    destruct (SetupInterface W h s) as [[[i|] s1] e1]; cbn [fst snd].
    + eexists. reflexivity.
    + exists 0%N. reflexivity.
  - intros ifname out. unfold QcCreateApInterface, bind, result.
    destruct (QcSetupInterface W _ h s) as [[[i|] s1] e1]; cbn [fst snd].
    + eexists. reflexivity.
    + exists 0%N. reflexivity.
  - intros callback. unfold RegisterCallback, bind, get, result. cbn [fst snd].
    destruct (registered callback (interface_event_callbacks_ s)); reflexivity.
  - intros callback. unfold UnregisterCallback, bind, get, result. cbn [fst snd].
    destruct (erase_first callback (interface_event_callbacks_ s)); reflexivity.
  - intros cmd. unfold setHostapdParam, bind, result. cbn [fst snd LOG emit].
    destruct (copy_tokens _ _); reflexivity.
Qed.

(** ** The counter of associated stations *)

Lemma wrap_int_small (z : Z) :
  (INT_MIN <= z <= INT_MAX)%Z -> wrap_int z = z.
Proof.
  unfold INT_MIN, INT_MAX, wrap_int. intros Hz.
  rewrite Z.mod_small by lia. lia.
Qed.

(** One event changes nothing but the counter, and the counter as
    [count_step] says. *)
Lemma OnStationEvent_state (event : StationEvent) (mac : list byte)
  (h : History) (this : ApInterfaceImpl) :
  state (OnStationEvent W event mac h this)
  = set_number_of_associated_stations this
      (count_step (number_of_associated_stations_ this) event).
Proof.
  destruct this as [n i b c]. unfold OnStationEvent, count_step.
  destruct event; run_m; cbn [number_of_associated_stations_].
  - reflexivity.
  - destruct (c <=? 0)%Z; reflexivity.
Qed.

Lemma deliver_state (evs : list (StationEvent * list byte)) :
  forall (h : History) (this : ApInterfaceImpl),
    state (deliver W evs h this)
    = set_number_of_associated_stations this
        (count_after evs (number_of_associated_stations_ this)).
Proof.
  induction evs as [|[event mac] evs IH]; intros h this.
  - destruct this; reflexivity.
  - cbn [deliver]. unfold bind, state. cbn [fst snd].
    fold (state (OnStationEvent W event mac h this)).
    fold (state (deliver W evs (h ++ snd (OnStationEvent W event mac h this))
                         (state (OnStationEvent W event mac h this)))).
    rewrite IH, OnStationEvent_state. destruct this; reflexivity.
Qed.

Lemma count_after_app (a b : list (StationEvent * list byte)) (c : Z) :
  count_after (a ++ b) c = count_after b (count_after a c).
Proof. unfold count_after. rewrite map_app, fold_left_app. reflexivity. Qed.

Lemma wrap_int_range (z : Z) : (INT_MIN <= wrap_int z <= INT_MAX)%Z.
Proof.
  unfold INT_MIN, INT_MAX, wrap_int.
  pose proof (Z.mod_pos_bound (z + 2147483648) 4294967296 ltac:(lia)). lia.
Qed.

Lemma count_step_int (c : Z) (ev : StationEvent) :
  (c <= INT_MAX)%Z -> (count_step c ev <= INT_MAX)%Z.
Proof.
  intros Hc. destruct ev; cbn [count_step].
  - apply wrap_int_range.
  - destruct (c <=? 0)%Z; [exact Hc|apply wrap_int_range].
Qed.

Lemma count_after_cons (e : StationEvent * list byte)
  (evs : list (StationEvent * list byte)) (c : Z) :
  count_after (e :: evs) c = count_after evs (count_step c (fst e)).
Proof. reflexivity. Qed.

(** Every join finds the counter below [INT_MAX]: the counter stays in
    range. *)
Lemma no_join_at_max_range (evs : list (StationEvent * list byte)) :
  forall c : Z,
    (0 <= c <= INT_MAX)%Z ->
    no_join_at_max evs c ->
    forall k : nat, (0 <= count_after (firstn k evs) c <= INT_MAX)%Z.
Proof.
  induction evs as [|[event mac] evs IH]; intros c Hc Hfit k.
  - destruct k; cbn; exact Hc.
  - destruct k as [|k]; [cbn; exact Hc|].
    cbn [firstn]. rewrite count_after_cons. cbn [fst].
    destruct Hfit as [Hjoin Hrest]. cbn [fst] in Hrest.
    apply IH; [|exact Hrest].
    unfold INT_MAX in *. destruct event; cbn [count_step].
    + specialize (Hjoin eq_refl).
      rewrite wrap_int_small by (unfold INT_MIN, INT_MAX; lia). lia.
    + destruct (Z.leb_spec c 0); [lia|].
      rewrite wrap_int_small by (unfold INT_MIN, INT_MAX; lia). lia.
Qed.

(** A counter that never goes below zero was never at [INT_MAX] when a join
    arrived. *)
Lemma not_negative_no_join_at_max (evs : list (StationEvent * list byte)) :
  forall c : Z,
    (0 <= c <= INT_MAX)%Z ->
    (forall k : nat, (0 <= count_after (firstn k evs) c)%Z) ->
    no_join_at_max evs c.
Proof.
  induction evs as [|[event mac] evs IH]; intros c Hc Hpos; cbn [no_join_at_max].
  - exact I.
  - assert (Hnext : forall k, (0 <= count_after (firstn k evs) (count_step c event))%Z).
    { intros k. specialize (Hpos (S k)). cbn [firstn] in Hpos.
      rewrite count_after_cons in Hpos. exact Hpos. }
    cbn [fst]. split.
    + intros Hjoin. destruct event; [|discriminate Hjoin].
      specialize (Hnext O). cbn [firstn] in Hnext.
      change (count_after [] (count_step c NEW_STATION))
        with (wrap_int (c + 1)) in Hnext.
      destruct (Z.eq_dec c INT_MAX) as [->|Hne]; [|lia].
      exfalso. revert Hnext. vm_compute. intros H. apply H. reflexivity.
    + apply IH; [|exact Hnext].
      split; [apply (Hnext O)|apply count_step_int, Hc].
Qed.

(** C2 (amended). The counter is a 32-bit [int].  For a controller whose
    counter is not negative and every sequence of station events in which no
    join arrives while the counter reads [INT_MAX], the counter read by
    [GetNumberOfAssociatedStations] is between 0 and [INT_MAX] after every
    event of the sequence.  Nothing less will do: when the counter is not
    negative after every event, no join arrived while it read [INT_MAX].  A
    leave event that arrives when the counter is zero leaves the controller as
    it is and logs exactly one error.  A controller starts with the counter at
    zero. *)
Theorem station_counter_not_negative
  (evs : list (StationEvent * list byte)) (h : History) (this : ApInterfaceImpl) :
  (0 <= number_of_associated_stations_ this <= INT_MAX)%Z ->
  (forall k : nat,
      GetNumberOfAssociatedStations (state (deliver W (firstn k evs) h this))
      = count_after (firstn k evs) (number_of_associated_stations_ this))
  /\ (no_join_at_max evs (number_of_associated_stations_ this) ->
      forall k : nat,
        (0 <= GetNumberOfAssociatedStations (state (deliver W (firstn k evs) h this))
         <= INT_MAX)%Z)
  /\ ((forall k : nat,
          (0 <= GetNumberOfAssociatedStations
                  (state (deliver W (firstn k evs) h this)))%Z) ->
      no_join_at_max evs (number_of_associated_stations_ this))
  /\ (forall mac h',
         number_of_associated_stations_ this = 0%Z ->
         state (OnStationEvent W DEL_STATION mac h' this) = this
         /\ filter is_anomaly (events (OnStationEvent W DEL_STATION mac h' this))
            = [Log ERROR "Received DEL_STATION event when station counter is: 0"])
  /\ (forall (St : Type) (st : St) ifname ifindex h',
         number_of_associated_stations_
           (result (ApInterfaceImpl_ctor W ifname ifindex h' st)) = 0%Z).
Proof.
  intros Hc.
  assert (Hread : forall k : nat,
             GetNumberOfAssociatedStations (state (deliver W (firstn k evs) h this))
             = count_after (firstn k evs) (number_of_associated_stations_ this)).
  { intros k. unfold GetNumberOfAssociatedStations. rewrite deliver_state.
    reflexivity. }
  split; [exact Hread|split; [|split; [|split]]].
  - intros Hfit k. rewrite Hread. apply no_join_at_max_range; assumption.
  - intros Hpos. apply not_negative_no_join_at_max; [exact Hc|].
    intros k. rewrite <- Hread. apply Hpos.
  - intros mac h' Hzero. rewrite OnStationEvent_state. rewrite Hzero.
    split.
    + destruct this as [n i b c]. cbn in *. subst c. reflexivity.
    + unfold OnStationEvent. run_m. rewrite Hzero. reflexivity.
  - intros. reflexivity.
Qed.

(** ** The registry of listeners *)

Lemma same_binder_iff (a b : IInterfaceEventCallback) :
  same_binder a b = true <-> asBinder a = asBinder b.
Proof. unfold same_binder. apply N.eqb_eq. Qed.

Lemma registered_In (callback : IInterfaceEventCallback)
  (l : list IInterfaceEventCallback) :
  registered callback l = true <-> In (asBinder callback) (map asBinder l).
Proof.
  induction l as [|it l IH]; cbn [registered map In].
  - split; [discriminate|contradiction].
  - destruct (same_binder callback it) eqn:E.
    + apply same_binder_iff in E. split; [intros _; left; congruence|reflexivity].
    + rewrite IH. split; [intros H; right; exact H|].
      intros [H|H]; [|exact H].
      assert (same_binder callback it = true) by (apply same_binder_iff; congruence).
      congruence.
Qed.

Lemma count_listener_absent (callback : IInterfaceEventCallback)
  (l : list IInterfaceEventCallback) :
  registered callback l = false -> count_listener callback l = O.
Proof.
  unfold count_listener. induction l as [|it l IH]; cbn [registered filter].
  - reflexivity.
  - destruct (same_binder callback it); [discriminate|exact IH].
Qed.

Lemma count_listener_distinct (callback : IInterfaceEventCallback)
  (l : list IInterfaceEventCallback) :
  distinct_listeners l ->
  registered callback l = true ->
  count_listener callback l = 1%nat.
Proof.
  unfold distinct_listeners, count_listener.
  induction l as [|it l IH]; cbn [registered filter map]; intros Hd Hr.
  - discriminate.
  - apply NoDup_cons_iff in Hd as [Hnotin Hd].
    destruct (same_binder callback it) eqn:E.
    + cbn [List.length]. f_equal.
      apply count_listener_absent.
      destruct (registered callback l) eqn:R; [|reflexivity].
      apply registered_In in R. apply same_binder_iff in E.
      rewrite E in R. contradiction.
    + apply IH; assumption.
Qed.

Lemma count_listener_app (callback : IInterfaceEventCallback)
  (a b : list IInterfaceEventCallback) :
  count_listener callback (a ++ b)
  = (count_listener callback a + count_listener callback b)%nat.
Proof. unfold count_listener. rewrite filter_app, length_app. reflexivity. Qed.

Lemma erase_first_absent (callback : IInterfaceEventCallback)
  (l : list IInterfaceEventCallback) :
  registered callback l = false -> erase_first callback l = None.
Proof.
  induction l as [|it l IH]; cbn [registered erase_first].
  - reflexivity.
  - destruct (same_binder callback it); [discriminate|].
    intros H. rewrite (IH H). reflexivity.
Qed.

Lemma erase_first_first (callback it : IInterfaceEventCallback)
  (before after : list IInterfaceEventCallback) :
  registered callback before = false ->
  same_binder callback it = true ->
  erase_first callback (before ++ it :: after) = Some (before ++ after).
Proof.
  intros Hb Hit. induction before as [|x before IH]; cbn [app erase_first registered] in *.
  - rewrite Hit. reflexivity.
  - destruct (same_binder callback x); [discriminate|].
    rewrite (IH Hb). reflexivity.
Qed.

Lemma erase_first_sub (callback : IInterfaceEventCallback) :
  forall l l', erase_first callback l = Some l' ->
               forall b, In b (map asBinder l') -> In b (map asBinder l).
Proof.
  induction l as [|it l IH]; cbn [erase_first]; intros l' He b Hb.
  - discriminate.
  - destruct (same_binder callback it).
    + injection He as <-. right. exact Hb.
    + destruct (erase_first callback l) as [r|] eqn:E; [|discriminate].
      injection He as <-. cbn [map In] in *.
      destruct Hb as [Hb|Hb]; [left; exact Hb|right; apply (IH r eq_refl b Hb)].
Qed.

Lemma erase_first_distinct (callback : IInterfaceEventCallback) :
  forall l l', erase_first callback l = Some l' ->
               distinct_listeners l -> distinct_listeners l'.
Proof.
  unfold distinct_listeners.
  induction l as [|it l IH]; cbn [erase_first map]; intros l' He Hd.
  - discriminate.
  - apply NoDup_cons_iff in Hd as [Hnotin Hd].
    destruct (same_binder callback it).
    + injection He as <-. exact Hd.
    + destruct (erase_first callback l) as [r|] eqn:E; [|discriminate].
      injection He as <-. cbn [map]. constructor.
      * intros Hin. apply Hnotin. apply (erase_first_sub callback l r E _ Hin).
      * apply (IH r eq_refl Hd).
Qed.

Lemma append_distinct (callback : IInterfaceEventCallback)
  (l : list IInterfaceEventCallback) :
  distinct_listeners l ->
  registered callback l = false ->
  distinct_listeners (l ++ [callback]).
Proof.
  unfold distinct_listeners. intros Hd Hr. rewrite map_app. cbn [map].
  apply NoDup_app.
  - exact Hd.
  - constructor; [intros []|constructor].
  - intros b Hb [<-|[]].
    apply registered_In in Hb. congruence.
Qed.

Lemma RegisterCallback_run (callback : IInterfaceEventCallback) (h : History) (s : Server) :
  RegisterCallback callback h s
  = if registered callback (interface_event_callbacks_ s)
    then (Status_ok, s,
          [Log WARNING "Ignore duplicate interface event callback registration"])
    else (Status_ok,
          set_interface_event_callbacks s (interface_event_callbacks_ s ++ [callback]),
          [Log INFO "New interface event callback registered"]).
Proof.
  unfold RegisterCallback. run_m.
  destruct (registered callback (interface_event_callbacks_ s)); reflexivity.
Qed.

Lemma UnregisterCallback_run (callback : IInterfaceEventCallback) (h : History) (s : Server) :
  UnregisterCallback callback h s
  = match erase_first callback (interface_event_callbacks_ s) with
    | Some l => (Status_ok, set_interface_event_callbacks s l,
                 [Log INFO "Unregister interface event callback"])
    | None => (Status_ok, s,
               [Log WARNING
                  "Failed to find registered interface event callback to unregister"])
    end.
Proof.
  unfold UnregisterCallback. run_m.
  destruct (erase_first callback (interface_event_callbacks_ s)); reflexivity.
Qed.

Lemma broadcast_run (b : Broadcast) (h : History) (s : Server) :
  broadcast b h s = (tt, s, map (broadcast_event b) (interface_event_callbacks_ s)).
Proof.
  assert (Hloop : forall (B : Broadcast) (h' : History),
             for_each (interface_event_callbacks_ s)
                      (fun it => emit (broadcast_event B it)) h' s
             = (tt, s, map (broadcast_event B) (interface_event_callbacks_ s))).
  { intros B h'.
    rewrite (for_each_flat_map _ (fun _ it => [broadcast_event B it])) by reflexivity.
    f_equal. }
  destruct b as [i|i|i|i|mac st]; cbn [broadcast];
    unfold BroadcastClientInterfaceReady, BroadcastApInterfaceReady,
      BroadcastClientInterfaceTornDown, BroadcastApInterfaceTornDown,
      BroadcastSoftApClientConnectStatus, bind, get; cbn [fst snd app].
  - pose proof (Hloop (ClientInterfaceReady i) (h ++ [])) as H.
    cbn [broadcast_event] in H. rewrite H. reflexivity.
  - pose proof (Hloop (ApInterfaceReady i) (h ++ [])) as H.
    cbn [broadcast_event] in H. rewrite H. reflexivity.
  - pose proof (Hloop (ClientInterfaceTornDown i) (h ++ [])) as H.
    cbn [broadcast_event] in H. rewrite H. reflexivity.
  - pose proof (Hloop (ApInterfaceTornDown i) (h ++ [])) as H.
    cbn [broadcast_event] in H. rewrite H. reflexivity.
  - pose proof (Hloop (SoftApClientConnectStatus mac st) (h ++ [])) as H.
    cbn [broadcast_event] in H. rewrite H. reflexivity.
Qed.

Lemma notifications_broadcast (callback : IInterfaceEventCallback) (b : Broadcast)
  (l : list IInterfaceEventCallback) :
  notifications callback (map (broadcast_event b) l) = count_listener callback l.
Proof.
  unfold notifications, count_listener.
  induction l as [|it l IH]; cbn [map filter].
  - reflexivity.
  - assert (notifies callback (broadcast_event b it) = same_binder callback it) as ->
      by (destruct b; reflexivity).
    destruct (same_binder callback it); cbn [List.length]; congruence.
Qed.

(** *** Only registering and unregistering write the registry *)

Lemma keeps_ret {A : Type} (a : A) : keeps_registry (ret a).
Proof. intros h s. reflexivity. Qed.

Lemma keeps_emit (e : Event) : keeps_registry (emit e).
Proof. intros h s. reflexivity. Qed.

Lemma keeps_LOG (sev : Severity) (msg : string) : keeps_registry (LOG sev msg).
Proof. intros h s. reflexivity. Qed.

Lemma keeps_call {A : Type} (e : Event) (f : History -> A) : keeps_registry (call e f).
Proof. intros h s. reflexivity. Qed.

Lemma keeps_ask {A : Type} (f : History -> A) : keeps_registry (ask f).
Proof. intros h s. reflexivity. Qed.

Lemma keeps_get : keeps_registry get.
Proof. intros h s. reflexivity. Qed.

Lemma keeps_modify (f : Server -> Server) :
  (forall s, interface_event_callbacks_ (f s) = interface_event_callbacks_ s) ->
  keeps_registry (modify f).
Proof. intros Hf h s. apply Hf. Qed.

Lemma keeps_bind {A B : Type} (m : M Server A) (k : A -> M Server B) :
  keeps_registry m -> (forall a, keeps_registry (k a)) -> keeps_registry (bind m k).
Proof.
  intros Hm Hk h s. unfold bind, state. cbn [fst snd].
  fold (state (m h s)).
  fold (state (k (fst (fst (m h s))) (h ++ snd (m h s)) (state (m h s)))).
  rewrite Hk. apply Hm.
Qed.

Lemma keeps_for_each {A : Type} (xs : list A) (body : A -> M Server unit) :
  (forall x, keeps_registry (body x)) -> keeps_registry (for_each xs body).
Proof.
  intros Hbody. induction xs as [|x xs IH]; cbn [for_each].
  - apply keeps_ret.
  - apply keeps_bind; [apply Hbody|intros _; exact IH].
Qed.

Create HintDb keeps.

Ltac keeps_step :=
  match goal with
  | |- keeps_registry (bind _ _) => apply keeps_bind; [|intros ?]
  | |- keeps_registry (ret _) => apply keeps_ret
  | |- keeps_registry (emit _) => apply keeps_emit
  | |- keeps_registry (LOG _ _) => apply keeps_LOG
  | |- keeps_registry (call _ _) => apply keeps_call
  | |- keeps_registry (ask _) => apply keeps_ask
  | |- keeps_registry get => apply keeps_get
  | |- keeps_registry (modify _) => apply keeps_modify; intros ?; reflexivity
  | |- keeps_registry (for_each _ _) => apply keeps_for_each; intros ?
  | |- keeps_registry (if ?c then _ else _) => destruct c
  | |- keeps_registry (match ?c with _ => _ end) => destruct c
  | |- keeps_registry _ => solve [auto with keeps]
  end.

Ltac keeps := cbv zeta; repeat keeps_step.

Lemma keeps_ApInterfaceImpl_ctor (n : string) (i : N) :
  keeps_registry (ApInterfaceImpl_ctor W n i).
Proof. unfold ApInterfaceImpl_ctor. keeps. Qed.

Lemma keeps_ApInterfaceImpl_dtor (this : ApInterfaceImpl) :
  keeps_registry (ApInterfaceImpl_dtor W this).
Proof. unfold ApInterfaceImpl_dtor. keeps. Qed.

Lemma keeps_ClientInterfaceImpl_ctor (w : N) (n : string) (i : N) (mac : list byte) :
  keeps_registry (ClientInterfaceImpl_ctor W w n i mac).
Proof. unfold ClientInterfaceImpl_ctor. keeps. Qed.

Lemma keeps_ClientInterfaceImpl_dtor (this : ClientInterfaceImpl) :
  keeps_registry (ClientInterfaceImpl_dtor this).
Proof. unfold ClientInterfaceImpl_dtor. keeps. Qed.

#[local] Hint Resolve keeps_ApInterfaceImpl_ctor keeps_ApInterfaceImpl_dtor
  keeps_ClientInterfaceImpl_ctor keeps_ClientInterfaceImpl_dtor : keeps.

Lemma keeps_broadcast (b : Broadcast) : keeps_registry (broadcast b).
Proof. intros h s. rewrite broadcast_run. reflexivity. Qed.

Lemma keeps_BroadcastClientInterfaceReady i :
  keeps_registry (BroadcastClientInterfaceReady i).
Proof. exact (keeps_broadcast (ClientInterfaceReady i)). Qed.

Lemma keeps_BroadcastApInterfaceReady i :
  keeps_registry (BroadcastApInterfaceReady i).
Proof. exact (keeps_broadcast (ApInterfaceReady i)). Qed.

Lemma keeps_BroadcastClientInterfaceTornDown i :
  keeps_registry (BroadcastClientInterfaceTornDown i).
Proof. exact (keeps_broadcast (ClientInterfaceTornDown i)). Qed.

Lemma keeps_BroadcastApInterfaceTornDown i :
  keeps_registry (BroadcastApInterfaceTornDown i).
Proof. exact (keeps_broadcast (ApInterfaceTornDown i)). Qed.

#[local] Hint Resolve keeps_BroadcastClientInterfaceReady keeps_BroadcastApInterfaceReady
  keeps_BroadcastClientInterfaceTornDown keeps_BroadcastApInterfaceTornDown : keeps.

Lemma keeps_RefreshWiphyIndex : keeps_registry (RefreshWiphyIndex W).
Proof. unfold RefreshWiphyIndex. keeps. Qed.

#[local] Hint Resolve keeps_RefreshWiphyIndex : keeps.

Lemma keeps_SetupInterface : keeps_registry (SetupInterface W).
Proof. unfold SetupInterface. keeps. Qed.

Lemma keeps_first_with_prefix (ifaces : list InterfaceInfo) (ifname : string) :
  keeps_registry (first_with_prefix ifaces ifname).
Proof.
  induction ifaces as [|i ifaces IH]; cbn [first_with_prefix]; keeps.
Qed.

#[local] Hint Resolve keeps_SetupInterface keeps_first_with_prefix : keeps.

Lemma keeps_QcSetupInterface (ifname : string) : keeps_registry (QcSetupInterface W ifname).
Proof. unfold QcSetupInterface. keeps. Qed.

#[local] Hint Resolve keeps_QcSetupInterface : keeps.

Lemma keeps_createApInterface out : keeps_registry (createApInterface W out).
Proof. unfold createApInterface. keeps. Qed.

Lemma keeps_createClientInterface out : keeps_registry (createClientInterface W out).
Proof. unfold createClientInterface. keeps. Qed.

Lemma keeps_QcCreateApInterface ifname out :
  keeps_registry (QcCreateApInterface W ifname out).
Proof. unfold QcCreateApInterface. keeps. Qed.

Lemma keeps_clear_client_interfaces : keeps_registry clear_client_interfaces.
Proof. unfold clear_client_interfaces. keeps. Qed.

Lemma keeps_clear_ap_interfaces : keeps_registry (clear_ap_interfaces W).
Proof. unfold clear_ap_interfaces. keeps. Qed.

Lemma keeps_MarkDownAllInterfaces : keeps_registry (MarkDownAllInterfaces W).
Proof. unfold MarkDownAllInterfaces. keeps. Qed.

#[local] Hint Resolve keeps_createApInterface keeps_createClientInterface
  keeps_QcCreateApInterface keeps_clear_client_interfaces keeps_clear_ap_interfaces
  keeps_MarkDownAllInterfaces : keeps.

Lemma keeps_tearDownStaInterfaces : keeps_registry tearDownStaInterfaces.
Proof. unfold tearDownStaInterfaces. keeps. Qed.

Lemma keeps_tearDownApInterfaces : keeps_registry (tearDownApInterfaces W).
Proof. unfold tearDownApInterfaces. keeps. Qed.

Lemma keeps_tearDownInterfaces : keeps_registry (tearDownInterfaces W).
Proof. unfold tearDownInterfaces. keeps. Qed.

Lemma keeps_stop_ap dual : keeps_registry (stop_ap W dual).
Proof. unfold stop_ap. keeps. Qed.

Lemma keeps_start_dual_ap bridge sap0 sap1 :
  keeps_registry (start_dual_ap W bridge sap0 sap1).
Proof. unfold start_dual_ap. keeps. Qed.

#[local] Hint Resolve keeps_stop_ap keeps_start_dual_ap : keeps.

Lemma keeps_three_or_more argv : keeps_registry (three_or_more W argv).
Proof. unfold three_or_more. keeps. Qed.

Lemma keeps_exactly_two argv : keeps_registry (exactly_two W argv).
Proof. unfold exactly_two. keeps. Qed.

#[local] Hint Resolve keeps_three_or_more keeps_exactly_two : keeps.

Lemma keeps_setHostapdParam cmd : keeps_registry (setHostapdParam W cmd).
Proof. unfold setHostapdParam. keeps. Qed.

Lemma keeps_station_event_at n event mac :
  keeps_registry (station_event_at W n event mac).
Proof.
  intros h s. unfold station_event_at.
  destruct (nth_error (ap_interfaces_ s) n); reflexivity.
Qed.

#[local] Hint Resolve keeps_tearDownStaInterfaces keeps_tearDownApInterfaces
  keeps_tearDownInterfaces keeps_setHostapdParam keeps_station_event_at : keeps.

Lemma state_then_ret {A : Type} (m : M Server A) (h : History) (s : Server) :
  state (bind m (fun _ => ret tt) h s) = state (m h s).
Proof. reflexivity. Qed.

Lemma serve_distinct (req : Request) (h : History) (s : Server) :
  distinct_listeners (interface_event_callbacks_ s) ->
  distinct_listeners (interface_event_callbacks_ (state (serve W req h s))).
Proof.
  intros Hd.
  assert (Hkeep : forall m : M Server unit,
             keeps_registry m ->
             distinct_listeners (interface_event_callbacks_ (state (m h s))))
    by (intros m Hm; rewrite Hm; exact Hd).
  destruct req; cbn [serve]; try (apply Hkeep; solve [keeps]).
  - rewrite state_then_ret, RegisterCallback_run.
    destruct (registered callback (interface_event_callbacks_ s)) eqn:R.
    + exact Hd.
    + apply append_distinct; assumption.
  - rewrite state_then_ret, UnregisterCallback_run.
    destruct (erase_first callback (interface_event_callbacks_ s)) as [l|] eqn:E.
    + apply (erase_first_distinct callback _ l E Hd).
    + exact Hd.
Qed.

Lemma serve_all_distinct (reqs : list Request) :
  forall (h : History) (s : Server),
    distinct_listeners (interface_event_callbacks_ s) ->
    distinct_listeners (interface_event_callbacks_ (state (serve_all W reqs h s))).
Proof.
  unfold serve_all. induction reqs as [|req reqs IH]; intros h s Hd.
  - exact Hd.
  - cbn [for_each]. unfold bind, state. cbn [fst snd].
    apply (IH _ _ (serve_distinct req h s Hd)).
Qed.

(** C7. Registering a listener whose binder is registered already only logs
    a warning and leaves the server as it is.  In a registry where no binder
    occurs twice, and every registry the server can reach from its
    construction is one, the listener has exactly one entry after it was
    registered, registering it again changes nothing, and each of the five
    broadcasts then notifies it exactly once.  Unregistering erases the first
    entry with the binder of the listener and nothing else, and only logs a
    warning when there is none, leaving the server as it is. *)
Theorem registry_idempotent
  (callback : IInterfaceEventCallback) (h : History) (s : Server) :
  (registered callback (interface_event_callbacks_ s) = true ->
   RegisterCallback callback h s
   = (Status_ok, s,
      [Log WARNING "Ignore duplicate interface event callback registration"]))
  /\ (distinct_listeners (interface_event_callbacks_ s) ->
      let s1 := state (RegisterCallback callback h s) in
      count_listener callback (interface_event_callbacks_ s1) = 1%nat
      /\ (forall h1, state (RegisterCallback callback h1 s1) = s1)
      /\ (forall b h1, notifications callback (events (broadcast b h1 s1)) = 1%nat))
  /\ (forall before it after,
         interface_event_callbacks_ s = before ++ it :: after ->
         registered callback before = false ->
         same_binder callback it = true ->
         UnregisterCallback callback h s
         = (Status_ok, set_interface_event_callbacks s (before ++ after),
            [Log INFO "Unregister interface event callback"]))
  /\ (registered callback (interface_event_callbacks_ s) = false ->
      UnregisterCallback callback h s
      = (Status_ok, s,
         [Log WARNING
            "Failed to find registered interface event callback to unregister"]))
  /\ (forall wiphy0 reqs h0,
         distinct_listeners
           (interface_event_callbacks_
              (state (serve_all W reqs h0 (Server_ctor wiphy0))))).
Proof.
  split; [|split; [|split; [|split]]].
  - intros R. rewrite RegisterCallback_run, R. reflexivity.
  - intros Hd s1.
    assert (Hone : count_listener callback (interface_event_callbacks_ s1) = 1%nat).
    { subst s1. rewrite RegisterCallback_run.
      destruct (registered callback (interface_event_callbacks_ s)) eqn:R.
      - apply count_listener_distinct; assumption.
      - unfold state.
        cbn [fst snd interface_event_callbacks_ set_interface_event_callbacks].
        rewrite count_listener_app, (count_listener_absent _ _ R).
        unfold count_listener, same_binder. cbn [filter].
        rewrite N.eqb_refl. reflexivity. }
    assert (Hreg : registered callback (interface_event_callbacks_ s1) = true).
    { destruct (registered callback (interface_event_callbacks_ s1)) eqn:R;
        [reflexivity|].
      rewrite (count_listener_absent _ _ R) in Hone. discriminate. }
    split; [exact Hone|split].
    + intros h1. rewrite RegisterCallback_run, Hreg. reflexivity.
    + intros b h1. rewrite broadcast_run. cbn [events snd].
      rewrite notifications_broadcast. exact Hone.
  - intros before it after Hl Hb Hit.
    rewrite UnregisterCallback_run, Hl, (erase_first_first _ _ _ _ Hb Hit).
    reflexivity.
  - intros R. rewrite UnregisterCallback_run, (erase_first_absent _ _ R). reflexivity.
  - intros wiphy0 reqs h0. apply serve_all_distinct. constructor.
Qed.

End Proofs.

(** * The theorems at work on concrete servers *)

(** ** C1: a second station interface is refused, three times in a row *)
Lemma createClientInterface_conflict_witness :
  createClientInterface all_fine None [] server_with_station
  = ((Status_ok, None), server_with_station, [conflict_log])
  /\ attempts all_fine 3 None [] server_with_station
     = (repeat (Status_ok, None) 3, server_with_station, repeat conflict_log 3).
Proof.
  apply (createClientInterface_conflict all_fine server_with_station [] None 3).
  discriminate.
Defined.

(** ** C8: eleven tokens *)
Lemma setHostapdParam_too_long_witness :
  setHostapdParam all_fine eleven_tokens [] (Server_ctor 0)
  = ((Status_ok, false), Server_ctor 0,
     [Log INFO "Command: softap a b c d e f g h i j (len=26)";
      Log ERROR "Command too long"]).
Proof.
  apply (setHostapdParam_too_long all_fine eleven_tokens [] (Server_ctor 0)).
  vm_compute. lia.
Defined.

(** ** C9: the exclusion example *)
Lemma station_interface_choice_witness :
  map client_interface_name
      (client_interfaces_
         (state (createClientInterface all_fine None [] (Server_ctor 0))))
  = ["wlan1"].
Proof.
  destruct (station_interface_choice all_fine (Server_ctor 0) [] None 0 sample_snapshot
              eq_refl eq_refl eq_refl) as [_ [Hsample _]].
  apply Hsample. reflexivity.
Defined.

(** ** C4: AP creation next to a station, next to an AP, and with [softap0] only *)
Lemma createApInterface_same_setup_witness :
  createApInterface all_fine None [] server_with_station
  = ((Status_ok, None), server_with_station, [conflict_log])
  /\ map interface_name_
         (ap_interfaces_ (state (createApInterface all_fine None [] server_with_ap)))
     = ["wlan0"; "wlan1"].
Proof.
  split.
  - apply (createApInterface_same_setup all_fine server_with_station [] None).
    discriminate.
  - destruct (createApInterface_same_setup all_fine server_with_ap [] None) as [_ H].
    destruct (H 0%N sample_snapshot eq_refl eq_refl eq_refl) as [Hfirst _].
    destruct (Hfirst [iface 3 "p2p0"; iface 4 "aware_data0"; iface 5 "softap0"]
                     (iface 6 "wlan1") [] eq_refl) as [_ Haps].
    + repeat apply Forall_cons; try apply Forall_nil; unfold reserved; cbn; auto.
    + intros [H0|[H0|H0]]; discriminate H0.
    + rewrite Haps. reflexivity.
Defined.

Lemma createApInterface_counterexample :
  (* a station interface exists: no AP interface is created *)
  createApInterface all_fine None [] server_with_station
  = ((Status_ok, None), server_with_station, [conflict_log])
  (* [softap0] is the only interface: it is not taken *)
  /\ createApInterface softap_only None [] (Server_ctor 0)
     = ((Status_ok, None), refreshed (Server_ctor 0) 0 [iface 5 "softap0"],
        setup_events 0 ++ [no_usable_log]).
Proof. split; reflexivity. Qed.

(** ** C3: hostapd cannot be stopped *)
Lemma StopHostapd_counterexample :
  let r := StopHostapd hostapd_stuck [] sample_ap in
  result r = false
  /\ events r = [EHostapdManagerStop]
  /\ first_index is_mark_down (events r) = None
  /\ first_index is_mode_reset (events r) = None.
Proof. repeat split. Qed.

(** ** C5: one AP controller torn down *)
Lemma teardown_order_counterexample :
  let evs := events (tearDownApInterfaces all_fine [] server_with_ap) in
  evs = [EOnApTorndownEvent sample_listener 50%N;
         ENotifyImplDead 50%N;
         ESetUpState "wlan0" false;
         EUnsubscribeStationEvent 3]
  /\ precedes is_unsubscribe is_mark_down evs = false
  /\ first_index is_daemon_stop evs = None.
Proof. repeat split. Qed.

(** ** C2: three events, and too many joins *)
Lemma station_counter_not_negative_witness :
  (forall k : nat,
      (0 <= GetNumberOfAssociatedStations
              (state (deliver all_fine (firstn k leave_join_leave) [] sample_ap))
       <= INT_MAX)%Z)
  /\ filter is_anomaly (events (OnStationEvent all_fine DEL_STATION sample_mac [] sample_ap))
     = [Log ERROR "Received DEL_STATION event when station counter is: 0"].
Proof.
  destruct (station_counter_not_negative all_fine leave_join_leave [] sample_ap)
    as (_ & Halways & _ & Hleave & _).
  - vm_compute. split; discriminate.
  - split.
    + apply Halways. cbn. repeat split; intros H; (discriminate H || reflexivity).
    + apply (Hleave sample_mac []). reflexivity.
Defined.

(** A station that joins and leaves, however often, never finds the counter
    at [INT_MAX]: the counter is not negative after any of these events. *)
Lemma in_and_out_no_join_at_max (n : nat) : no_join_at_max (in_and_out n) 0.
Proof.
  induction n as [|n IH]; cbn [in_and_out no_join_at_max fst].
  - exact I.
  - split; [intros _; reflexivity|].
    split; [intros H; discriminate H|exact IH].
Qed.

Lemma in_and_out_not_negative (n k : nat) :
  (0 <= GetNumberOfAssociatedStations
          (state (deliver all_fine (firstn k (in_and_out n)) [] sample_ap))
   <= INT_MAX)%Z.
Proof.
  rewrite deliver_state. apply no_join_at_max_range.
  - vm_compute. split; discriminate.
  - apply in_and_out_no_join_at_max.
Qed.

Lemma repeat_snoc {A : Type} (x : A) (n : nat) :
  repeat x (S n) = repeat x n ++ [x].
Proof.
  induction n as [|n IH].
  - reflexivity.
  - change (x :: repeat x (S n) = (x :: repeat x n) ++ [x]).
    cbn [app]. f_equal. exact IH.
Qed.

(** Joins only: the counter follows them as long as it can hold them. *)
Lemma count_after_joins (mac : list byte) (n : nat) :
  forall c : Z,
    (0 <= c)%Z ->
    (c + Z.of_nat n <= INT_MAX)%Z ->
    count_after (repeat (NEW_STATION, mac) n) c = (c + Z.of_nat n)%Z.
Proof.
  unfold INT_MAX. induction n as [|n IH]; intros c Hc Hmax.
  - cbn. lia.
  - rewrite repeat_snoc, count_after_app, IH by lia.
    unfold count_after. cbn [map fst fold_left count_step].
    rewrite wrap_int_small by (unfold INT_MIN, INT_MAX; lia). lia.
Qed.

(** After 2^31 joins in a row the counter of a new controller reads
    [INT_MIN]. *)
Lemma station_counter_counterexample :
  GetNumberOfAssociatedStations (state (deliver all_fine too_many_joins [] sample_ap))
  = INT_MIN
  /\ (INT_MIN < 0)%Z.
Proof.
  split; [|reflexivity].
  unfold GetNumberOfAssociatedStations. rewrite deliver_state.
  cbn [number_of_associated_stations_ set_number_of_associated_stations sample_ap].
  unfold too_many_joins.
  replace (Z.to_nat 2147483648) with (S (Z.to_nat 2147483647))
    by (rewrite <- Z2Nat.inj_succ by lia; reflexivity).
  rewrite repeat_snoc, count_after_app.
  rewrite count_after_joins by (unfold INT_MAX; rewrite ?Z2Nat.id; lia).
  rewrite Z2Nat.id by lia.
  reflexivity.
Qed.

(** ** C7: one listener *)
Lemma registry_idempotent_witness :
  RegisterCallback sample_listener [] server_with_ap
  = (Status_ok, server_with_ap,
     [Log WARNING "Ignore duplicate interface event callback registration"])
  /\ notifications sample_listener
       (events (broadcast (ApInterfaceReady 50%N) []
                  (state (RegisterCallback sample_listener [] server_with_ap))))
     = 1%nat
  /\ UnregisterCallback sample_listener [] server_with_ap
     = (Status_ok, set_interface_event_callbacks server_with_ap [],
        [Log INFO "Unregister interface event callback"])
  /\ UnregisterCallback sample_listener [] (Server_ctor 0)
     = (Status_ok, Server_ctor 0,
        [Log WARNING
           "Failed to find registered interface event callback to unregister"]).
Proof.
  destruct (registry_idempotent all_fine sample_listener [] server_with_ap)
    as [Hdup [Hone [Hfirst _]]].
  destruct (registry_idempotent all_fine sample_listener [] (Server_ctor 0))
    as [_ [_ [_ [Habsent _]]]].
  split; [|split; [|split]].
  - apply Hdup. reflexivity.
  - apply Hone. repeat constructor. intros [].
  - apply (Hfirst [] sample_listener []); reflexivity.
  - apply Habsent. reflexivity.
Defined.

(** ** C6: the dual-AP command

    With the bridge and both interfaces at hand the command creates three AP
    controllers and reports success.  When [sap0] cannot be found, the second
    creation fails and is logged, yet the command goes on: it creates [sap1],
    starts hostapd on the bridge and reports success as well; [br0] stays
    registered. *)
Theorem dual_ap_goes_on_after_failed_creation :
  tokenize (string_of_list_byte startap_dual)
  = ["cmd"; "startap"; "dual"; "br0"; "sap0"; "sap1"]
  /\ (let r := setHostapdParam dual_world startap_dual [] (Server_ctor 0) in
      result r = (Status_ok, true)
      /\ map interface_name_ (ap_interfaces_ (state r)) = ["br0"; "sap0"; "sap1"])
  /\ (let r := setHostapdParam dual_world_without_sap0 startap_dual [] (Server_ctor 0) in
      In (Log ERROR "No usable interface found with name sap0") (events r)
      /\ result r = (Status_ok, true)
      /\ map interface_name_ (ap_interfaces_ (state r)) = ["br0"; "sap1"]).
Proof.
  split; [reflexivity|split].
  - split; reflexivity.
  - split; [|split; reflexivity].
    vm_compute. tauto.
Qed.

(** * More of the code: what it does beyond the stated properties *)

Section MoreProofs.

Variable W : World.

(** A computation that is known, followed by another. *)
Lemma bind_eq {St A B : Type} (m : M St A) (k : A -> M St B)
  (h : History) (s : St) (a : A) (s1 : St) (e1 : list Event)
  (b : B) (s2 : St) (e2 : list Event) :
  m h s = (a, s1, e1) ->
  k a (h ++ e1) s1 = (b, s2, e2) ->
  bind m k h s = (b, s2, e1 ++ e2).
Proof. intros E1 E2. unfold bind. rewrite E1. cbn [fst snd]. rewrite E2. reflexivity. Qed.

(** One step of a run: the first computation of a sequence is settled by
    [tac], the rest remains. *)
Ltac step_with tac := eapply bind_eq; [ tac | cbv beta ].
Ltac step := step_with reflexivity.

Ltac norm_in H :=
  repeat rewrite app_nil_r in H; repeat rewrite <- app_assoc in H; cbn [app] in H.

(** ** Tearing down station interfaces, and everything *)

Lemma BroadcastClientInterfaceTornDown_run
  (this : ClientInterfaceImpl) (h : History) (s : Server) :
  BroadcastClientInterfaceTornDown (client_binder this) h s
  = (tt, s, client_torn_down_events (interface_event_callbacks_ s) this).
Proof.
  exact (broadcast_run (ClientInterfaceTornDown (client_binder this)) h s).
Qed.

Lemma clear_client_interfaces_run (h : History) (s : Server) :
  clear_client_interfaces h s
  = (tt, set_client_interfaces s [],
     flat_map client_dtor_events (rev (client_interfaces_ s))).
Proof.
  unfold clear_client_interfaces, bind, get. cbn [fst snd app].
  rewrite (for_each_flat_map _ (fun _ => client_dtor_events)) by reflexivity.
  unfold modify. cbn [fst snd]. rewrite app_nil_r. reflexivity.
Qed.

Lemma tearDownStaInterfaces_run (h : History) (s : Server) :
  tearDownStaInterfaces h s
  = (Status_ok, set_client_interfaces s [], sta_teardown_events s).
Proof.
  unfold tearDownStaInterfaces, sta_teardown_events, bind, get. cbn [fst snd app].
  rewrite (for_each_flat_map _
             (fun s' => client_torn_down_events (interface_event_callbacks_ s')))
    by (intros; apply BroadcastClientInterfaceTornDown_run).
  cbn [fst snd]. rewrite clear_client_interfaces_run.
  unfold ret. cbn [fst snd]. rewrite app_nil_r. reflexivity.
Qed.

Lemma tearDownApInterfaces_run (h : History) (s : Server) :
  tearDownApInterfaces W h s
  = (Status_ok, set_ap_interfaces s [], ap_teardown_events s).
Proof.
  unfold tearDownApInterfaces, ap_teardown_events, bind, get. cbn [fst snd app].
  rewrite (for_each_flat_map _
             (fun s' => torn_down_events (interface_event_callbacks_ s')))
    by (intros; apply BroadcastApInterfaceTornDown_run).
  cbn [fst snd]. rewrite clear_ap_interfaces_run.
  unfold ret. cbn [fst snd]. rewrite app_nil_r. reflexivity.
Qed.

Lemma MarkDownAllInterfaces_run (h : History) (s : Server) :
  MarkDownAllInterfaces W h s
  = (tt, s,
     mark_down_events
       (netlink_GetWiphyIndexWithInterfaceName W h kBaseIfName)
       (match netlink_GetWiphyIndexWithInterfaceName W h kBaseIfName with
        | Some w =>
            netlink_GetInterfaces W (h ++ [EGetWiphyIndexWithInterfaceName kBaseIfName]) w
        | None => None
        end)).
Proof.
  unfold MarkDownAllInterfaces, mark_down_events, bind, call. cbn [fst snd].
  destruct (netlink_GetWiphyIndexWithInterfaceName W h kBaseIfName) as [w|];
    cbn [fst snd ret app]; [|reflexivity].
  destruct (netlink_GetInterfaces W _ w) as [interfaces|];
    cbn [fst snd ret app]; [|reflexivity].
  rewrite (for_each_flat_map _ (fun _ i => [ESetUpState (name i) false]))
    by reflexivity.
  cbn [fst snd]. do 3 f_equal.
Qed.

(** X1. [tearDownStaInterfaces] tells every listener about every station
    interface, destroys the station controllers and leaves none, touching no
    other member.  After it a station interface can be created again: with the
    kernel answering and a usable interface listed, [createClientInterface] is
    not refused and registers its one controller. *)
Theorem tearDownStaInterfaces_lifts_conflict
  (s : Server) (h h' : History) (out : option IClientInterface)
  (wiphy : N) (ifaces : list InterfaceInfo) (i : InterfaceInfo) :
  netlink_GetWiphyIndexWithInterfaceName W h' kBaseIfName = Some wiphy ->
  netlink_GetInterfaces W (at_snapshot h' wiphy) wiphy = Some ifaces ->
  first_usable ifaces = Some i ->
  tearDownStaInterfaces h s
  = (Status_ok, set_client_interfaces s [], sta_teardown_events s)
  /\ (let r := createClientInterface W out h' (state (tearDownStaInterfaces h s)) in
      let b := new_ClientInterfaceBinder W (h' ++ setup_events wiphy) in
      result r = (Status_ok, Some b)
      /\ client_interfaces_ (state r)
         = [mkClientInterfaceImpl wiphy (name i) (index i) (mac_address i) b]).
Proof.
  intros Hw Hi Hfirst. split; [apply tearDownStaInterfaces_run|].
  rewrite tearDownStaInterfaces_run. unfold state at 1 2. cbn [fst snd].
  rewrite (createClientInterface_run W (set_client_interfaces s []) h' out wiphy ifaces
             eq_refl Hw Hi), Hfirst.
  split; reflexivity.
Qed.

Lemma tearDownInterfaces_trace (h : History) (s : Server) :
  let gone := sta_teardown_events s ++ ap_teardown_events s in
  let wiphy := netlink_GetWiphyIndexWithInterfaceName W (h ++ gone) kBaseIfName in
  let listed :=
    match wiphy with
    | Some w =>
        netlink_GetInterfaces W
          (h ++ gone ++ [EGetWiphyIndexWithInterfaceName kBaseIfName]) w
    | None => None
    end in
  tearDownInterfaces W h s
  = (Status_ok,
     mkServer (interface_event_callbacks_ s) [] [] (interfaces_ s)
              (wiphy_index_ s) (ap_interface s),
     gone ++ mark_down_events wiphy listed
     ++ [EUnsubscribeRegDomainChange (wiphy_index_ s)]).
Proof.
  cbv zeta. etransitivity.
  { unfold tearDownInterfaces.
    step.
    step_with ltac:(apply (for_each_flat_map _
                       (fun s' => client_torn_down_events (interface_event_callbacks_ s')));
                    intros; apply BroadcastClientInterfaceTornDown_run).
    step_with ltac:(apply clear_client_interfaces_run).
    step_with ltac:(apply (for_each_flat_map _
                       (fun s' => torn_down_events (interface_event_callbacks_ s')));
                    intros; apply BroadcastApInterfaceTornDown_run).
    step_with ltac:(apply clear_ap_interfaces_run).
    step_with ltac:(apply MarkDownAllInterfaces_run).
    step. step. reflexivity. }
  unfold sta_teardown_events, ap_teardown_events.
  cbn [set_client_interfaces set_ap_interfaces interface_event_callbacks_
       client_interfaces_ ap_interfaces_ interfaces_ wiphy_index_ ap_interface].
  norm_h. reflexivity.
Qed.


(** X2. [tearDownInterfaces] is the station teardown, then the AP teardown,
    then a cleanup: it asks for the wiphy of [wlan0] and for its interfaces
    and sets every listed interface down (none when either lookup fails), and
    it always ends by unsubscribing the regulatory-domain events of the wiphy
    index the server has stored.  No controller of either kind is left; the
    listeners, the cached interface list, the stored wiphy index and the
    remembered AP handle stay as they were.  Called again right after, it
    tells no listener anything and destroys nothing: only the cleanup is
    repeated, and the server stays as it is. *)
Theorem tearDownInterfaces_run (h : History) (s : Server) :
  let gone := sta_teardown_events s ++ ap_teardown_events s in
  let wiphy := netlink_GetWiphyIndexWithInterfaceName W (h ++ gone) kBaseIfName in
  let listed :=
    match wiphy with
    | Some w =>
        netlink_GetInterfaces W
          (h ++ gone ++ [EGetWiphyIndexWithInterfaceName kBaseIfName]) w
    | None => None
    end in
  let s' := mkServer (interface_event_callbacks_ s) [] [] (interfaces_ s)
                     (wiphy_index_ s) (ap_interface s) in
  tearDownInterfaces W h s
  = (Status_ok, s',
     gone ++ mark_down_events wiphy listed
     ++ [EUnsubscribeRegDomainChange (wiphy_index_ s)])
  /\ (forall h',
         state (tearDownInterfaces W h' s') = s'
         /\ (forall callback,
                notifications callback (events (tearDownInterfaces W h' s')) = O)
         /\ Forall (fun e => is_unsubscribe e = false)
                   (events (tearDownInterfaces W h' s'))).
Proof.
  cbv zeta. split; [apply tearDownInterfaces_trace|].
  intros h'. rewrite tearDownInterfaces_trace. cbv zeta.
  unfold state, events, sta_teardown_events, ap_teardown_events.
  cbn [fst snd client_interfaces_ ap_interfaces_ interface_event_callbacks_
       interfaces_ wiphy_index_ ap_interface flat_map rev app].
  split; [reflexivity|].
  set (wiphy := netlink_GetWiphyIndexWithInterfaceName W _ kBaseIfName).
  set (listed := match wiphy with Some w => _ | None => None end).
  assert (Hquiet : forall l : list InterfaceInfo,
             Forall (fun e => listener_of e = None /\ is_unsubscribe e = false)
                    (map (fun i => ESetUpState (name i) false) l)).
  { induction l as [|i l IH]; cbn [map]; constructor;
      [split; reflexivity|exact IH]. }
  assert (Hall : Forall (fun e => listener_of e = None /\ is_unsubscribe e = false)
                        (mark_down_events wiphy listed
                         ++ [EUnsubscribeRegDomainChange (wiphy_index_ s)])).
  { apply Forall_app. split; [|repeat constructor].
    unfold mark_down_events.
    destruct wiphy as [w|]; [|repeat constructor].
    destruct listed as [l|]; repeat (constructor; [split; reflexivity|]);
      [apply Hquiet|constructor]. }
  split.
  - intros callback. unfold notifications.
    induction Hall as [|e l [He _] _ IH]; [reflexivity|].
    cbn [filter]. unfold notifies at 1. rewrite He. exact IH.
  - induction Hall as [|e l [_ He] _ IH]; constructor; assumption.
Qed.

(** ** At most one station controller *)

Lemma untouched_ret {X A : Type} (member : Server -> X) (a : A) :
  untouched member (ret a).
Proof. intros h s. reflexivity. Qed.

Lemma untouched_emit {X : Type} (member : Server -> X) (e : Event) :
  untouched member (emit e).
Proof. intros h s. reflexivity. Qed.

Lemma untouched_LOG {X : Type} (member : Server -> X) (sev : Severity) (msg : string) :
  untouched member (LOG sev msg).
Proof. intros h s. reflexivity. Qed.

Lemma untouched_call {X A : Type} (member : Server -> X) (e : Event) (f : History -> A) :
  untouched member (call e f).
Proof. intros h s. reflexivity. Qed.

Lemma untouched_ask {X A : Type} (member : Server -> X) (f : History -> A) :
  untouched member (ask f).
Proof. intros h s. reflexivity. Qed.

Lemma untouched_get {X : Type} (member : Server -> X) : untouched member get.
Proof. intros h s. reflexivity. Qed.

Lemma untouched_modify {X : Type} (member : Server -> X) (f : Server -> Server) :
  (forall s, member (f s) = member s) -> untouched member (modify f).
Proof. intros Hf h s. apply Hf. Qed.

Lemma untouched_bind {X A B : Type} (member : Server -> X)
  (m : M Server A) (k : A -> M Server B) :
  untouched member m -> (forall a, untouched member (k a)) ->
  untouched member (bind m k).
Proof.
  intros Hm Hk h s. unfold bind, state. cbn [fst snd].
  fold (state (m h s)).
  fold (state (k (fst (fst (m h s))) (h ++ snd (m h s)) (state (m h s)))).
  rewrite Hk. apply Hm.
Qed.

Lemma untouched_for_each {X A : Type} (member : Server -> X)
  (xs : list A) (body : A -> M Server unit) :
  (forall x, untouched member (body x)) -> untouched member (for_each xs body).
Proof.
  intros Hbody. induction xs as [|x xs IH]; cbn [for_each].
  - apply untouched_ret.
  - apply untouched_bind; [apply Hbody|intros _; exact IH].
Qed.

Create HintDb untouched.

Ltac untouched_step :=
  match goal with
  | |- untouched _ (bind _ _) => apply untouched_bind; [|intros ?]
  | |- untouched _ (ret _) => apply untouched_ret
  | |- untouched _ (emit _) => apply untouched_emit
  | |- untouched _ (LOG _ _) => apply untouched_LOG
  | |- untouched _ (call _ _) => apply untouched_call
  | |- untouched _ (ask _) => apply untouched_ask
  | |- untouched _ get => apply untouched_get
  | |- untouched _ (modify _) => apply untouched_modify; intros ?; reflexivity
  | |- untouched _ (for_each _ _) => apply untouched_for_each; intros ?
  | |- untouched _ (if ?c then _ else _) => destruct c
  | |- untouched _ (match ?c with _ => _ end) => destruct c
  | |- untouched _ _ => solve [auto with untouched]
  end.

Ltac untouched_all := cbv zeta; repeat untouched_step.

Lemma stations_ApInterfaceImpl_ctor (n : string) (i : N) :
  untouched client_interfaces_ (ApInterfaceImpl_ctor W n i).
Proof. unfold ApInterfaceImpl_ctor. untouched_all. Qed.

Lemma stations_ApInterfaceImpl_dtor (this : ApInterfaceImpl) :
  untouched client_interfaces_ (ApInterfaceImpl_dtor W this).
Proof. unfold ApInterfaceImpl_dtor. untouched_all. Qed.

Lemma stations_broadcast (b : Broadcast) : untouched client_interfaces_ (broadcast b).
Proof. intros h s. rewrite broadcast_run. reflexivity. Qed.

Lemma stations_BroadcastApInterfaceReady i :
  untouched client_interfaces_ (BroadcastApInterfaceReady i).
Proof. exact (stations_broadcast (ApInterfaceReady i)). Qed.

Lemma stations_BroadcastApInterfaceTornDown i :
  untouched client_interfaces_ (BroadcastApInterfaceTornDown i).
Proof. exact (stations_broadcast (ApInterfaceTornDown i)). Qed.

#[local] Hint Resolve stations_ApInterfaceImpl_ctor stations_ApInterfaceImpl_dtor
  stations_BroadcastApInterfaceReady stations_BroadcastApInterfaceTornDown : untouched.

Lemma stations_RefreshWiphyIndex : untouched client_interfaces_ (RefreshWiphyIndex W).
Proof. unfold RefreshWiphyIndex. untouched_all. Qed.

#[local] Hint Resolve stations_RefreshWiphyIndex : untouched.

Lemma stations_SetupInterface : untouched client_interfaces_ (SetupInterface W).
Proof. unfold SetupInterface. untouched_all. Qed.

Lemma stations_first_with_prefix (ifaces : list InterfaceInfo) (ifname : string) :
  untouched client_interfaces_ (first_with_prefix ifaces ifname).
Proof.
  induction ifaces as [|i ifaces IH]; cbn [first_with_prefix]; untouched_all.
Qed.

#[local] Hint Resolve stations_SetupInterface stations_first_with_prefix : untouched.

Lemma stations_QcSetupInterface (ifname : string) :
  untouched client_interfaces_ (QcSetupInterface W ifname).
Proof. unfold QcSetupInterface. untouched_all. Qed.

#[local] Hint Resolve stations_QcSetupInterface : untouched.

Lemma stations_createApInterface out :
  untouched client_interfaces_ (createApInterface W out).
Proof. unfold createApInterface. untouched_all. Qed.

Lemma stations_QcCreateApInterface ifname out :
  untouched client_interfaces_ (QcCreateApInterface W ifname out).
Proof. unfold QcCreateApInterface. untouched_all. Qed.

Lemma stations_clear_ap_interfaces : untouched client_interfaces_ (clear_ap_interfaces W).
Proof. unfold clear_ap_interfaces. untouched_all. Qed.

#[local] Hint Resolve stations_createApInterface stations_QcCreateApInterface
  stations_clear_ap_interfaces : untouched.

Lemma stations_stop_ap dual : untouched client_interfaces_ (stop_ap W dual).
Proof. unfold stop_ap. untouched_all. Qed.

Lemma stations_start_dual_ap bridge sap0 sap1 :
  untouched client_interfaces_ (start_dual_ap W bridge sap0 sap1).
Proof. unfold start_dual_ap. untouched_all. Qed.

#[local] Hint Resolve stations_stop_ap stations_start_dual_ap : untouched.

Lemma stations_three_or_more argv : untouched client_interfaces_ (three_or_more W argv).
Proof. unfold three_or_more. untouched_all. Qed.

Lemma stations_exactly_two argv : untouched client_interfaces_ (exactly_two W argv).
Proof. unfold exactly_two. untouched_all. Qed.

#[local] Hint Resolve stations_three_or_more stations_exactly_two : untouched.

Lemma stations_setHostapdParam cmd : untouched client_interfaces_ (setHostapdParam W cmd).
Proof. unfold setHostapdParam. untouched_all. Qed.

Lemma stations_RegisterCallback callback :
  untouched client_interfaces_ (RegisterCallback callback).
Proof. unfold RegisterCallback. untouched_all. Qed.

Lemma stations_UnregisterCallback callback :
  untouched client_interfaces_ (UnregisterCallback callback).
Proof. unfold UnregisterCallback. untouched_all. Qed.

Lemma stations_station_event_at n event mac :
  untouched client_interfaces_ (station_event_at W n event mac).
Proof.
  intros h s. unfold station_event_at.
  destruct (nth_error (ap_interfaces_ s) n); reflexivity.
Qed.

Lemma createClientInterface_at_most_one (out : option IClientInterface)
  (h : History) (s : Server) :
  (List.length (client_interfaces_ s) <= 1)%nat ->
  (List.length (client_interfaces_ (state (createClientInterface W out h s))) <= 1)%nat.
Proof.
  intros Hle. destruct (client_interfaces_ s) as [|c cs] eqn:Hc.
  - unfold createClientInterface, bind, state. cbn [fst snd].
    pose proof (stations_SetupInterface h s) as Hkeep. unfold state in Hkeep.
    destruct (SetupInterface W h s) as [[[i|] s1] e1]; cbn [fst snd] in *.
    + unfold ClientInterfaceImpl_ctor, bind, get, ask, emit, ret, modify.
      cbn [fst snd]. rewrite BroadcastClientInterfaceReady_run.
      cbn [fst snd]. unfold set_client_interfaces. simpl client_interfaces_.
      rewrite Hkeep, Hc. cbn. lia.
    + unfold ret. cbn [fst snd]. rewrite Hkeep, Hc. cbn. lia.
  - rewrite (createClientInterface_refused W s h out) by (rewrite Hc; discriminate).
    unfold state. cbn [fst snd]. rewrite Hc. exact Hle.
Qed.

Lemma serve_at_most_one (req : Request) (h : History) (s : Server) :
  (List.length (client_interfaces_ s) <= 1)%nat ->
  (List.length (client_interfaces_ (state (serve W req h s))) <= 1)%nat.
Proof.
  intros Hle.
  assert (Hkeep : forall m : M Server unit,
             untouched client_interfaces_ m ->
             (List.length (client_interfaces_ (state (m h s))) <= 1)%nat)
    by (intros m Hm; rewrite Hm; exact Hle).
  destruct req; cbn [serve].
  - apply Hkeep. untouched_all. apply stations_RegisterCallback.
  - apply Hkeep. untouched_all. apply stations_UnregisterCallback.
  - apply Hkeep. untouched_all.
  - rewrite state_then_ret. apply createClientInterface_at_most_one. exact Hle.
  - apply Hkeep. untouched_all.
  - rewrite state_then_ret, tearDownInterfaces_trace. cbn. lia.
  - rewrite state_then_ret, tearDownStaInterfaces_run. cbn. lia.
  - apply Hkeep. untouched_all. intros h' s'. rewrite tearDownApInterfaces_run. reflexivity.
  - apply Hkeep. untouched_all. apply stations_setHostapdParam.
  - apply Hkeep. apply stations_station_event_at.
Qed.

(** X3. Whatever requests and station events reach the server after its
    construction, and whatever the outside answers, it never holds more than
    one station controller. *)
Theorem at_most_one_station (reqs : list Request) (h0 : History) (wiphy0 : N) :
  (List.length
     (client_interfaces_ (state (serve_all W reqs h0 (Server_ctor wiphy0)))) <= 1)%nat.
Proof.
  assert (Hall : forall (h : History) (s : Server),
             (List.length (client_interfaces_ s) <= 1)%nat ->
             (List.length (client_interfaces_ (state (serve_all W reqs h s))) <= 1)%nat).
  { unfold serve_all. induction reqs as [|req reqs IH]; intros h s Hle.
    - exact Hle.
    - cbn [for_each]. unfold bind, state. cbn [fst snd].
      apply (IH _ _ (serve_at_most_one req h s Hle)). }
  apply Hall. cbn. lia.
Qed.

(** ** AP interfaces by name *)

Lemma first_with_prefix_found (before after : list InterfaceInfo) (i : InterfaceInfo)
  (n : string) (h : History) (s : Server) :
  Forall (fun j => StartsWith (name j) n = false) before ->
  StartsWith (name i) n = true ->
  first_with_prefix (before ++ i :: after) n h s
  = (Some i, s, name_logs (before ++ [i])).
Proof.
  intros Hbefore Hi. revert h.
  induction Hbefore as [|j before Hj _ IH]; intros h; cbn [app first_with_prefix].
  - unfold bind, LOG, emit. cbn [fst snd]. rewrite Hi. reflexivity.
  - unfold bind, LOG, emit. cbn [fst snd]. rewrite Hj, IH. reflexivity.
Qed.

Lemma first_with_prefix_none (ifaces : list InterfaceInfo)
  (n : string) (h : History) (s : Server) :
  Forall (fun j => StartsWith (name j) n = false) ifaces ->
  first_with_prefix ifaces n h s = (None, s, name_logs ifaces).
Proof.
  intros Hall. revert h.
  induction Hall as [|j l Hj _ IH]; intros h; cbn [first_with_prefix].
  - reflexivity.
  - unfold bind, LOG, emit. cbn [fst snd]. rewrite Hj, IH. reflexivity.
Qed.

Lemma RefreshWiphyIndex_ok (h : History) (s : Server) (wiphy : N) :
  netlink_GetWiphyIndexWithInterfaceName W h kBaseIfName = Some wiphy ->
  RefreshWiphyIndex W h s
  = (true, set_wiphy_index s wiphy, [EGetWiphyIndexWithInterfaceName kBaseIfName]).
Proof.
  intros Hw. unfold RefreshWiphyIndex, bind, call. cbn [fst snd]. rewrite Hw.
  reflexivity.
Qed.

(** [QcSetupInterface] when the kernel answers, up to the search among the
    listed interfaces: [rest] is what follows the search. *)
Lemma QcSetupInterface_search (n : string) (h : History) (s : Server)
  (wiphy : N) (ifaces : list InterfaceInfo)
  (found : option InterfaceInfo) (logs : list Event)
  (r : option InterfaceInfo) (e : list Event) :
  netlink_GetWiphyIndexWithInterfaceName W h kBaseIfName = Some wiphy ->
  netlink_GetInterfaces W (at_snapshot h wiphy) wiphy = Some ifaces ->
  (forall h' s', first_with_prefix ifaces n h' s' = (found, s', logs)) ->
  (match found with
   | Some i => ret (Some i)
   | None =>
       br_index <- call (Eif_nametoindex n) (fun h => libc_if_nametoindex W h n) ;;
       if N.eqb br_index 0
       then reason <- ask (libc_strerror_errno W) ;;
            LOG ERROR ("Failed to get requested interface " ++ reason) ;;
            LOG ERROR ("No usable interface found with name " ++ n) ;; ret None
       else
         hw <- call (Elinux_get_ifhwaddr n) (fun h => qsap_linux_get_ifhwaddr W h n) ;;
         if Z.eqb (fst hw) 0
         then LOG INFO ("Bridged iface found " ++ n) ;;
              ret (Some (mkInterfaceInfo br_index n (until_nul (firstn 6 (snd hw)))))
         else LOG ERROR ("No usable interface found with name " ++ n) ;; ret None
   end) (h ++ setup_events wiphy ++ logs) (refreshed s wiphy ifaces)
  = (r, refreshed s wiphy ifaces, e) ->
  QcSetupInterface W n h s
  = (r, refreshed s wiphy ifaces, setup_events wiphy ++ logs ++ e).
Proof.
  intros Hw Hi Hfound Hrest. unfold at_snapshot in Hi. etransitivity.
  { unfold QcSetupInterface.
    step_with ltac:(apply RefreshWiphyIndex_ok; exact Hw). cbn [negb].
    step. step. step. step.
    cbn [set_wiphy_index wiphy_index_]. norm_h. rewrite Hi.
    step. step_with ltac:(apply Hfound).
    cbv zeta. norm_h. unfold setup_events, refreshed in Hrest. norm_in Hrest.
    cbn [set_interfaces set_wiphy_index interface_event_callbacks_ client_interfaces_
         ap_interfaces_ interfaces_ wiphy_index_ ap_interface] in *.
    exact Hrest. }
  unfold setup_events. norm_h. reflexivity.
Qed.

(** X4. [QcCreateApInterface] takes the first listed interface whose name
    starts with the requested name (the bytes up to the first zero byte) and
    appends an AP controller for it.  Nothing else is tested: station
    controllers may exist, and no name is excluded; with an empty name every
    interface matches, so the first one listed is taken.  Every interface
    looked at is logged. *)
Theorem QcCreateApInterface_by_prefix
  (s : Server) (h : History) (ifname : list byte) (out : option IApInterface)
  (wiphy : N) (before after : list InterfaceInfo) (i : InterfaceInfo) :
  let n := c_str (string_of_list_byte ifname) in
  netlink_GetWiphyIndexWithInterfaceName W h kBaseIfName = Some wiphy ->
  netlink_GetInterfaces W (at_snapshot h wiphy) wiphy = Some (before ++ i :: after) ->
  Forall (fun j => StartsWith (name j) n = false) before ->
  StartsWith (name i) n = true ->
  let looked := setup_events wiphy ++ name_logs (before ++ [i]) in
  let b := new_ApInterfaceBinder W (h ++ looked) in
  QcCreateApInterface W ifname out h s
  = ((Status_ok, Some b),
     set_ap_interfaces (refreshed s wiphy (before ++ i :: after))
       (ap_interfaces_ s ++ [mkApInterfaceImpl (name i) (index i) b 0]),
     looked ++ ap_created_events i
     ++ ap_ready_events (interface_event_callbacks_ s) b).
Proof.
  intros n Hw Hi Hbefore Hmatch looked b. subst looked b. etransitivity.
  { unfold QcCreateApInterface. fold n.
    step_with ltac:(apply (QcSetupInterface_search n h s wiphy _ (Some i)
                             (name_logs (before ++ [i])) (Some i) [] Hw Hi);
                    [intros; apply first_with_prefix_found; assumption
                    |reflexivity]).
    step. step.
    step_with ltac:(apply BroadcastApInterfaceReady_run).
    reflexivity. }
  cbn [refreshed set_interfaces set_wiphy_index set_ap_interfaces GetBinder binder_
       interface_event_callbacks_ ap_interfaces_ client_interfaces_ interfaces_
       wiphy_index_ ap_interface].
  unfold ap_created_events. norm_h. reflexivity.
Qed.

Lemma until_nul_facts (bs : list byte) :
  (List.length (until_nul (firstn 6 bs)) <= 6)%nat
  /\ ~ In x00 (until_nul (firstn 6 bs))
  /\ (exists rest, bs = until_nul (firstn 6 bs) ++ rest)
  /\ (~ In x00 (firstn 6 bs) -> until_nul (firstn 6 bs) = firstn 6 bs).
Proof.
  assert (Hlen : forall l : list byte, (List.length (until_nul l) <= List.length l)%nat).
  { induction l as [|b l IH]; cbn [until_nul List.length]; [lia|].
    destruct (Byte.eqb b x00); cbn [List.length]; lia. }
  assert (Hno : forall l : list byte, ~ In x00 (until_nul l)).
  { induction l as [|b l IH]; cbn [until_nul]; [intros []|].
    destruct (Byte.eqb b x00) eqn:E; [intros []|].
    intros [Hb|Hin]; [|exact (IH Hin)].
    subst b. discriminate E. }
  assert (Hpre : forall l : list byte, exists rest, l = until_nul l ++ rest).
  { induction l as [|b l [rest IH]]; cbn [until_nul]; [exists []; reflexivity|].
    destruct (Byte.eqb b x00); [exists (b :: l); reflexivity|].
    exists rest. cbn [app]. f_equal. exact IH. }
  assert (Hid : forall l : list byte, ~ In x00 l -> until_nul l = l).
  { induction l as [|b l IH]; cbn [until_nul]; [reflexivity|].
    intros Hnot. destruct (Byte.eqb b x00) eqn:E.
    - exfalso. apply Hnot. left. symmetry. apply Byte.byte_dec_bl. exact E.
    - f_equal. apply IH. intros Hin. apply Hnot. right. exact Hin. }
  repeat split.
  - pose proof (Hlen (firstn 6 bs)). pose proof (length_firstn 6 bs). lia.
  - apply Hno.
  - destruct (Hpre (firstn 6 bs)) as [rest Hrest].
    exists (rest ++ skipn 6 bs).
    rewrite app_assoc, <- Hrest. symmetry. apply firstn_skipn.
  - apply Hid.
Qed.

(** X5. When no listed interface starts with the requested name,
    [QcSetupInterface] asks the OS for an interface of exactly that name.
    An index of zero ends the search with two errors logged and without the
    hardware address being read; a hardware address that cannot be read ends
    it as well.  Otherwise the bridge is described by its OS index, the
    requested name and the hardware address read back as a C string: at most
    six bytes, cut before the first zero byte, so whole only when none of the
    six is zero. *)
Theorem QcSetupInterface_bridge
  (s : Server) (h : History) (n : string) (wiphy : N) (ifaces : list InterfaceInfo) :
  netlink_GetWiphyIndexWithInterfaceName W h kBaseIfName = Some wiphy ->
  netlink_GetInterfaces W (at_snapshot h wiphy) wiphy = Some ifaces ->
  Forall (fun j => StartsWith (name j) n = false) ifaces ->
  let h1 := h ++ setup_events wiphy ++ name_logs ifaces in
  let br_index := libc_if_nametoindex W h1 n in
  let hw := qsap_linux_get_ifhwaddr W (h1 ++ [Eif_nametoindex n]) n in
  let mac := until_nul (firstn 6 (snd hw)) in
  let r := QcSetupInterface W n h s in
  state r = refreshed s wiphy ifaces
  /\ (br_index = 0%N ->
      result r = None
      /\ events r
         = setup_events wiphy ++ name_logs ifaces
           ++ [Eif_nametoindex n;
               Log ERROR ("Failed to get requested interface "
                          ++ libc_strerror_errno W (h1 ++ [Eif_nametoindex n]));
               Log ERROR ("No usable interface found with name " ++ n)])
  /\ (br_index <> 0%N -> fst hw <> 0%Z -> result r = None)
  /\ (br_index <> 0%N -> fst hw = 0%Z ->
      result r = Some (mkInterfaceInfo br_index n mac)
      /\ (List.length mac <= 6)%nat
      /\ ~ In x00 mac
      /\ (exists rest, snd hw = mac ++ rest)
      /\ (~ In x00 (firstn 6 (snd hw)) -> mac = firstn 6 (snd hw))).
Proof.
  intros Hw Hi Hnone h1 br_index hw mac r.
  assert (Hrun : forall res e,
             (br_index <- call (Eif_nametoindex n) (fun h => libc_if_nametoindex W h n) ;;
              if N.eqb br_index 0
              then reason <- ask (libc_strerror_errno W) ;;
                   LOG ERROR ("Failed to get requested interface " ++ reason) ;;
                   LOG ERROR ("No usable interface found with name " ++ n) ;; ret None
              else
                hw <- call (Elinux_get_ifhwaddr n)
                           (fun h => qsap_linux_get_ifhwaddr W h n) ;;
                if Z.eqb (fst hw) 0
                then LOG INFO ("Bridged iface found " ++ n) ;;
                     ret (Some (mkInterfaceInfo br_index n
                                  (until_nul (firstn 6 (snd hw)))))
                else LOG ERROR ("No usable interface found with name " ++ n) ;;
                     ret None) h1 (refreshed s wiphy ifaces)
             = (res, refreshed s wiphy ifaces, e) ->
             r = (res, refreshed s wiphy ifaces,
                  setup_events wiphy ++ name_logs ifaces ++ e)).
  { intros res e Hrest. subst r.
    apply (QcSetupInterface_search n h s wiphy ifaces None (name_logs ifaces) res e Hw Hi).
    - intros; apply first_with_prefix_none; exact Hnone.
    - exact Hrest. }
  destruct (N.eqb_spec br_index 0) as [Hz|Hnz].
  - rewrite (Hrun None
               [Eif_nametoindex n;
                Log ERROR ("Failed to get requested interface "
                           ++ libc_strerror_errno W (h1 ++ [Eif_nametoindex n]));
                Log ERROR ("No usable interface found with name " ++ n)]).
    + repeat split; try reflexivity; intros; contradiction.
    + etransitivity.
      { step. fold br_index. rewrite Hz. cbn [N.eqb].
        step. step. step. reflexivity. }
      norm_h. reflexivity.
  - destruct (Z.eqb_spec (fst hw) 0) as [H0|Hn0].
    + rewrite (Hrun (Some (mkInterfaceInfo br_index n mac))
                 [Eif_nametoindex n; Elinux_get_ifhwaddr n;
                  Log INFO ("Bridged iface found " ++ n)]).
      * split; [reflexivity|]. split; [intros; contradiction|].
        split; [intros; contradiction|]. intros _ _.
        split; [reflexivity|]. apply until_nul_facts.
      * etransitivity.
        { step. fold br_index.
          destruct (N.eqb_spec br_index 0) as [|_]; [contradiction|].
          step. fold hw. rewrite H0. cbn [Z.eqb].
          step. reflexivity. }
        norm_h. reflexivity.
    + rewrite (Hrun None
                 [Eif_nametoindex n; Elinux_get_ifhwaddr n;
                  Log ERROR ("No usable interface found with name " ++ n)]).
      * split; [reflexivity|]. split; [intros; contradiction|].
        split; [intros; reflexivity|]. intros; contradiction.
      * etransitivity.
        { step. fold br_index.
          destruct (N.eqb_spec br_index 0) as [|_]; [contradiction|].
          step. fold hw.
          destruct (Z.eqb_spec (fst hw) 0) as [|_]; [contradiction|].
          step. reflexivity. }
        norm_h. reflexivity.
Qed.

(** ** Listing the interfaces *)

Lemma push_back_all {A : Type} (f : A -> IBinder) (l : list A) :
  forall out, fold_left (fun out it => out ++ [f it]) l out = out ++ map f l.
Proof.
  induction l as [|x l IH]; intros out; cbn [fold_left map].
  - symmetry. apply app_nil_r.
  - rewrite IH, <- app_assoc. reflexivity.
Qed.

Lemma aps_SetupInterface : untouched ap_interfaces_ (SetupInterface W).
Proof.
  unfold SetupInterface.
  assert (untouched ap_interfaces_ (RefreshWiphyIndex W))
    by (unfold RefreshWiphyIndex; untouched_all).
  untouched_all.
Qed.

(** X6. [GetApInterfaces] and [GetClientInterfaces] append to the vector
    they are given, never replace it: one binder per live controller, in the
    order the controllers were created, with the server left as it is.  The
    binder a successful [createApInterface] returns is the last one listed
    right after; once [tearDownApInterfaces] has run, nothing is listed. *)
Theorem GetInterfaces_lists_live_controllers
  (out : list IBinder) (h h' : History) (s : Server) :
  GetApInterfaces out h s
  = ((Status_ok, out ++ map binder_ (ap_interfaces_ s)), s, [])
  /\ GetClientInterfaces out h s
     = ((Status_ok, out ++ map client_binder (client_interfaces_ s)), s, [])
  /\ (forall b,
         result (createApInterface W None h s) = (Status_ok, Some b) ->
         snd (result (GetApInterfaces [] h' (state (createApInterface W None h s))))
         = snd (result (GetApInterfaces [] h s)) ++ [b])
  /\ result (GetApInterfaces out h' (state (tearDownApInterfaces W h s)))
     = (Status_ok, out).
Proof.
  assert (HAp : forall o h0 s0,
             GetApInterfaces o h0 s0
             = ((Status_ok, o ++ map binder_ (ap_interfaces_ s0)), s0, [])).
  { intros. unfold GetApInterfaces, bind, get, ret. cbn [fst snd app].
    rewrite (push_back_all GetBinder). reflexivity. }
  split; [apply HAp|]. split.
  { unfold GetClientInterfaces, bind, get, ret. cbn [fst snd app].
    rewrite (push_back_all client_binder). reflexivity. }
  split.
  - intros b. rewrite !HAp. unfold result. cbn [fst snd app].
    unfold createApInterface, bind, state. cbn [fst snd].
    pose proof (aps_SetupInterface h s) as Hkeep. unfold state in Hkeep.
    destruct (SetupInterface W h s) as [[[i|] s1] e1]; cbn [fst snd] in *.
    + unfold ApInterfaceImpl_ctor, bind, ask, LOG, emit, modify, ret.
      cbn [fst snd]. rewrite BroadcastApInterfaceReady_run. cbn [fst snd].
      unfold set_ap_interfaces, GetBinder. simpl ap_interfaces_. simpl binder_.
      intros Hb. injection Hb as Hb. rewrite Hkeep, map_app, <- Hb. reflexivity.
    + unfold ret. cbn [fst snd]. discriminate.
  - rewrite tearDownApInterfaces_run, HAp. unfold result, state. cbn.
    rewrite app_nil_r. reflexivity.
Qed.

(** ** The raw command, branch by branch *)

(** Comparisons of two known words are decided. *)
Ltac decide_streq :=
  repeat match goal with
         | |- context [streq ?a ?b] =>
             let v := eval vm_compute in (streq a b) in
             progress change (streq a b) with v
         end.

(** [setHostapdParam] once [argv] is known: what the branch taken returns. *)
Lemma setHostapdParam_dispatch (cmd : list byte) (argv : list string)
  (h : History) (s : Server) (success : bool) (s' : Server) (e : list Event) :
  argv_of cmd = Some argv ->
  (if (2 <? List.length argv)%nat then three_or_more W argv
   else if (1 <? List.length argv)%nat then exactly_two W argv
   else LOG ERROR ("Wrong/Unknown command: " ++ string_of_list_byte cmd) ;;
        ret false) (h ++ [command_log cmd]) s = (success, s', e) ->
  setHostapdParam W cmd h s = ((Status_ok, success), s', command_log cmd :: e).
Proof.
  intros Hargv Hbranch. unfold setHostapdParam, argv_of in *. rewrite Hargv.
  etransitivity.
  { step. step_with ltac:(exact Hbranch). reflexivity. }
  unfold command_log. norm_h. reflexivity.
Qed.

Lemma stop_ap_run (dual : bool) (h : History) (s : Server) :
  stop_ap W dual h s
  = match ap_interfaces_ s, ap_interface s with
    | _ :: _, Some ap =>
        if isOk (fst (binder_stopHostapd W h ap dual))
        then (true,
              mkServer (interface_event_callbacks_ s) (client_interfaces_ s) []
                       (interfaces_ s) (wiphy_index_ s) None,
              EstopHostapd ap dual :: flat_map dtor_events (rev (ap_interfaces_ s))
              ++ [Log INFO "hostapd stopped"])
        else (false, s, [EstopHostapd ap dual; Log INFO "Failed to stop hostapd"])
    | _, _ => (false, s, [Log INFO "Failed to stop hostapd"])
    end.
Proof.
  unfold stop_ap.
  destruct (ap_interfaces_ s) as [|a aps] eqn:Haps.
  - etransitivity.
    { step. rewrite Haps. cbn [is_empty]. reflexivity. }
    destruct (ap_interface s); reflexivity.
  - destruct (ap_interface s) as [ap|] eqn:Hap.
    + destruct (isOk (fst (binder_stopHostapd W h ap dual))) eqn:Hok.
      * etransitivity.
        { step. rewrite Haps, Hap. cbn [is_empty].
          step. norm_h. rewrite Hok.
          step_with ltac:(apply clear_ap_interfaces_run).
          step. step. reflexivity. }
        rewrite Haps.
        cbn [set_ap_interfaces set_ap_interface interface_event_callbacks_
             client_interfaces_ ap_interfaces_ interfaces_ wiphy_index_ ap_interface].
        norm_h. reflexivity.
      * etransitivity.
        { step. rewrite Haps, Hap. cbn [is_empty].
          step. norm_h. rewrite Hok.
          step. reflexivity. }
        reflexivity.
    + etransitivity.
      { step. rewrite Haps, Hap. cbn [is_empty]. reflexivity. }
      reflexivity.
Qed.

Lemma notifications_app (callback : IInterfaceEventCallback) (a b : list Event) :
  notifications callback (a ++ b)
  = (notifications callback a + notifications callback b)%nat.
Proof. unfold notifications. rewrite filter_app, length_app. reflexivity. Qed.

Lemma notifications_dtors (callback : IInterfaceEventCallback) (l : list ApInterfaceImpl) :
  notifications callback (flat_map dtor_events l) = O.
Proof.
  induction l as [|a l IH]; [reflexivity|].
  cbn [flat_map]. rewrite notifications_app, IH. reflexivity.
Qed.

(** X7. The [stopap] command, with or without [dual]: unless an AP
    controller exists, a handle is remembered and the binder call on it
    returns OK, it reports failure and changes nothing (without a controller
    or a handle the binder is not even called).  When it succeeds it destroys
    every AP controller and forgets the handle.  In no case is a listener
    told that an AP interface went away. *)
Theorem stopap_command
  (cmd : list byte) (h : History) (s : Server)
  (a0 : string) (dual : bool) (more : list string) :
  argv_of cmd = Some (a0 :: "stopap" :: (if dual then "dual" :: more else [])) ->
  let r := setHostapdParam W cmd h s in
  (forall callback, notifications callback (events r) = O)
  /\ match ap_interfaces_ s, ap_interface s with
     | _ :: _, Some ap =>
         if isOk (fst (binder_stopHostapd W (h ++ [command_log cmd]) ap dual))
         then r = ((Status_ok, true),
                   mkServer (interface_event_callbacks_ s) (client_interfaces_ s) []
                            (interfaces_ s) (wiphy_index_ s) None,
                   command_log cmd :: EstopHostapd ap dual
                   :: flat_map dtor_events (rev (ap_interfaces_ s))
                   ++ [Log INFO "hostapd stopped"])
         else r = ((Status_ok, false), s,
                   [command_log cmd; EstopHostapd ap dual;
                    Log INFO "Failed to stop hostapd"])
     | _, _ => r = ((Status_ok, false), s,
                    [command_log cmd; Log INFO "Failed to stop hostapd"])
     end.
Proof.
  intros Hargv r.
  pose proof (stop_ap_run dual (h ++ [command_log cmd]) s) as Hstop.
  assert (Hbranch :
            (if (2 <? List.length (a0 :: "stopap" :: (if dual then "dual" :: more else [])))%nat
             then three_or_more W (a0 :: "stopap" :: (if dual then "dual" :: more else []))
             else if (1 <? List.length
                             (a0 :: "stopap" :: (if dual then "dual" :: more else [])))%nat
                  then exactly_two W (a0 :: "stopap" :: (if dual then "dual" :: more else []))
                  else LOG ERROR ("Wrong/Unknown command: " ++ string_of_list_byte cmd) ;;
                       ret false)
            = stop_ap W dual).
  { destruct dual; cbn [List.length Nat.ltb Nat.leb];
      [unfold three_or_more|unfold exactly_two]; unfold arg; cbn [nth];
      cbv zeta; decide_streq; cbn [andb]; reflexivity. }
  rewrite <- Hbranch in Hstop. clear Hbranch. subst r.
  destruct (ap_interfaces_ s) as [|a aps].
  - rewrite (setHostapdParam_dispatch cmd _ h s _ _ _ Hargv Hstop).
    split; [intros callback; reflexivity|destruct (ap_interface s); reflexivity].
  - destruct (ap_interface s) as [ap|].
    + destruct (isOk (fst (binder_stopHostapd W (h ++ [command_log cmd]) ap dual)));
        rewrite (setHostapdParam_dispatch cmd _ h s _ _ _ Hargv Hstop);
        (split; [|reflexivity]); intros callback; [|reflexivity].
      unfold events. cbn [snd].
      change (notifications callback
                ([command_log cmd; EstopHostapd ap dual]
                 ++ flat_map dtor_events (rev (a :: aps))
                 ++ [Log INFO "hostapd stopped"])
              = O).
      rewrite !notifications_app, notifications_dtors. reflexivity.
    + rewrite (setHostapdParam_dispatch cmd _ h s _ _ _ Hargv Hstop).
      split; [intros callback; reflexivity|reflexivity].
Qed.

(** X8. Commands that do nothing.  With fewer than two tokens the command
    is logged as wrong.  With two tokens and a second one other than
    [startap] and [stopap], or with more and a second one that is none of the
    seven known words, or with [startap] or [stopap] followed by anything but
    [dual], nothing at all happens; [startap dual] with fewer than six tokens
    only logs what is missing.  In all of these the success flag is [false]
    and the server is as before. *)
Theorem commands_without_effect
  (cmd : list byte) (argv : list string) (h : History) (s : Server) :
  argv_of cmd = Some argv ->
  let r := setHostapdParam W cmd h s in
  let a1 := arg argv 1 in
  let a2 := arg argv 2 in
  let nothing := ((Status_ok, false), s, [command_log cmd]) in
  ((List.length argv <= 1)%nat ->
   r = ((Status_ok, false), s,
        [command_log cmd;
         Log ERROR ("Wrong/Unknown command: " ++ string_of_list_byte cmd)]))
  /\ (List.length argv = 2%nat -> known_short a1 = false -> r = nothing)
  /\ ((2 < List.length argv)%nat -> known_long a1 = false -> r = nothing)
  /\ ((2 < List.length argv)%nat -> a1 = "startap" \/ a1 = "stopap" ->
      streq a2 "dual" = false -> r = nothing)
  /\ ((2 < List.length argv < 6)%nat -> a1 = "startap" -> a2 = "dual" ->
      r = ((Status_ok, false), s,
           [command_log cmd; Log ERROR "Need additional args <bridge, sap0, sap1>"])).
Proof.
  intros Hargv r a1 a2 nothing. subst r nothing.
  repeat split.
  - intros Hlen. apply (setHostapdParam_dispatch cmd argv h s _ _ _ Hargv).
    destruct (Nat.ltb_spec 2 (List.length argv)); [lia|].
    destruct (Nat.ltb_spec 1 (List.length argv)); [lia|].
    reflexivity.
  - intros Hlen Hknown. apply (setHostapdParam_dispatch cmd argv h s _ _ _ Hargv).
    destruct (Nat.ltb_spec 2 (List.length argv)); [lia|].
    destruct (Nat.ltb_spec 1 (List.length argv)); [|lia].
    unfold known_short in Hknown. apply orb_false_iff in Hknown as [Hstart Hstop].
    unfold exactly_two. cbv zeta. fold a1. rewrite Hstart, Hstop. reflexivity.
  - intros Hlen Hknown. apply (setHostapdParam_dispatch cmd argv h s _ _ _ Hargv).
    destruct (Nat.ltb_spec 2 (List.length argv)); [|lia].
    unfold known_long in Hknown.
    repeat (apply orb_false_iff in Hknown as [Hknown ?]).
    unfold three_or_more. cbv zeta. fold a1. fold a2.
    repeat match goal with H : streq a1 _ = false |- _ => rewrite H; clear H end.
    reflexivity.
  - intros Hlen Ha1 Hdual. apply (setHostapdParam_dispatch cmd argv h s _ _ _ Hargv).
    destruct (Nat.ltb_spec 2 (List.length argv)); [|lia].
    unfold three_or_more. cbv zeta. fold a1. fold a2. rewrite Hdual.
    destruct Ha1 as [-> | ->]; decide_streq; cbn [andb]; reflexivity.
  - intros [Hlo Hhi] Ha1 Ha2.
    apply (setHostapdParam_dispatch cmd argv h s _ _ _ Hargv).
    destruct (Nat.ltb_spec 2 (List.length argv)); [|lia].
    unfold three_or_more. cbv zeta. fold a1. fold a2. rewrite Ha1, Ha2.
    decide_streq. cbn [andb].
    destruct (Nat.ltb_spec (List.length argv) 6); [|lia].
    reflexivity.
Qed.

(** X9. The two-token [startap] command while a station interface exists:
    the creation is refused, yet the test that follows looks at the handle
    remembered from an earlier command.  With a handle remembered, hostapd is
    started on it and, the binder call returning OK, the command reports
    success although no interface was created; without one it reports
    failure.  The server is left as it was. *)
Theorem startap_with_remembered_handle
  (cmd : list byte) (h : History) (s : Server) (a0 : string) :
  argv_of cmd = Some [a0; "startap"] ->
  client_interfaces_ s <> [] ->
  let r := setHostapdParam W cmd h s in
  match ap_interface s with
  | Some b =>
      let st := binder_startHostapd W (h ++ [command_log cmd; conflict_log]) b false in
      if isOk (fst st)
      then r = ((Status_ok, true), s,
                [command_log cmd; conflict_log; EstartHostapd b false;
                 Log INFO "hostapd started"])
      else r = ((Status_ok, written (snd st) false), s,
                [command_log cmd; conflict_log; EstartHostapd b false])
  | None => r = ((Status_ok, false), s, [command_log cmd; conflict_log])
  end.
Proof.
  intros Hargv Hne r. subst r.
  assert (Hcreate : forall h1,
             createApInterface W (ap_interface s) h1 s
             = ((Status_ok, ap_interface s), s, [conflict_log])).
  { intros h1. unfold createApInterface.
    etransitivity.
    { step_with ltac:(apply (SetupInterface_conflict W s _ Hne)). reflexivity. }
    reflexivity. }
  assert (Hsame : set_ap_interface s (ap_interface s) = s)
    by (destruct s; reflexivity).
  destruct (ap_interface s) as [b|] eqn:Hb; cbv zeta.
  - destruct (isOk (fst (binder_startHostapd W
                           (h ++ [command_log cmd; conflict_log]) b false))) eqn:Hok;
      apply (setHostapdParam_dispatch cmd _ h s _ _ _ Hargv);
      cbn [List.length Nat.ltb Nat.leb]; unfold exactly_two, arg; cbn [nth];
      cbv zeta; decide_streq.
    + etransitivity.
      { step. rewrite Hb. step_with ltac:(apply Hcreate).
        step. cbn [fst snd isOk negb]. rewrite Hsame.
        step. norm_h. rewrite Hok. step. reflexivity. }
      reflexivity.
    + etransitivity.
      { step. rewrite Hb. step_with ltac:(apply Hcreate).
        step. cbn [fst snd isOk negb]. rewrite Hsame.
        step. norm_h. rewrite Hok. reflexivity. }
      norm_h. reflexivity.
  - apply (setHostapdParam_dispatch cmd _ h s _ _ _ Hargv).
    cbn [List.length Nat.ltb Nat.leb]. unfold exactly_two, arg. cbn [nth].
    cbv zeta. decide_streq.
    etransitivity.
    { step. rewrite Hb. step_with ltac:(apply Hcreate).
      step. cbn [fst snd isOk negb]. rewrite Hsame. reflexivity. }
    reflexivity.
Qed.

(** X10. The vendor commands make one vendor call and leave the server
    alone: [qccmd], [bridge] and [setsoftap] pass the whole [argv] on and
    succeed when the call returns zero; [create] and [remove] pass the third
    token on, with 1 and 0, and succeed when the call returns anything but
    zero. *)
Theorem vendor_commands
  (cmd : list byte) (argv : list string) (h : History) (s : Server) :
  argv_of cmd = Some argv ->
  (2 < List.length argv)%nat ->
  let r := setHostapdParam W cmd h s in
  let a1 := arg argv 1 in
  let a2 := arg argv 2 in
  let h1 := h ++ [command_log cmd] in
  (a1 = "qccmd" ->
   r = ((Status_ok, Z.eqb (qsap_hostd_exec W h1 argv) 0), s,
        [command_log cmd; Eqsap_hostd_exec argv]))
  /\ (a1 = "bridge" ->
      r = ((Status_ok, Z.eqb (qsap_control_bridge W h1 argv) 0), s,
           [command_log cmd; Eqsap_control_bridge argv]))
  /\ (a1 = "setsoftap" ->
      r = ((Status_ok, Z.eqb (qsapsetSoftap W h1 argv) 0), s,
           [command_log cmd; EqsapsetSoftap argv]))
  /\ (a1 = "create" ->
      r = ((Status_ok, negb (Z.eqb (qsap_add_or_remove_interface W h1 a2 1) 0)), s,
           [command_log cmd; Eqsap_add_or_remove_interface a2 1]))
  /\ (a1 = "remove" ->
      r = ((Status_ok, negb (Z.eqb (qsap_add_or_remove_interface W h1 a2 0) 0)), s,
           [command_log cmd; Eqsap_add_or_remove_interface a2 0])).
Proof.
  intros Hargv Hlen r a1 a2 h1. subst r.
  assert (Hlong : (2 <? List.length argv)%nat = true) by (apply Nat.ltb_lt; exact Hlen).
  repeat split; intros Ha1;
    apply (setHostapdParam_dispatch cmd argv h s _ _ _ Hargv);
    rewrite Hlong; unfold three_or_more; cbv zeta; fold a1; fold a2; fold h1;
    rewrite Ha1; decide_streq; cbn [andb].
  - reflexivity.
  - reflexivity.
  - reflexivity.
  - unfold bind, call, ret. cbn [fst snd].
    destruct (Z.eqb (qsap_add_or_remove_interface W h1 a2 1) 0); reflexivity.
  - unfold bind, call, ret. cbn [fst snd].
    destruct (Z.eqb (qsap_add_or_remove_interface W h1 a2 0) 0); reflexivity.
Qed.

(** ** Subscriptions and controllers *)

Lemma standing_app (i : N) (a b : list Event) :
  standing i (a ++ b) = (standing i a + standing i b)%Z.
Proof. unfold standing. rewrite !filter_app, !length_app. lia. Qed.

Lemma standing_quiet (i : N) (evs : list Event) :
  Forall (fun e => subscribes i e = false /\ unsubscribes i e = false) evs ->
  standing i evs = 0%Z.
Proof.
  intros Hq. induction Hq as [|e evs [Hs Hu] _ IH]; [reflexivity|].
  change (e :: evs) with ([e] ++ evs). rewrite standing_app, IH.
  unfold standing. cbn [filter]. rewrite Hs, Hu. reflexivity.
Qed.

Lemma balanced_ret {A : Type} (i : N) (a : A) : balanced i (ret a).
Proof. intros h s. unfold ret, events, state, standing. cbn. lia. Qed.

Lemma balanced_get (i : N) : balanced i get.
Proof. intros h s. unfold get, events, state, standing. cbn. lia. Qed.

Lemma balanced_ask {A : Type} (i : N) (f : History -> A) : balanced i (ask f).
Proof. intros h s. unfold ask, events, state, standing. cbn. lia. Qed.

Lemma balanced_emit (i : N) (e : Event) :
  subscribes i e = false -> unsubscribes i e = false -> balanced i (emit e).
Proof.
  intros Hs Hu h s. unfold emit, events, state, standing. cbn [fst snd filter].
  rewrite Hs, Hu. cbn. lia.
Qed.

Lemma balanced_LOG (i : N) (sev : Severity) (msg : string) : balanced i (LOG sev msg).
Proof. apply balanced_emit; reflexivity. Qed.

Lemma balanced_call {A : Type} (i : N) (e : Event) (f : History -> A) :
  subscribes i e = false -> unsubscribes i e = false -> balanced i (call e f).
Proof.
  intros Hs Hu h s. unfold call, events, state, standing. cbn [fst snd filter].
  rewrite Hs, Hu. cbn. lia.
Qed.

Lemma balanced_modify (i : N) (f : Server -> Server) :
  (forall s, controllers_on i (f s) = controllers_on i s) -> balanced i (modify f).
Proof.
  intros Hf h s. unfold modify, events, state, standing. cbn [fst snd filter].
  rewrite Hf. cbn. lia.
Qed.

Lemma balanced_bind {A B : Type} (i : N) (m : M Server A) (k : A -> M Server B) :
  balanced i m -> (forall a, balanced i (k a)) -> balanced i (bind m k).
Proof.
  intros Hm Hk h s. unfold bind, events, state. cbn [fst snd].
  rewrite standing_app.
  pose proof (Hm h s) as H1.
  pose proof (Hk (fst (fst (m h s))) (h ++ snd (m h s)) (snd (fst (m h s)))) as H2.
  unfold events, state in H1, H2. lia.
Qed.

Lemma balanced_for_each {A : Type} (i : N) (xs : list A) (body : A -> M Server unit) :
  (forall x, balanced i (body x)) -> balanced i (for_each xs body).
Proof.
  intros Hbody. induction xs as [|x xs IH]; cbn [for_each].
  - apply balanced_ret.
  - apply balanced_bind; [apply Hbody|intros _; exact IH].
Qed.

(** A computation that leaves the server alone and neither subscribes nor
    unsubscribes. *)
Lemma balanced_quiet {A : Type} (i : N) (m : M Server A) :
  (forall h s, state (m h s) = s
               /\ Forall (fun e => subscribes i e = false /\ unsubscribes i e = false)
                         (events (m h s))) ->
  balanced i m.
Proof.
  intros Hq h s. destruct (Hq h s) as [Hs He].
  rewrite Hs, (standing_quiet i _ He). lia.
Qed.

Lemma balanced_broadcast (i : N) (b : Broadcast) : balanced i (broadcast b).
Proof.
  apply balanced_quiet. intros h s. rewrite broadcast_run.
  split; [reflexivity|]. unfold events. cbn [snd].
  induction (interface_event_callbacks_ s) as [|it l IH]; cbn [map]; constructor.
  - destruct b; split; reflexivity.
  - exact IH.
Qed.

Create HintDb balanced.

Ltac balanced_step :=
  match goal with
  | |- balanced _ (bind _ _) => apply balanced_bind; [|intros ?]
  | |- balanced _ (ret _) => apply balanced_ret
  | |- balanced _ (emit _) => apply balanced_emit; reflexivity
  | |- balanced _ (LOG _ _) => apply balanced_LOG
  | |- balanced _ (call _ _) => apply balanced_call; reflexivity
  | |- balanced _ (ask _) => apply balanced_ask
  | |- balanced _ get => apply balanced_get
  | |- balanced _ (modify _) => apply balanced_modify; intros ?; reflexivity
  | |- balanced _ (for_each _ _) => apply balanced_for_each; intros ?
  | |- balanced _ (if ?c then _ else _) => destruct c
  | |- balanced _ (match ?c with _ => _ end) => destruct c
  | |- balanced _ _ => solve [auto with balanced]
  end.

Ltac balanced_all := cbv zeta; repeat balanced_step.

Lemma balanced_BroadcastClientInterfaceReady i b :
  balanced i (BroadcastClientInterfaceReady b).
Proof. exact (balanced_broadcast i (ClientInterfaceReady b)). Qed.

Lemma balanced_BroadcastClientInterfaceTornDown i b :
  balanced i (BroadcastClientInterfaceTornDown b).
Proof. exact (balanced_broadcast i (ClientInterfaceTornDown b)). Qed.

Lemma balanced_BroadcastApInterfaceTornDown i b :
  balanced i (BroadcastApInterfaceTornDown b).
Proof. exact (balanced_broadcast i (ApInterfaceTornDown b)). Qed.

Lemma balanced_ClientInterfaceImpl_ctor i w n idx mac :
  balanced i (ClientInterfaceImpl_ctor W w n idx mac).
Proof. unfold ClientInterfaceImpl_ctor. balanced_all. Qed.

Lemma balanced_ClientInterfaceImpl_dtor i this :
  balanced i (ClientInterfaceImpl_dtor this).
Proof. unfold ClientInterfaceImpl_dtor. balanced_all. Qed.

#[local] Hint Resolve balanced_BroadcastClientInterfaceReady
  balanced_BroadcastClientInterfaceTornDown balanced_BroadcastApInterfaceTornDown
  balanced_ClientInterfaceImpl_ctor balanced_ClientInterfaceImpl_dtor : balanced.

Lemma balanced_RefreshWiphyIndex i : balanced i (RefreshWiphyIndex W).
Proof. unfold RefreshWiphyIndex. balanced_all. Qed.

#[local] Hint Resolve balanced_RefreshWiphyIndex : balanced.

Lemma balanced_SetupInterface i : balanced i (SetupInterface W).
Proof. unfold SetupInterface. balanced_all. Qed.

Lemma balanced_first_with_prefix i ifaces ifname :
  balanced i (first_with_prefix ifaces ifname).
Proof.
  induction ifaces as [|j ifaces IH]; cbn [first_with_prefix]; balanced_all.
Qed.

#[local] Hint Resolve balanced_SetupInterface balanced_first_with_prefix : balanced.

Lemma balanced_QcSetupInterface i ifname : balanced i (QcSetupInterface W ifname).
Proof. unfold QcSetupInterface. balanced_all. Qed.

(** A new AP controller: one subscription for one controller. *)
Lemma balanced_new_ap (i : N) (interface : InterfaceInfo) :
  balanced i
    (ap <- ApInterfaceImpl_ctor W (name interface) (index interface) ;;
     modify (fun s => set_ap_interfaces s (ap_interfaces_ s ++ [ap])) ;;
     BroadcastApInterfaceReady (GetBinder ap) ;;
     ret (Status_ok, Some (GetBinder ap))).
Proof.
  intros h s.
  assert (Hrun :
            (ap <- ApInterfaceImpl_ctor W (name interface) (index interface) ;;
             modify (fun s => set_ap_interfaces s (ap_interfaces_ s ++ [ap])) ;;
             BroadcastApInterfaceReady (GetBinder ap) ;;
             ret (Status_ok, Some (GetBinder ap))) h s
            = ((Status_ok, Some (new_ApInterfaceBinder W h)),
               set_ap_interfaces s
                 (ap_interfaces_ s
                  ++ [mkApInterfaceImpl (name interface) (index interface)
                        (new_ApInterfaceBinder W h) 0]),
               ap_created_events interface
               ++ ap_ready_events (interface_event_callbacks_ s)
                    (new_ApInterfaceBinder W h))).
  { etransitivity.
    { step. step. step_with ltac:(apply BroadcastApInterfaceReady_run). reflexivity. }
    unfold ap_created_events, GetBinder. cbn [binder_ set_ap_interfaces
      interface_event_callbacks_]. norm_h. reflexivity. }
  rewrite Hrun. unfold events, state. cbn [fst snd].
  rewrite standing_app.
  assert (Hready : forall l b, standing i (ap_ready_events l b) = 0%Z).
  { intros l b. apply standing_quiet. unfold ap_ready_events.
    induction l as [|it l IH]; cbn [map]; constructor;
      [split; reflexivity|exact IH]. }
  rewrite Hready.
  unfold controllers_on, standing, set_ap_interfaces, ap_created_events.
  simpl ap_interfaces_.
  rewrite filter_app, length_app. cbn [filter subscribes unsubscribes interface_index_].
  destruct (N.eqb i (index interface)); cbn [List.length]; lia.
Qed.

Lemma balanced_createApInterface i out : balanced i (createApInterface W out).
Proof.
  unfold createApInterface. apply balanced_bind; [apply balanced_SetupInterface|].
  intros [interface|]; [apply balanced_new_ap|apply balanced_ret].
Qed.

Lemma balanced_QcCreateApInterface i ifname out :
  balanced i (QcCreateApInterface W ifname out).
Proof.
  unfold QcCreateApInterface. apply balanced_bind; [apply balanced_QcSetupInterface|].
  intros [interface|]; [apply balanced_new_ap|apply balanced_ret].
Qed.

Lemma standing_dtors (i : N) (l : list ApInterfaceImpl) :
  standing i (flat_map dtor_events l)
  = (- Z.of_nat (List.length (filter (fun this => N.eqb i (interface_index_ this)) l)))%Z.
Proof.
  induction l as [|a l IH]; [reflexivity|].
  cbn [flat_map]. rewrite standing_app, IH.
  unfold standing, dtor_events. cbn [filter subscribes unsubscribes].
  destruct (N.eqb i (interface_index_ a)); cbn [List.length]; lia.
Qed.

Lemma filter_rev_length {A : Type} (f : A -> bool) (l : list A) :
  List.length (filter f (rev l)) = List.length (filter f l).
Proof.
  induction l as [|a l IH]; [reflexivity|].
  cbn [rev filter]. rewrite filter_app, length_app, IH. cbn [filter].
  destruct (f a); cbn [List.length]; lia.
Qed.

Lemma balanced_clear_ap_interfaces i : balanced i (clear_ap_interfaces W).
Proof.
  intros h s. rewrite clear_ap_interfaces_run. unfold events, state. cbn [fst snd].
  rewrite standing_dtors, filter_rev_length. unfold controllers_on. cbn. lia.
Qed.

Lemma balanced_clear_client_interfaces i : balanced i clear_client_interfaces.
Proof. unfold clear_client_interfaces. balanced_all. Qed.

Lemma balanced_MarkDownAllInterfaces i : balanced i (MarkDownAllInterfaces W).
Proof. unfold MarkDownAllInterfaces. balanced_all. Qed.

#[local] Hint Resolve balanced_QcSetupInterface balanced_createApInterface
  balanced_QcCreateApInterface balanced_clear_ap_interfaces
  balanced_clear_client_interfaces balanced_MarkDownAllInterfaces : balanced.

Lemma balanced_createClientInterface i out : balanced i (createClientInterface W out).
Proof. unfold createClientInterface. balanced_all. Qed.

Lemma balanced_tearDownStaInterfaces i : balanced i tearDownStaInterfaces.
Proof. unfold tearDownStaInterfaces. balanced_all. Qed.

Lemma balanced_tearDownApInterfaces i : balanced i (tearDownApInterfaces W).
Proof. unfold tearDownApInterfaces. balanced_all. Qed.

Lemma balanced_tearDownInterfaces i : balanced i (tearDownInterfaces W).
Proof. unfold tearDownInterfaces. balanced_all. Qed.

Lemma balanced_stop_ap i dual : balanced i (stop_ap W dual).
Proof. unfold stop_ap. balanced_all. Qed.

Lemma balanced_start_dual_ap i bridge sap0 sap1 :
  balanced i (start_dual_ap W bridge sap0 sap1).
Proof. unfold start_dual_ap. balanced_all. Qed.

#[local] Hint Resolve balanced_stop_ap balanced_start_dual_ap : balanced.

Lemma balanced_three_or_more i argv : balanced i (three_or_more W argv).
Proof. unfold three_or_more. balanced_all. Qed.

Lemma balanced_exactly_two i argv : balanced i (exactly_two W argv).
Proof. unfold exactly_two. balanced_all. Qed.

#[local] Hint Resolve balanced_three_or_more balanced_exactly_two : balanced.

Lemma balanced_setHostapdParam i cmd : balanced i (setHostapdParam W cmd).
Proof. unfold setHostapdParam. balanced_all. Qed.

Lemma balanced_RegisterCallback i callback : balanced i (RegisterCallback callback).
Proof. unfold RegisterCallback. balanced_all. Qed.

Lemma balanced_UnregisterCallback i callback : balanced i (UnregisterCallback callback).
Proof. unfold UnregisterCallback. balanced_all. Qed.

Lemma update_nth_count (i : N) (this' : ApInterfaceImpl) :
  forall (l : list ApInterfaceImpl) (n : nat) (this : ApInterfaceImpl),
    nth_error l n = Some this ->
    interface_index_ this' = interface_index_ this ->
    List.length (filter (fun a => N.eqb i (interface_index_ a)) (update_nth n this' l))
    = List.length (filter (fun a => N.eqb i (interface_index_ a)) l).
Proof.
  induction l as [|a l IH]; intros [|n] this Hn Hidx; cbn in Hn; try discriminate.
  - injection Hn as ->. cbn [update_nth filter]. rewrite Hidx.
    destruct (N.eqb i (interface_index_ this)); reflexivity.
  - cbn [update_nth filter]. destruct (N.eqb i (interface_index_ a));
      cbn [List.length]; rewrite (IH n this Hn Hidx); reflexivity.
Qed.

Lemma OnStationEvent_quiet (i : N) (event : StationEvent) (mac : list byte)
  (h : History) (this : ApInterfaceImpl) :
  Forall (fun e => subscribes i e = false /\ unsubscribes i e = false)
         (events (OnStationEvent W event mac h this)).
Proof.
  unfold OnStationEvent. destruct event; run_m.
  - repeat constructor.
  - destruct (number_of_associated_stations_ this <=? 0)%Z; repeat constructor.
Qed.

Lemma balanced_station_event_at i n event mac :
  balanced i (station_event_at W n event mac).
Proof.
  intros h s. unfold station_event_at.
  destruct (nth_error (ap_interfaces_ s) n) as [this|] eqn:Hn.
  - cbv zeta. unfold events at 1, state at 1. cbn [fst snd].
    rewrite (standing_quiet i _ (OnStationEvent_quiet i event mac h this)).
    unfold controllers_on, set_ap_interfaces. simpl ap_interfaces_.
    rewrite (update_nth_count i _ _ n this Hn).
    + lia.
    + rewrite OnStationEvent_state. reflexivity.
  - unfold events, state, standing. cbn. lia.
Qed.

Lemma balanced_serve (i : N) (req : Request) : balanced i (serve W req).
Proof.
  destruct req; cbn [serve]; balanced_all;
    auto using balanced_RegisterCallback, balanced_UnregisterCallback,
      balanced_createClientInterface, balanced_tearDownInterfaces,
      balanced_tearDownStaInterfaces, balanced_tearDownApInterfaces,
      balanced_setHostapdParam, balanced_station_event_at.
Qed.

(** X11. Subscriptions and controllers stay in step.  After any sequence of
    requests and station events on a newly constructed server, and for every
    interface index, the station-event subscriptions taken out and not yet
    given back are as many as the AP controllers the server holds on that
    index. *)
Theorem subscriptions_match_controllers
  (reqs : list Request) (wiphy0 : N) (i : N) :
  let r := serve_all W reqs [] (Server_ctor wiphy0) in
  standing i (events r) = controllers_on i (state r).
Proof.
  cbv zeta.
  pose proof (balanced_for_each i reqs (serve W) (balanced_serve i)
                [] (Server_ctor wiphy0)) as Hb.
  unfold serve_all. rewrite Hb. unfold controllers_on at 2. cbn. lia.
Qed.

(** ** The two-token [startap] command without a station interface *)

(** X12. The two-token [startap] command on a server without a station
    controller, the kernel answering.  With a usable interface listed, an AP
    controller for the first one is appended, the listeners are told, the new
    handle is remembered and hostapd is started on it; the command succeeds
    when the binder call returns OK.  When that call fails, the controller
    stays and the handle stays remembered: nothing is undone.  Without a
    usable interface and without a remembered handle the command fails and
    only the wiphy index and the interface list are refreshed. *)
Theorem startap_creates_and_starts
  (cmd : list byte) (h : History) (s : Server) (a0 : string)
  (wiphy : N) (ifaces : list InterfaceInfo) :
  argv_of cmd = Some [a0; "startap"] ->
  client_interfaces_ s = [] ->
  netlink_GetWiphyIndexWithInterfaceName W (h ++ [command_log cmd]) kBaseIfName
  = Some wiphy ->
  netlink_GetInterfaces W (at_snapshot (h ++ [command_log cmd]) wiphy) wiphy
  = Some ifaces ->
  let r := setHostapdParam W cmd h s in
  match first_usable ifaces with
  | Some i =>
      let b := new_ApInterfaceBinder W (h ++ command_log cmd :: setup_events wiphy) in
      let created :=
        setup_events wiphy ++ ap_created_events i
        ++ ap_ready_events (interface_event_callbacks_ s) b in
      let st := binder_startHostapd W (h ++ command_log cmd :: created) b false in
      state r
      = set_ap_interface
          (set_ap_interfaces (refreshed s wiphy ifaces)
             (ap_interfaces_ s ++ [mkApInterfaceImpl (name i) (index i) b 0]))
          (Some b)
      /\ result r = (Status_ok, if isOk (fst st) then true else written (snd st) false)
      /\ events r
         = command_log cmd :: created ++ EstartHostapd b false
           :: (if isOk (fst st) then [Log INFO "hostapd started"] else [])
  | None =>
      ap_interface s = None ->
      r = ((Status_ok, false), refreshed s wiphy ifaces,
           command_log cmd :: setup_events wiphy ++ [no_usable_log])
  end.
Proof.
  intros Hargv Hc Hw Hi r. subst r.
  pose proof (createApInterface_run W s (h ++ [command_log cmd]) (ap_interface s)
                wiphy ifaces Hc Hw Hi) as Hcreate.
  destruct (first_usable ifaces) as [i|]; cbv zeta in *.
  - replace (h ++ command_log cmd :: setup_events wiphy)
      with ((h ++ [command_log cmd]) ++ setup_events wiphy)
      by (rewrite <- app_assoc; reflexivity).
    set (b := new_ApInterfaceBinder W ((h ++ [command_log cmd]) ++ setup_events wiphy)) in *.
    set (created := setup_events wiphy ++ ap_created_events i
                    ++ ap_ready_events (interface_event_callbacks_ s) b) in *.
    replace (h ++ command_log cmd :: created)
      with ((h ++ [command_log cmd]) ++ created)
      by (rewrite <- app_assoc; reflexivity).
    destruct (isOk (fst (binder_startHostapd W ((h ++ [command_log cmd]) ++ created)
                           b false))) eqn:Hok.
    + erewrite (setHostapdParam_dispatch cmd _ h s _ _ _ Hargv); cycle 1.
      * cbn [List.length Nat.ltb Nat.leb]. unfold exactly_two, arg. cbn [nth].
        cbv zeta. decide_streq.
        etransitivity.
        { step. rewrite app_nil_r. step_with ltac:(apply Hcreate).
          step. cbn [fst snd isOk negb].
          step. rewrite ?app_nil_r. rewrite Hok. step. reflexivity. }
        norm_h. reflexivity.
      * unfold state, result, events. cbn [fst snd].
        subst created b. norm_h.
        split; [reflexivity|split; reflexivity].
    + erewrite (setHostapdParam_dispatch cmd _ h s _ _ _ Hargv); cycle 1.
      * cbn [List.length Nat.ltb Nat.leb]. unfold exactly_two, arg. cbn [nth].
        cbv zeta. decide_streq.
        etransitivity.
        { step. rewrite app_nil_r. step_with ltac:(apply Hcreate).
          step. cbn [fst snd isOk negb].
          step. rewrite ?app_nil_r. rewrite Hok. reflexivity. }
        norm_h. reflexivity.
      * unfold state, result, events. cbn [fst snd].
        subst created b. norm_h.
        split; [reflexivity|split; reflexivity].
  - intros Hnone. rewrite Hnone in Hcreate.
    apply (setHostapdParam_dispatch cmd _ h s _ _ _ Hargv).
    cbn [List.length Nat.ltb Nat.leb]. unfold exactly_two, arg. cbn [nth].
    cbv zeta. decide_streq.
    etransitivity.
    { step. rewrite Hnone, app_nil_r. step_with ltac:(apply Hcreate).
      step. cbn [fst snd isOk negb]. reflexivity. }
    norm_h. destruct s; cbn in *. subst. reflexivity.
Qed.

(** ** The counter, event by event *)

Lemma OnStationEvent_run (event : StationEvent) (mac : list byte)
  (h : History) (this : ApInterfaceImpl) :
  OnStationEvent W event mac h this
  = (tt,
     set_number_of_associated_stations this
       (count_step (number_of_associated_stations_ this) event),
     match event with
     | NEW_STATION =>
         [Log INFO ("New station " ++ GetMacString W mac ++ " associated with hotspot")]
     | DEL_STATION =>
         Log INFO ("Station " ++ GetMacString W mac ++ " disassociated from hotspot")
         :: (if (number_of_associated_stations_ this <=? 0)%Z
             then [Log ERROR ("Received DEL_STATION event when station counter is: "
                              ++ dec_of_Z (number_of_associated_stations_ this))]
             else [])
     end).
Proof.
  destruct this as [n i b c]. unfold OnStationEvent, count_step.
  destruct event; run_m; cbn [number_of_associated_stations_].
  - reflexivity.
  - destruct (c <=? 0)%Z; reflexivity.
Qed.

Lemma anomalies_app (a b : list Event) :
  anomalies (a ++ b) = (anomalies a + anomalies b)%nat.
Proof. unfold anomalies. rewrite filter_app, length_app. reflexivity. Qed.

Lemma deliver_cons_events (event : StationEvent) (mac : list byte)
  (evs : list (StationEvent * list byte)) (h : History) (this : ApInterfaceImpl) :
  events (deliver W ((event, mac) :: evs) h this)
  = events (OnStationEvent W event mac h this)
    ++ events (deliver W evs (h ++ events (OnStationEvent W event mac h this))
                 (state (OnStationEvent W event mac h this))).
Proof. reflexivity. Qed.

Lemma deliver_books (evs : list (StationEvent * list byte)) :
  forall (h : History) (this : ApInterfaceImpl),
    (0 <= number_of_associated_stations_ this)%Z ->
    (number_of_associated_stations_ this + Z.of_nat (joins evs) <= 2147483647)%Z ->
    let refused := anomalies (events (deliver W evs h this)) in
    count_after evs (number_of_associated_stations_ this)
    = (number_of_associated_stations_ this + Z.of_nat (joins evs)
       - Z.of_nat (leaves evs) + Z.of_nat refused)%Z
    /\ (refused <= leaves evs)%nat
    /\ List.length (events (deliver W evs h this)) = (List.length evs + refused)%nat.
Proof.
  induction evs as [|[event mac] evs IH]; intros h this Hc Hmax; cbv zeta.
  - cbn. repeat split; lia.
  - rewrite deliver_cons_events, anomalies_app, length_app.
    remember (h ++ events (OnStationEvent W event mac h this)) as h1 eqn:Hh1.
    clear Hh1.
    rewrite OnStationEvent_state.
    remember (set_number_of_associated_stations this
                (count_step (number_of_associated_stations_ this) event)) as this1 eqn:H1.
    assert (Hc1 : number_of_associated_stations_ this1
                  = count_step (number_of_associated_stations_ this) event)
      by (subst this1; reflexivity).
    specialize (IH h1 this1). cbv zeta in IH. rewrite Hc1 in IH. clear H1 Hc1.
    remember (anomalies (events (deliver W evs h1 this1))) as later eqn:Hl. clear Hl.
    remember (List.length (events (deliver W evs h1 this1))) as logged eqn:Hlog. clear Hlog.
    rewrite (OnStationEvent_run event mac h this). unfold events. cbn [snd].
    remember (number_of_associated_stations_ this) as c eqn:Hcc. clear Hcc.
    unfold joins, leaves, count_after in *. cbn [filter map fold_left] in *.
    destruct event;
      [change (is_join (NEW_STATION, mac)) with true in *;
       change (is_leave (NEW_STATION, mac)) with false in *
      |change (is_join (DEL_STATION, mac)) with false in *;
       change (is_leave (DEL_STATION, mac)) with true in *];
      cbn [fst count_step List.length] in *.
    + rewrite wrap_int_small in * by (unfold INT_MIN, INT_MAX; lia).
      change (anomalies [Log INFO ("New station " ++ GetMacString W mac
                                   ++ " associated with hotspot")]) with O.
      destruct IH as (IH1 & IH2 & IH3); [lia|lia|].
      repeat split; lia.
    + destruct (Z.leb_spec c 0).
      * change (anomalies [Log INFO ("Station " ++ GetMacString W mac
                                     ++ " disassociated from hotspot");
                           Log ERROR ("Received DEL_STATION event when station counter is: "
                                      ++ dec_of_Z c)]) with 1%nat.
        cbn [List.length].
        destruct IH as (IH1 & IH2 & IH3); [lia|lia|].
        repeat split; lia.
      * rewrite wrap_int_small in * by (unfold INT_MIN, INT_MAX; lia).
        change (anomalies [Log INFO ("Station " ++ GetMacString W mac
                                     ++ " disassociated from hotspot")]) with O.
        cbn [List.length].
        destruct IH as (IH1 & IH2 & IH3); [lia|lia|].
        repeat split; lia.
Qed.

(** X13. The counter keeps the books.  For a controller whose counter is not
    negative and station events whose joins the counter can hold, the counter
    afterwards is the counter before, plus the joins, minus the leaves, plus
    the leaves that were refused; every refused leave is logged as one error
    and nothing else is.  Each event is logged once at [INFO], so the log has
    one line per event and one more per refused leave; name, index and binder
    of the controller stay as they are. *)
Theorem station_counter_accounting
  (evs : list (StationEvent * list byte)) (h : History) (this : ApInterfaceImpl) :
  (0 <= number_of_associated_stations_ this)%Z ->
  (number_of_associated_stations_ this + Z.of_nat (joins evs) <= INT_MAX)%Z ->
  let r := deliver W evs h this in
  let refused := anomalies (events r) in
  GetNumberOfAssociatedStations (state r)
  = (number_of_associated_stations_ this + Z.of_nat (joins evs)
     - Z.of_nat (leaves evs) + Z.of_nat refused)%Z
  /\ (refused <= leaves evs)%nat
  /\ List.length (events r) = (List.length evs + refused)%nat
  /\ state r
     = set_number_of_associated_stations this
         (GetNumberOfAssociatedStations (state r)).
Proof.
  intros Hc Hmax. cbv zeta. unfold GetNumberOfAssociatedStations.
  rewrite deliver_state.
  cbn [number_of_associated_stations_ set_number_of_associated_stations].
  destruct (deliver_books evs h this Hc Hmax) as (H1 & H2 & H3).
  repeat split; assumption.
Qed.

(** ** Who hears a broadcast *)

Lemma count_listener_erase (callback other : IInterfaceEventCallback) :
  same_binder other callback = false ->
  forall l l',
    erase_first callback l = Some l' ->
    count_listener other l' = count_listener other l.
Proof.
  intros Hother. unfold count_listener.
  induction l as [|it l IH]; cbn [erase_first]; intros l' He.
  - discriminate.
  - destruct (same_binder callback it) eqn:E.
    + injection He as <-. cbn [filter].
      assert (same_binder other it = false) as ->; [|reflexivity].
      apply same_binder_iff in E. unfold same_binder in *. rewrite <- E. exact Hother.
    + destruct (erase_first callback l) as [r|]; [|discriminate].
      injection He as <-. cbn [filter].
      destruct (same_binder other it); cbn [List.length]; rewrite (IH r eq_refl);
        reflexivity.
Qed.

Lemma count_listener_erased (callback : IInterfaceEventCallback) :
  forall l l',
    distinct_listeners l ->
    erase_first callback l = Some l' ->
    count_listener callback l' = O.
Proof.
  unfold distinct_listeners.
  induction l as [|it l IH]; cbn [erase_first map]; intros l' Hd He.
  - discriminate.
  - apply NoDup_cons_iff in Hd as [Hnotin Hd].
    destruct (same_binder callback it) eqn:E.
    + injection He as <-. apply count_listener_absent.
      destruct (registered callback l) eqn:R; [|reflexivity].
      apply registered_In in R. apply same_binder_iff in E.
      rewrite E in R. contradiction.
    + destruct (erase_first callback l) as [r|]; [|discriminate].
      injection He as <-. unfold count_listener. cbn [filter]. rewrite E.
      apply (IH r Hd eq_refl).
Qed.

(** X14. Who hears a broadcast.  Listeners are told in the order in which
    they were registered: a listener that was not registered before is told
    last, after everyone the broadcast reached before.  Once a listener is
    unregistered from a registry in which no binder occurs twice, no broadcast
    reaches its binder any more.  Registering or unregistering one listener
    changes nothing for a listener with another binder. *)
Theorem listeners_in_registration_order
  (callback : IInterfaceEventCallback) (h : History) (s : Server) :
  let s_in := state (RegisterCallback callback h s) in
  let s_out := state (UnregisterCallback callback h s) in
  (registered callback (interface_event_callbacks_ s) = false ->
   forall b h1,
     events (broadcast b h1 s_in)
     = events (broadcast b h1 s) ++ [broadcast_event b callback])
  /\ (distinct_listeners (interface_event_callbacks_ s) ->
      forall b h1, notifications callback (events (broadcast b h1 s_out)) = O)
  /\ (forall other b h1,
         same_binder other callback = false ->
         notifications other (events (broadcast b h1 s_in))
         = notifications other (events (broadcast b h1 s))
         /\ notifications other (events (broadcast b h1 s_out))
            = notifications other (events (broadcast b h1 s))).
Proof.
  cbv zeta. rewrite RegisterCallback_run, UnregisterCallback_run.
  split; [|split].
  - intros R b h1. rewrite R, !broadcast_run. unfold state, events.
    cbn [fst snd interface_event_callbacks_ set_interface_event_callbacks].
    rewrite map_app. reflexivity.
  - intros Hd b h1.
    destruct (erase_first callback (interface_event_callbacks_ s)) as [l|] eqn:E;
      rewrite broadcast_run; unfold state, events;
      cbn [fst snd interface_event_callbacks_ set_interface_event_callbacks];
      rewrite notifications_broadcast.
    + apply (count_listener_erased callback _ l Hd E).
    + apply count_listener_absent.
      destruct (registered callback (interface_event_callbacks_ s)) eqn:R;
        [|reflexivity].
      exfalso. clear Hd.
      induction (interface_event_callbacks_ s) as [|it l IH];
        cbn [registered erase_first] in *; [discriminate|].
      destruct (same_binder callback it); [discriminate|].
      destruct (erase_first callback l); [discriminate|].
      apply IH; [reflexivity|exact R].
  - intros other b h1 Hother. split.
    + destruct (registered callback (interface_event_callbacks_ s));
        rewrite !broadcast_run; unfold state, events;
        cbn [fst snd interface_event_callbacks_ set_interface_event_callbacks];
        [reflexivity|].
      rewrite !notifications_broadcast, count_listener_app.
      unfold count_listener at 2. cbn [filter]. rewrite Hother. cbn. lia.
    + destruct (erase_first callback (interface_event_callbacks_ s)) as [l|] eqn:E;
        rewrite !broadcast_run; unfold state, events;
        cbn [fst snd interface_event_callbacks_ set_interface_event_callbacks];
        [|reflexivity].
      rewrite !notifications_broadcast.
      apply (count_listener_erase callback other Hother _ l E).
Qed.

(** ** Starting the dual AP *)

Lemma run_eta {St A : Type} (r : A * St * list Event) :
  r = (result r, state r, events r).
Proof. destruct r as [[a s] e]. reflexivity. Qed.

Lemma QcCreateApInterface_status (ifname : list byte) (out : option IApInterface)
  (h : History) (s : Server) :
  fst (result (QcCreateApInterface W ifname out h s)) = Status_ok.
Proof.
  unfold QcCreateApInterface, bind, result.
  destruct (QcSetupInterface W _ h s) as [[[i|] s1] e1]; reflexivity.
Qed.

Lemma handle_ApInterfaceImpl_ctor (n : string) (i : N) :
  untouched ap_interface (ApInterfaceImpl_ctor W n i).
Proof. unfold ApInterfaceImpl_ctor. untouched_all. Qed.

Lemma handle_BroadcastApInterfaceReady i :
  untouched ap_interface (BroadcastApInterfaceReady i).
Proof. intros h s. rewrite BroadcastApInterfaceReady_run. reflexivity. Qed.

Lemma handle_RefreshWiphyIndex : untouched ap_interface (RefreshWiphyIndex W).
Proof. unfold RefreshWiphyIndex. untouched_all. Qed.

Lemma handle_first_with_prefix (ifaces : list InterfaceInfo) (ifname : string) :
  untouched ap_interface (first_with_prefix ifaces ifname).
Proof.
  induction ifaces as [|i ifaces IH]; cbn [first_with_prefix]; untouched_all.
Qed.

#[local] Hint Resolve handle_ApInterfaceImpl_ctor handle_BroadcastApInterfaceReady
  handle_RefreshWiphyIndex handle_first_with_prefix : untouched.

Lemma handle_QcSetupInterface (ifname : string) :
  untouched ap_interface (QcSetupInterface W ifname).
Proof. unfold QcSetupInterface. untouched_all. Qed.

#[local] Hint Resolve handle_QcSetupInterface : untouched.

Lemma handle_QcCreateApInterface ifname out :
  untouched ap_interface (QcCreateApInterface W ifname out).
Proof. unfold QcCreateApInterface. untouched_all. Qed.

(** X26. The [startap dual] command with its six tokens.  The three
    creations are always made, one after the other, whatever the ones before
    gave: a creation that finds no interface does not end the command.  What
    follows depends on the handle after the first creation alone: the binder
    of the bridge when the bridge was found, else the handle remembered from
    an earlier command.  With a handle, hostapd is started on it and the
    command succeeds exactly when that call returns OK; without one it fails.
    Nothing that was created is undone when it fails. *)
Theorem dual_start_goes_on (bridge sap0 sap1 : string) (h : History) (s : Server) :
  let c1 := QcCreateApInterface W (list_byte_of_string bridge) (ap_interface s) h s in
  let s1 := set_ap_interface (state c1) (snd (result c1)) in
  let c2 := QcCreateApInterface W (list_byte_of_string sap0) None (h ++ events c1) s1 in
  let c3 := QcCreateApInterface W (list_byte_of_string sap1) (snd (result c2))
              (h ++ events c1 ++ events c2) (state c2) in
  let created := events c1 ++ events c2 ++ events c3 in
  let failed := Log ERROR "Failed to start dual hostapd" in
  let r := start_dual_ap W bridge sap0 sap1 h s in
  state r = state c3
  /\ ap_interface (state r) = snd (result c1)
  /\ match snd (result c1) with
     | None => result r = false /\ events r = created ++ [failed]
     | Some ap =>
         let ok := isOk (fst (binder_startHostapd W (h ++ created) ap true)) in
         result r = ok
         /\ events r
            = created ++ [EstartHostapd ap true;
                          if ok then Log INFO "dual hostapd started" else failed]
     end.
Proof.
  cbv zeta.
  remember (QcCreateApInterface W (list_byte_of_string bridge) (ap_interface s) h s)
    as c1 eqn:E1.
  remember (QcCreateApInterface W (list_byte_of_string sap0) None (h ++ events c1)
              (set_ap_interface (state c1) (snd (result c1)))) as c2 eqn:E2.
  remember (QcCreateApInterface W (list_byte_of_string sap1) (snd (result c2))
              (h ++ events c1 ++ events c2) (state c2)) as c3 eqn:E3.
  assert (Hok1 : fst (result c1) = Status_ok)
    by (subst c1; apply QcCreateApInterface_status).
  assert (Hok2 : fst (result c2) = Status_ok)
    by (subst c2; apply QcCreateApInterface_status).
  assert (Hok3 : fst (result c3) = Status_ok)
    by (subst c3; apply QcCreateApInterface_status).
  assert (Hhandle : ap_interface (state c3) = snd (result c1)).
  { rewrite E3, handle_QcCreateApInterface, E2, handle_QcCreateApInterface.
    destruct (state c1); reflexivity. }
  assert (Hrun :
            start_dual_ap W bridge sap0 sap1 h s
            = match snd (result c1) with
              | None =>
                  (false, state c3,
                   events c1 ++ events c2 ++ events c3
                   ++ [Log ERROR "Failed to start dual hostapd"])
              | Some ap =>
                  if isOk (fst (binder_startHostapd W
                                  (h ++ events c1 ++ events c2 ++ events c3) ap true))
                  then (true, state c3,
                        events c1 ++ events c2 ++ events c3
                        ++ [EstartHostapd ap true; Log INFO "dual hostapd started"])
                  else (false, state c3,
                        events c1 ++ events c2 ++ events c3
                        ++ [EstartHostapd ap true;
                            Log ERROR "Failed to start dual hostapd"])
              end).
  { unfold start_dual_ap. cbv zeta.
    destruct (snd (result c1)) as [ap|] eqn:Hb.
    - destruct (isOk (fst (binder_startHostapd W
                             (h ++ events c1 ++ events c2 ++ events c3) ap true)))
        eqn:Hstart.
      + etransitivity.
        { step. rewrite app_nil_r.
          step_with ltac:(rewrite <- E1; apply (run_eta c1)).
          step. rewrite Hok1. cbn [isOk negb]. rewrite !app_nil_r.
          step_with ltac:(rewrite Hb, <- E2; apply (run_eta c2)).
          rewrite Hok2. cbn [isOk negb]. rewrite <- !app_assoc.
          step_with ltac:(rewrite <- E3; apply (run_eta c3)).
          rewrite Hok3. cbn [isOk negb].
          step. cbn [fst snd]. rewrite Hhandle.
          step. rewrite ?app_nil_r, <- ?app_assoc. rewrite Hstart.
          step. reflexivity. }
        norm_h. reflexivity.
      + etransitivity.
        { step. rewrite app_nil_r.
          step_with ltac:(rewrite <- E1; apply (run_eta c1)).
          step. rewrite Hok1. cbn [isOk negb]. rewrite !app_nil_r.
          step_with ltac:(rewrite Hb, <- E2; apply (run_eta c2)).
          rewrite Hok2. cbn [isOk negb]. rewrite <- !app_assoc.
          step_with ltac:(rewrite <- E3; apply (run_eta c3)).
          rewrite Hok3. cbn [isOk negb].
          step. cbn [fst snd]. rewrite Hhandle.
          step. rewrite ?app_nil_r, <- ?app_assoc. rewrite Hstart.
          step. reflexivity. }
        norm_h. reflexivity.
    - etransitivity.
      { step. rewrite app_nil_r.
        step_with ltac:(rewrite <- E1; apply (run_eta c1)).
        step. rewrite Hok1. cbn [isOk negb]. rewrite !app_nil_r.
        step_with ltac:(rewrite Hb, <- E2; apply (run_eta c2)).
        rewrite Hok2. cbn [isOk negb]. rewrite <- !app_assoc.
        step_with ltac:(rewrite <- E3; apply (run_eta c3)).
        rewrite Hok3. cbn [isOk negb].
        step. cbn [fst snd]. rewrite Hhandle.
        step. reflexivity. }
      norm_h. reflexivity. }
  rewrite Hrun.
  destruct (snd (result c1)) as [ap|] eqn:Hb.
  - destruct (isOk (fst (binder_startHostapd W
                           (h ++ events c1 ++ events c2 ++ events c3) ap true)));
      (split; [reflexivity|split; [exact Hhandle|split; [reflexivity|]]]);
      unfold events at 1; cbn [snd]; rewrite <- !app_assoc; reflexivity.
  - split; [reflexivity|split; [exact Hhandle|split; [reflexivity|]]].
    unfold events at 1. cbn [snd]. rewrite <- !app_assoc. reflexivity.
Qed.

End MoreProofs.

(** * The further properties at work on concrete servers *)

(** ** X1: the station interface is torn down and created again *)
Lemma tearDownStaInterfaces_lifts_conflict_witness :
  tearDownStaInterfaces [] server_with_station
  = (Status_ok, set_client_interfaces server_with_station [],
     [EClientInterfaceImplDestroyed 40%N])
  /\ map client_interface_name
         (client_interfaces_
            (state (createClientInterface all_fine None
                      [EClientInterfaceImplDestroyed 40%N]
                      (state (tearDownStaInterfaces [] server_with_station)))))
     = ["wlan1"].
Proof.
  pose proof (tearDownStaInterfaces_lifts_conflict all_fine server_with_station []
                [EClientInterfaceImplDestroyed 40%N] None 0 sample_snapshot
                (iface 6 "wlan1") eq_refl eq_refl eq_refl) as H.
  cbv zeta in H. destruct H as [Hrun [_ Hcl]].
  split; [exact Hrun|]. rewrite Hcl. reflexivity.
Defined.

(** ** X4: [softap] is asked for while a station interface exists *)
Lemma QcCreateApInterface_by_prefix_witness :
  let r := QcCreateApInterface all_fine (list_byte_of_string "softap") None []
             server_with_station in
  map interface_name_ (ap_interfaces_ (state r)) = ["softap0"]
  /\ client_interfaces_ (state r) = [sample_station].
Proof.
  cbv zeta.
  pose proof (QcCreateApInterface_by_prefix all_fine server_with_station []
                (list_byte_of_string "softap") None 0
                [iface 3 "p2p0"; iface 4 "aware_data0"] [iface 6 "wlan1"]
                (iface 5 "softap0") eq_refl eq_refl) as H.
  cbv zeta in H. rewrite H.
  - split; reflexivity.
  - repeat apply Forall_cons; try apply Forall_nil; reflexivity.
  - reflexivity.
Defined.

(** ** X5: the bridge [br0] is known to the OS only *)
Lemma QcSetupInterface_bridge_witness :
  result (QcSetupInterface all_fine "br0" [] (Server_ctor 0))
  = Some (mkInterfaceInfo 7 "br0" sample_mac).
Proof.
  pose proof (QcSetupInterface_bridge all_fine (Server_ctor 0) [] "br0" 0 sample_snapshot
                eq_refl eq_refl) as H.
  cbv zeta in H. destruct H as (_ & _ & _ & H).
  - repeat apply Forall_cons; try apply Forall_nil; reflexivity.
  - destruct H as [H _].
    + intros E. vm_compute in E. discriminate E.
    + reflexivity.
    + exact H.
Defined.

(** ** X7: [stopap] with a controller and a remembered handle *)
Lemma stopap_command_witness :
  setHostapdParam all_fine (list_byte_of_string "cmd stopap") [] server_with_handle
  = ((Status_ok, true), mkServer [sample_listener] [] [] [] 0 None,
     [Log INFO "Command: cmd stopap (len=10)";
      EstopHostapd 50%N false;
      ENotifyImplDead 50%N; ESetUpState "wlan0" false; EUnsubscribeStationEvent 3;
      Log INFO "hostapd stopped"]).
Proof.
  pose proof (stopap_command all_fine (list_byte_of_string "cmd stopap") []
                server_with_handle "cmd" false [] eq_refl) as H.
  cbv zeta in H. destruct H as [_ H]. exact H.
Defined.

(** ** X8: one token *)
Lemma commands_without_effect_witness :
  setHostapdParam all_fine (list_byte_of_string "hello") [] (Server_ctor 0)
  = ((Status_ok, false), Server_ctor 0,
     [Log INFO "Command: hello (len=5)"; Log ERROR "Wrong/Unknown command: hello"]).
Proof.
  pose proof (commands_without_effect all_fine (list_byte_of_string "hello") ["hello"]
                [] (Server_ctor 0) eq_refl) as H.
  cbv zeta in H. destruct H as [H _].
  apply H. cbn. lia.
Defined.

(** ** X9: [startap] next to a station interface, a handle remembered *)
Lemma startap_with_remembered_handle_witness :
  setHostapdParam all_fine (list_byte_of_string "cmd startap") [] station_and_handle
  = ((Status_ok, true), station_and_handle,
     [Log INFO "Command: cmd startap (len=11)"; conflict_log;
      EstartHostapd 50%N false; Log INFO "hostapd started"]).
Proof.
  pose proof (startap_with_remembered_handle all_fine
                (list_byte_of_string "cmd startap") [] station_and_handle "cmd"
                eq_refl) as H.
  cbv zeta in H. apply H. discriminate.
Defined.

(** ** X10: [create wlan9] *)
Lemma vendor_commands_witness :
  setHostapdParam all_fine (list_byte_of_string "cmd create wlan9") [] (Server_ctor 0)
  = ((Status_ok, true), Server_ctor 0,
     [Log INFO "Command: cmd create wlan9 (len=16)";
      Eqsap_add_or_remove_interface "wlan9" 1]).
Proof.
  pose proof (vendor_commands all_fine (list_byte_of_string "cmd create wlan9")
                ["cmd"; "create"; "wlan9"] [] (Server_ctor 0) eq_refl) as H.
  cbv zeta in H. destruct H as (_ & _ & _ & H & _).
  - cbn. lia.
  - apply H. reflexivity.
Defined.

(** ** X12: [startap] on a new server *)
Lemma startap_creates_and_starts_witness :
  let r := setHostapdParam all_fine (list_byte_of_string "cmd startap") []
             (Server_ctor 0) in
  result r = (Status_ok, true)
  /\ map interface_name_ (ap_interfaces_ (state r)) = ["wlan1"]
  /\ ap_interface (state r) = Some 4%N.
Proof.
  cbv zeta.
  pose proof (startap_creates_and_starts all_fine (list_byte_of_string "cmd startap")
                [] (Server_ctor 0) "cmd" 0 sample_snapshot
                eq_refl eq_refl eq_refl eq_refl) as H.
  cbv zeta in H. destruct H as (Hs & Hr & _).
  rewrite Hs, Hr. repeat split.
Defined.

(** ** X13: a refused leave, a join, a leave *)
Lemma station_counter_accounting_witness :
  let r := deliver all_fine leave_join_leave [] sample_ap in
  GetNumberOfAssociatedStations (state r) = 0%Z
  /\ anomalies (events r) = 1%nat
  /\ List.length (events r) = 4%nat.
Proof.
  cbv zeta.
  pose proof (station_counter_accounting all_fine leave_join_leave [] sample_ap) as H.
  cbv zeta in H. destruct H as (H1 & _ & H3 & _).
  - cbn. lia.
  - vm_compute. discriminate.
  - split; [exact H1|split; [reflexivity|exact H3]].
Defined.

(** ** X6: the controllers listed before and after a creation *)
Lemma GetInterfaces_lists_live_controllers_witness :
  GetApInterfaces [9%N] [] server_with_ap
  = ((Status_ok, [9%N; 50%N]), server_with_ap, [])
  /\ snd (result (GetApInterfaces [] []
                    (state (createApInterface all_fine None [] server_with_ap))))
     = [50%N; 3%N].
Proof.
  destruct (GetInterfaces_lists_live_controllers all_fine [9%N] [] [] server_with_ap)
    as (Hap & _).
  destruct (GetInterfaces_lists_live_controllers all_fine [] [] [] server_with_ap)
    as (_ & _ & Hlast & _).
  split; [exact Hap|].
  rewrite (Hlast 3%N eq_refl). reflexivity.
Defined.

(** ** X14: a late listener, and a listener that left *)
Lemma listeners_in_registration_order_witness :
  let late := mkCallback 2 200 in
  events (broadcast (ApInterfaceReady 50%N) []
            (state (RegisterCallback late [] server_with_ap)))
  = [EOnApInterfaceReady sample_listener 50%N; EOnApInterfaceReady late 50%N]
  /\ notifications sample_listener
       (events (broadcast (ApInterfaceReady 50%N) []
                  (state (UnregisterCallback sample_listener [] server_with_ap))))
     = O.
Proof.
  cbv zeta.
  pose proof (listeners_in_registration_order (mkCallback 2 200) [] server_with_ap)
    as H1.
  pose proof (listeners_in_registration_order sample_listener [] server_with_ap) as H2.
  cbv zeta in H1, H2.
  destruct H1 as (Hlast & _). destruct H2 as (_ & Hgone & _).
  split.
  - rewrite (Hlast eq_refl). reflexivity.
  - apply Hgone. constructor; [intros []|constructor].
Defined.

(** ** X26: the dual AP is started although [sap0] is missing *)
Lemma dual_start_goes_on_witness :
  let r := start_dual_ap dual_world_without_sap0 "br0" "sap0" "sap1" []
             (Server_ctor 0) in
  result r = true
  /\ map interface_name_ (ap_interfaces_ (state r)) = ["br0"; "sap1"].
Proof.
  cbv zeta.
  pose proof (dual_start_goes_on dual_world_without_sap0 "br0" "sap0" "sap1" []
                (Server_ctor 0)) as H.
  cbv zeta in H. destruct H as (Hstate & _ & H).
  split.
  - vm_compute in H. exact (proj1 H).
  - rewrite Hstate. reflexivity.
Defined.

(** * SSIDs in GBK: what [wifi_gbk2utf.cpp] does *)

(** ** Comparing SSIDs *)

Lemma same_from_spec (a b : list byte) :
  forall n i,
    same_from a b i n = true
    <-> (forall j, (i <= j < i + n)%nat -> nth j a x00 = nth j b x00).
Proof.
  induction n as [|n IH]; intros i; cbn [same_from].
  - split; [intros _ j Hj; lia|reflexivity].
  - destruct (Byte.eqb (nth i a x00) (nth i b x00)) eqn:E; cbn [negb].
    + rewrite IH. apply byte_dec_bl in E. split.
      * intros H j Hj. destruct (Nat.eq_dec j i) as [->|]; [exact E|apply H; lia].
      * intros H j Hj. apply H. lia.
    + split; [discriminate|]. intros H. apply eqb_false in E.
      exfalso. apply E, H. lia.
Qed.

Lemma isSsidEual_iff (ssid1 ssid2 : list byte) :
  __isSsidEual ssid1 ssid2 = true <-> ssid1 = ssid2.
Proof.
  unfold __isSsidEual.
  destruct (Nat.eqb_spec (List.length ssid1) (List.length ssid2)) as [Hl|Hl];
    cbn [negb].
  - rewrite same_from_spec. split.
    + intros H. apply (nth_ext ssid1 ssid2 x00 x00 Hl). intros n Hn. apply H. lia.
    + intros -> j _. reflexivity.
  - split; [discriminate|]. intros ->. contradiction.
Qed.

Lemma isSsidEual_refl (ssid1 : list byte) : __isSsidEual ssid1 ssid1 = true.
Proof. apply isSsidEual_iff. reflexivity. Qed.

Lemma isSsidEual_false (ssid1 ssid2 : list byte) :
  __isSsidEual ssid1 ssid2 = false <-> ssid1 <> ssid2.
Proof.
  destruct (__isSsidEual ssid1 ssid2) eqn:E.
  - apply isSsidEual_iff in E. split; [discriminate|contradiction].
  - split; [|reflexivity]. intros _ H. apply isSsidEual_iff in H. congruence.
Qed.

(** X15. [__isSsidEual] is equality of the two byte vectors: it returns
    [true] exactly when they are the same bytes in the same order.  So it
    does not depend on the order of its arguments, and an SSID is never taken
    for a longer one that starts with it. *)
Theorem isSsidEual_is_equality (ssid1 ssid2 : list byte) :
  (__isSsidEual ssid1 ssid2 = true <-> ssid1 = ssid2)
  /\ __isSsidEual ssid1 ssid2 = __isSsidEual ssid2 ssid1
  /\ (forall more, more <> [] -> __isSsidEual ssid1 (ssid1 ++ more) = false).
Proof.
  split; [apply isSsidEual_iff|split].
  - destruct (__isSsidEual ssid1 ssid2) eqn:E12, (__isSsidEual ssid2 ssid1) eqn:E21;
      try reflexivity.
    + apply isSsidEual_iff in E12. subst. rewrite isSsidEual_refl in E21. discriminate.
    + apply isSsidEual_iff in E21. subst. rewrite isSsidEual_refl in E12. discriminate.
  - intros more Hmore. apply isSsidEual_false. intros H.
    apply Hmore. apply (app_inv_head ssid1). rewrite app_nil_r. symmetry. exact H.
Qed.

(** ** Texts in GBK *)

Lemma gbk_loop_ascii_step (b : byte) (rest : list byte) (acc : bool) :
  is_ascii b = true -> gbk_loop (b :: rest) acc = gbk_loop rest acc.
Proof.
  unfold is_ascii. intros Hb. cbn [gbk_loop]. rewrite Hb.
  apply N.ltb_lt in Hb.
  destruct (N.leb_spec 0x81 (Byte.to_N b)); [lia|]. reflexivity.
Qed.

Lemma gbk_loop_pair_step (b1 b2 : byte) (rest : list byte) (acc : bool) :
  gbk_lead b1 = true -> gbk_trail b2 = true ->
  gbk_loop (b1 :: b2 :: rest) acc = gbk_loop rest false.
Proof.
  unfold gbk_lead, gbk_trail. intros H1 H2.
  apply andb_true_iff in H1 as [H1a H1b].
  apply andb_true_iff in H2 as [H2 H2c]. apply andb_true_iff in H2 as [H2a H2b].
  cbn [gbk_loop is_empty negb]. rewrite H1a, H2a, H2c.
  apply N.leb_le in H1b, H2b.
  destruct (N.ltb_spec (Byte.to_N b1) 0xFF); [|lia].
  destruct (N.ltb_spec (Byte.to_N b2) 0xFF); [|lia].
  reflexivity.
Qed.

Lemma gbk_loop_inv (b : byte) (rest : list byte) (acc r : bool) :
  gbk_loop (b :: rest) acc = Some r ->
  (is_ascii b = true /\ gbk_loop rest acc = Some r)
  \/ (exists b2 rest',
        rest = b2 :: rest' /\ gbk_lead b = true /\ gbk_trail b2 = true
        /\ gbk_loop rest' false = Some r).
Proof.
  unfold is_ascii, gbk_lead, gbk_trail. cbn [gbk_loop].
  destruct (N.leb_spec 0x81 (Byte.to_N b)) as [Hlo|Hlo];
    destruct (N.ltb_spec (Byte.to_N b) 0xFF) as [Hhi|Hhi];
    destruct (N.ltb_spec (Byte.to_N b) 0x80) as [Ha|Ha];
    try lia; cbn [andb]; try discriminate;
    try (intros H; left; split; [reflexivity|exact H]).
  destruct rest as [|b2 rest']; cbn [is_empty negb]; [discriminate|].
  destruct (N.leb_spec 0x40 (Byte.to_N b2)) as [H2a|H2a]; cbn [andb]; [|discriminate].
  destruct (N.ltb_spec (Byte.to_N b2) 0xFF) as [H2b|H2b]; cbn [andb]; [|discriminate].
  destruct (N.eqb_spec (Byte.to_N b2) 0x7F) as [H2c|H2c]; cbn [negb]; [discriminate|].
  intros H. right. exists b2, rest'.
  repeat split; try exact H;
    repeat (apply andb_true_iff; split);
    try reflexivity; try (apply N.leb_le; lia).
  apply negb_true_iff, N.eqb_neq. exact H2c.
Qed.

Lemma gbk_loop_complete (p : bool) (str : list byte) :
  gbk_text p str -> forall acc, gbk_loop str acc = Some (acc && negb p)%bool.
Proof.
  induction 1 as [|b rest p Hb _ IH|b1 b2 rest p H1 H2 _ IH]; intros acc.
  - cbn. rewrite andb_true_r. reflexivity.
  - rewrite gbk_loop_ascii_step by exact Hb. apply IH.
  - rewrite gbk_loop_pair_step by assumption. rewrite IH.
    cbn [negb andb]. rewrite andb_false_r. reflexivity.
Qed.

Lemma gbk_loop_sound :
  forall (n : nat) (str : list byte),
    (List.length str <= n)%nat ->
    forall acc r,
      gbk_loop str acc = Some r ->
      exists p, gbk_text p str /\ r = (acc && negb p)%bool.
Proof.
  induction n as [|n IH]; intros str Hn acc r Hr.
  - destruct str; [|cbn in Hn; lia]. cbn in Hr. injection Hr as <-.
    exists false. split; [constructor|]. rewrite andb_true_r. reflexivity.
  - destruct str as [|b rest].
    + cbn in Hr. injection Hr as <-.
      exists false. split; [constructor|]. rewrite andb_true_r. reflexivity.
    + cbn [List.length] in Hn.
      apply gbk_loop_inv in Hr as [[Hb Hr]|(b2 & rest' & -> & H1 & H2 & Hr)].
      * destruct (IH rest ltac:(lia) acc r Hr) as (p & Hp & ->).
        exists p. split; [constructor; assumption|reflexivity].
      * cbn [List.length] in Hn.
        destruct (IH rest' ltac:(lia) false r Hr) as (p & Hp & ->).
        exists true. split; [econstructor; eassumption|].
        cbn [negb andb]. rewrite andb_false_r. reflexivity.
Qed.

Lemma gbk_text_unique (p q : bool) (str : list byte) :
  gbk_text p str -> gbk_text q str -> p = q.
Proof.
  intros Hp Hq.
  pose proof (gbk_loop_complete p str Hp true) as H1.
  pose proof (gbk_loop_complete q str Hq true) as H2.
  rewrite H1 in H2. cbn [andb] in H2. injection H2 as H2.
  destruct p, q; cbn in H2; congruence.
Qed.

Lemma gbk_text_ascii_only (str : list byte) :
  forallb is_ascii str = true -> gbk_text false str.
Proof.
  induction str as [|b rest IH]; cbn [forallb]; intros H.
  - constructor.
  - apply andb_true_iff in H as [Hb H]. constructor; [exact Hb|apply IH, H].
Qed.

Lemma gbk_text_has_pair (str : list byte) :
  gbk_text true str ->
  exists before b1 b2 after,
    str = before ++ b1 :: b2 :: after
    /\ gbk_lead b1 = true /\ gbk_trail b2 = true.
Proof.
  remember true as p eqn:Hp. intros H. revert Hp.
  induction H as [|b rest p Hb H IH|b1 b2 rest p H1 H2 H IH]; intros Hp.
  - discriminate.
  - destruct (IH Hp) as (before & c1 & c2 & after & -> & Hc1 & Hc2).
    exists (b :: before), c1, c2, after. repeat split; assumption.
  - exists [], b1, b2, rest. repeat split; assumption.
Qed.

Lemma gbk_loop_cut_short (q : bool) (before : list byte) (b : byte) :
  gbk_text q before -> is_ascii b = false ->
  forall acc, gbk_loop (before ++ [b]) acc = None.
Proof.
  intros Hbefore Hb.
  induction Hbefore as [|c rest p Hc _ IH|c1 c2 rest p Hc1 Hc2 _ IH]; intros acc.
  - cbn [app gbk_loop is_empty negb]. unfold is_ascii in Hb. rewrite Hb.
    rewrite andb_false_r. reflexivity.
  - cbn [app]. rewrite gbk_loop_ascii_step by exact Hc. apply IH.
  - cbn [app]. rewrite gbk_loop_pair_step by assumption. apply IH.
Qed.

Lemma isGBKString_iff (str : list byte) (length : Z) :
  __isGBKString str length = true <-> gbk_text true (firstn (Z.to_nat length) str).
Proof.
  unfold __isGBKString.
  set (text := firstn (Z.to_nat length) str).
  destruct (gbk_loop text true) as [all|] eqn:E.
  - destruct (gbk_loop_sound _ text (le_n _) true all E) as (p & Hp & ->).
    cbn [andb]. destruct p; cbn [negb].
    + split; [intros _; exact Hp|reflexivity].
    + split; [discriminate|]. intros Ht.
      pose proof (gbk_text_unique _ _ _ Hp Ht). discriminate.
  - split; [discriminate|]. intros Ht.
    rewrite (gbk_loop_complete true text Ht true) in E. discriminate.
Qed.

Lemma isGBKString_ascii (str : list byte) (length : Z) :
  forallb is_ascii (firstn (Z.to_nat length) str) = true ->
  __isGBKString str length = false.
Proof.
  intros Hascii. unfold __isGBKString.
  rewrite (gbk_loop_complete false _ (gbk_text_ascii_only _ Hascii) true).
  reflexivity.
Qed.

(** X16. [__isGBKString] accepts exactly the texts that are made of ASCII
    bytes and of two-byte characters (a first byte from 0x81 to 0xFE, a
    second one from 0x40 to 0xFE other than 0x7F) and hold at least one
    two-byte character; only the first [length] bytes count.  A text of ASCII
    bytes only is refused, and so is a text cut short after the first byte of
    a character: a text of that kind followed by one byte that is not
    ASCII. *)
Theorem isGBKString_grammar (str : list byte) (length : Z) :
  let text := firstn (Z.to_nat length) str in
  (__isGBKString str length = true <-> gbk_text true text)
  /\ (forallb is_ascii text = true -> __isGBKString str length = false)
  /\ (forall q before b,
         text = before ++ [b] -> gbk_text q before -> is_ascii b = false ->
         __isGBKString str length = false).
Proof.
  cbv zeta. split; [apply isGBKString_iff|split; [apply isGBKString_ascii|]].
  intros q before b Htext Hbefore Hb. unfold __isGBKString.
  rewrite Htext, (gbk_loop_cut_short q before b Hbefore Hb). reflexivity.
Qed.

(** ** Texts shaped like UTF-8 *)

Lemma high_bit (b : byte) : (N.land (Byte.to_N b) 0x80 =? 0)%N = is_ascii b.
Proof. destruct b; reflexivity. Qed.

Lemma continuation_not_ascii (b : byte) : continuation b = true -> is_ascii b = false.
Proof. destruct b; vm_compute; congruence. Qed.

Lemma lead_length_facts (b : byte) (n : N) :
  lead_length (Byte.to_N b) = Some n ->
  is_ascii b = false /\ continuation b = false /\ (2 <= n <= 6)%N.
Proof.
  destruct b; vm_compute; intros H; try discriminate H; injection H as <-;
    (split; [reflexivity|split; [reflexivity|split; discriminate]]).
Qed.

Lemma lead_length_total (b : byte) :
  is_ascii b = false -> continuation b = false ->
  exists n, lead_length (Byte.to_N b) = Some n.
Proof.
  destruct b; vm_compute; intros H1 H2; try discriminate; eexists; reflexivity.
Qed.

Lemma utf8_loop_ascii (b : byte) (rest : list byte) (ba : bool) :
  is_ascii b = true -> utf8_loop (b :: rest) 0 ba = utf8_loop rest 0 ba.
Proof.
  intros Hb. cbn [utf8_loop N.eqb]. rewrite high_bit, Hb. cbn [negb].
  unfold is_ascii in Hb. apply N.ltb_lt in Hb.
  destruct (N.leb_spec 0x80 (Byte.to_N b)); [lia|reflexivity].
Qed.

Lemma utf8_loop_lead (b : byte) (n : N) (rest : list byte) (ba : bool) :
  lead_length (Byte.to_N b) = Some n ->
  utf8_loop (b :: rest) 0 ba = utf8_loop rest (n - 1) false.
Proof.
  intros Hn. destruct (lead_length_facts b n Hn) as (Hb & _ & _).
  cbn [utf8_loop N.eqb]. rewrite high_bit, Hb, Hn. cbn [negb].
  unfold is_ascii in Hb. apply N.ltb_ge in Hb.
  destruct (N.leb_spec 0x80 (Byte.to_N b)); [reflexivity|lia].
Qed.

Lemma utf8_loop_cont (b : byte) (k : N) (rest : list byte) (ba : bool) :
  k <> 0%N -> continuation b = true ->
  utf8_loop (b :: rest) k ba = utf8_loop rest (k - 1) false.
Proof.
  intros Hk Hb. cbn [utf8_loop].
  rewrite high_bit, (continuation_not_ascii b Hb). cbn [negb].
  destruct (N.eqb_spec 0 k) as [E|_]; [congruence|].
  unfold continuation in Hb. rewrite Hb. reflexivity.
Qed.

Lemma utf8_loop_inv (b : byte) (rest : list byte) (k : N) (ba : bool) (r : N * bool) :
  utf8_loop (b :: rest) k ba = Some r ->
  (k = 0%N /\ is_ascii b = true /\ utf8_loop rest 0 ba = Some r)
  \/ (k = 0%N /\ exists n, lead_length (Byte.to_N b) = Some n
                           /\ utf8_loop rest (n - 1) false = Some r)
  \/ (k <> 0%N /\ continuation b = true /\ utf8_loop rest (k - 1) false = Some r).
Proof.
  intros H. destruct (N.eq_dec k 0) as [->|Hk].
  - destruct (is_ascii b) eqn:Hb.
    + rewrite utf8_loop_ascii in H by exact Hb. left. repeat split; assumption.
    + right. left. split; [reflexivity|].
      destruct (lead_length (Byte.to_N b)) as [n|] eqn:Hn.
      * rewrite (utf8_loop_lead b n rest ba Hn) in H. exists n. split; [reflexivity|exact H].
      * exfalso. cbn [utf8_loop N.eqb] in H. rewrite Hn in H.
        unfold is_ascii in Hb. apply N.ltb_ge in Hb.
        destruct (N.leb_spec 0x80 (Byte.to_N b)); [discriminate|lia].
  - right. right. split; [exact Hk|].
    destruct (continuation b) eqn:Hb.
    + rewrite utf8_loop_cont in H by assumption. split; [reflexivity|exact H].
    + exfalso. cbn [utf8_loop] in H.
      destruct (N.eqb_spec 0 k) as [E|_]; [congruence|].
      unfold continuation in Hb. rewrite Hb in H. discriminate.
Qed.

Lemma utf8_loop_tail (tail rest : list byte) :
  forallb continuation tail = true ->
  forall ba,
    utf8_loop (tail ++ rest) (N.of_nat (List.length tail)) ba
    = utf8_loop rest 0 (if is_empty tail then ba else false).
Proof.
  induction tail as [|c tail IH]; intros Hc ba.
  - reflexivity.
  - cbn [forallb] in Hc. apply andb_true_iff in Hc as [Hc Htail].
    cbn [app List.length is_empty].
    rewrite utf8_loop_cont by (lia || exact Hc).
    replace (N.of_nat (S (List.length tail)) - 1)%N with (N.of_nat (List.length tail))
      by lia.
    rewrite (IH Htail). destruct tail; reflexivity.
Qed.

Lemma utf8_loop_complete (p : bool) (str : list byte) :
  utf8_shaped p str ->
  forall ba, utf8_loop str 0 ba = Some (0%N, (ba && negb p)%bool).
Proof.
  induction 1 as [|b rest p Hb _ IH|b n tail rest p Hn Hlen Hc _ IH]; intros ba.
  - cbn. rewrite andb_true_r. reflexivity.
  - rewrite utf8_loop_ascii by exact Hb. apply IH.
  - rewrite (utf8_loop_lead b n _ ba Hn), <- Hlen, (utf8_loop_tail tail rest Hc), IH.
    cbn [negb]. rewrite andb_false_r.
    destruct (is_empty tail); reflexivity.
Qed.

Lemma utf8_loop_sound (str : list byte) :
  forall (k : N) (ba r : bool),
    utf8_loop str k ba = Some (0%N, r) ->
    exists tail rest p,
      str = tail ++ rest
      /\ N.of_nat (List.length tail) = k
      /\ forallb continuation tail = true
      /\ utf8_shaped p rest
      /\ r = (ba && (k =? 0)%N && negb p)%bool.
Proof.
  induction str as [|b str IH]; intros k ba r H.
  - cbn in H. injection H as -> <-.
    exists [], [], false. repeat split; try constructor.
    cbn. rewrite !andb_true_r. reflexivity.
  - apply utf8_loop_inv in H
      as [(-> & Hb & H)|[(-> & n & Hn & H)|(Hk & Hb & H)]].
    + destruct (IH _ _ _ H) as (tail & rest & p & -> & Hlen & Hc & Hp & ->).
      destruct tail; [|cbn in Hlen; lia].
      exists [], (b :: rest), p. cbn [app].
      repeat split; try reflexivity. constructor; assumption.
    + destruct (IH _ _ _ H) as (tail & rest & p & -> & Hlen & Hc & Hp & ->).
      exists [], (b :: tail ++ rest), true. cbn [app].
      repeat split; try reflexivity.
      * econstructor; eassumption.
      * cbn. rewrite andb_false_r. reflexivity.
    + destruct (IH _ _ _ H) as (tail & rest & p & -> & Hlen & Hc & Hp & ->).
      exists (b :: tail), rest, p. cbn [app List.length forallb].
      repeat split; try reflexivity.
      * lia.
      * rewrite Hb, Hc. reflexivity.
      * exact Hp.
      * destruct (N.eqb_spec k 0); [congruence|].
        cbn. rewrite andb_false_r. reflexivity.
Qed.

Lemma utf8_shaped_ascii_only (str : list byte) :
  forallb is_ascii str = true -> utf8_shaped false str.
Proof.
  induction str as [|b rest IH]; cbn [forallb]; intros H.
  - constructor.
  - apply andb_true_iff in H as [Hb H]. constructor; [exact Hb|apply IH, H].
Qed.

Lemma isUTF8String_iff (str : list byte) (length : Z) :
  __isUTF8String str length = true
  <-> utf8_shaped true (firstn (Z.to_nat length) str).
Proof.
  unfold __isUTF8String.
  set (text := firstn (Z.to_nat length) str).
  split.
  - destruct (utf8_loop text 0 true) as [[nBytes ba]|] eqn:E; [|discriminate].
    destruct (N.ltb_spec 0 nBytes) as [Hn|Hn]; cbn [orb]; [discriminate|].
    destruct ba; [discriminate|]. intros _.
    assert (nBytes = 0%N) by lia. subst nBytes.
    destruct (utf8_loop_sound text _ _ _ E)
      as (tail & rest & p & Htext & Hlen & _ & Hp & Hr).
    destruct tail; [|cbn in Hlen; lia]. cbn [app] in Htext. subst rest.
    destruct p; [exact Hp|discriminate].
  - intros Ht. rewrite (utf8_loop_complete true text Ht true). reflexivity.
Qed.

(** X17. [__isUTF8String] accepts exactly the texts that are made of ASCII
    bytes and of sequences, a first byte followed by as many continuation
    bytes (10xxxxxx) as the first byte announces, and hold at least one
    sequence; only the first [length] bytes count.  Every byte that is neither
    ASCII nor a continuation byte announces a sequence of two to six bytes,
    0xFE and 0xFF (five bytes) included; what the bytes of a sequence encode
    is not looked at.  A text of ASCII bytes only is refused. *)
Theorem isUTF8String_grammar (str : list byte) (length : Z) :
  let text := firstn (Z.to_nat length) str in
  (__isUTF8String str length = true <-> utf8_shaped true text)
  /\ (forallb is_ascii text = true -> __isUTF8String str length = false)
  /\ (forall b, is_ascii b = false -> continuation b = false ->
                exists n, lead_length (Byte.to_N b) = Some n /\ (2 <= n <= 6)%N)
  /\ lead_length (Byte.to_N xfe) = Some 5%N
  /\ lead_length (Byte.to_N xff) = Some 5%N.
Proof.
  cbv zeta.
  split; [apply isUTF8String_iff|split; [|split; [|split; reflexivity]]].
  - intros Hascii. unfold __isUTF8String.
    rewrite (utf8_loop_complete false _ (utf8_shaped_ascii_only _ Hascii) true).
    reflexivity.
  - intros b Hb Hc. destruct (lead_length_total b Hb Hc) as [n Hn].
    exists n. split; [exact Hn|]. apply (lead_length_facts b n Hn).
Qed.

(** ** Is the SSID in GBK? *)

Lemma forallb_firstn {A : Type} (f : A -> bool) (k : nat) (l : list A) :
  forallb f l = true -> forallb f (firstn k l) = true.
Proof.
  revert k. induction l as [|x l IH]; intros [|k]; cbn [firstn forallb]; try reflexivity.
  intros H. apply andb_true_iff in H as [Hx H]. rewrite Hx, (IH k H). reflexivity.
Qed.

(** X18. [wifigbk_isGbk] on an SSID whose size an [int] can hold: the SSID
    is in GBK exactly when it is a text of ASCII bytes and two-byte GBK
    characters with at least one such character, and is not shaped like
    UTF-8.  Whatever its size, an SSID of ASCII bytes only (the empty one
    included) is not in GBK, an SSID in GBK has at least two bytes, and when
    the size arrives as an [int] that is not positive, no byte is looked at
    and the answer is no. *)
Theorem wifigbk_isGbk_spec (ssid : list byte) :
  ((Z.of_nat (List.length ssid) <= INT_MAX)%Z ->
   (wifigbk_isGbk ssid = true <-> gbk_text true ssid /\ ~ utf8_shaped true ssid))
  /\ (forallb is_ascii ssid = true -> wifigbk_isGbk ssid = false)
  /\ (wifigbk_isGbk ssid = true -> (2 <= List.length ssid)%nat)
  /\ ((wrap_int (Z.of_nat (List.length ssid)) <= 0)%Z -> wifigbk_isGbk ssid = false).
Proof.
  unfold wifigbk_isGbk. cbv zeta.
  remember (wrap_int (Z.of_nat (List.length ssid))) as len eqn:Hdef.
  pose proof (isGBKString_iff ssid len) as Hgbk.
  pose proof (isGBKString_ascii ssid len) as Hgbk_ascii.
  pose proof (isUTF8String_iff ssid len) as Hutf.
  split; [|split; [|split]].
  - unfold INT_MAX. intros Hsize.
    assert (Hlen : len = Z.of_nat (List.length ssid))
      by (subst len; apply wrap_int_small; unfold INT_MIN, INT_MAX; lia).
    clear Hdef. subst len.
    rewrite Nat2Z.id, firstn_all in Hgbk, Hutf.
    rewrite <- Hgbk, <- Hutf.
    destruct (__isUTF8String ssid (Z.of_nat (List.length ssid))),
      (__isGBKString ssid (Z.of_nat (List.length ssid))); cbn;
      intuition congruence.
  - intros Hascii.
    rewrite (Hgbk_ascii (forallb_firstn _ _ _ Hascii)).
    rewrite andb_false_r. reflexivity.
  - intros H.
    assert (E : __isGBKString ssid len = true).
    { destruct (__isGBKString ssid len); [reflexivity|].
      rewrite andb_false_r in H. discriminate. }
    apply Hgbk in E. apply gbk_text_has_pair in E
      as (before & b1 & b2 & after & E & _).
    pose proof (firstn_le_length (Z.to_nat len) ssid) as Hle.
    assert (Hl : (2 <= List.length (firstn (Z.to_nat len) ssid))%nat)
      by (rewrite E, length_app; cbn [List.length]; lia).
    rewrite length_firstn in Hl. lia.
  - intros Hneg.
    assert (E : __isGBKString ssid len = false).
    { unfold __isGBKString. replace (Z.to_nat len) with O by lia. reflexivity. }
    rewrite E, andb_false_r. reflexivity.
Qed.

(** ** Showing an SSID *)

Lemma hex2_value (b : byte) :
  (hex_value (hex_digit (Byte.to_N b / 16)) * 16
   + hex_value (hex_digit (Byte.to_N b mod 16)) = Byte.to_N b)%N.
Proof. destruct b; reflexivity. Qed.

Lemma to_N_inj (a b : byte) : Byte.to_N a = Byte.to_N b -> a = b.
Proof.
  intros H. pose proof (of_to_N a) as Ha. rewrite H, of_to_N in Ha. congruence.
Qed.

Lemma show_bytes_inj (a : list byte) :
  forall b, show_bytes a = show_bytes b -> a = b.
Proof.
  induction a as [|x a IH]; intros [|y b] H; cbn [show_bytes] in H;
    unfold hex2 in H; cbn [String.append] in H; try discriminate H.
  - reflexivity.
  - injection H as H1 H2 H3. f_equal.
    + apply to_N_inj. rewrite <- (hex2_value x), <- (hex2_value y), H1, H2.
      reflexivity.
    + apply IH. exact H3.
Qed.

Lemma show_bytes_length (a : list byte) :
  String.length (show_bytes a) = (3 * List.length a)%nat.
Proof.
  induction a as [|x a IH]; [reflexivity|].
  cbn [show_bytes]. unfold hex2. cbn [String.append String.length List.length].
  rewrite IH. lia.
Qed.

Lemma wifigbk_dumpSsid_run (tag : string) (ssid : list byte)
  (h : list GbkEvent) (g : Globals) :
  ssid <> [] ->
  wifigbk_dumpSsid tag ssid h g = Some (tt, g, [ssid_line tag ssid]).
Proof.
  intros Hne. unfold wifigbk_dumpSsid, gemit, ssid_line. cbv zeta.
  destruct ssid as [|b ssid]; [contradiction|].
  change (negb (List.length (b :: ssid) =? 0)%nat) with true.
  cbv iota.
  destruct (Nat.ltb_spec 32 (List.length (b :: ssid))) as [Hl|Hl]; [reflexivity|].
  rewrite (firstn_all2 (n := 32) (b :: ssid)) by exact Hl.
  rewrite firstn_all. reflexivity.
Qed.

(** X19. [wifigbk_dumpSsid] on an SSID that is not empty logs one line and
    changes nothing: the tag, the full size of the SSID, and the first 32
    bytes at most, each as a blank and two hexadecimal digits, so at most 96
    characters, which the buffer of 200 holds.  The bytes shown can be read
    back: two SSIDs shown alike agree on their first 32 bytes.  For an empty
    SSID the pointer streamed last is still [NULL]: the call is undefined. *)
Theorem wifigbk_dumpSsid_line (tag : string) (ssid : list byte)
  (h : list GbkEvent) (g : Globals) :
  let shown := firstn 32 ssid in
  (ssid <> [] ->
   wifigbk_dumpSsid tag ssid h g
   = Some (tt, g,
           [ELogSsid (tag ++ "[len=" ++ dec_of_N (N.of_nat (List.length ssid)) ++ "] ")
                     (show_bytes shown)]))
  /\ (ssid = [] -> wifigbk_dumpSsid tag ssid h g = None)
  /\ String.length (show_bytes shown) = (3 * Nat.min 32 (List.length ssid))%nat
  /\ (String.length (show_bytes shown) < 200)%nat
  /\ (forall other,
         show_bytes (firstn 32 other) = show_bytes shown -> firstn 32 other = shown).
Proof.
  cbv zeta. split; [|split; [|split; [|split]]].
  - intros Hne. apply wifigbk_dumpSsid_run. exact Hne.
  - intros ->. reflexivity.
  - rewrite show_bytes_length, length_firstn. reflexivity.
  - rewrite show_bytes_length, length_firstn. lia.
  - intros other H. apply show_bytes_inj. exact H.
Qed.

(** ** The history *)

Lemma entry_exists_In (wanted : list byte) (items : list accessPointObjectItem) :
  entry_exists wanted items = true <-> In wanted (map ssid items).
Proof.
  induction items as [|it items IH]; cbn [entry_exists map In].
  - split; [discriminate|contradiction].
  - destruct (__isSsidEual wanted (ssid it)) eqn:E.
    + apply isSsidEual_iff in E. split; [intros _; left; congruence|reflexivity].
    + apply isSsidEual_false in E. rewrite IH.
      split; [intros H; right; exact H|intros [H|H]; [congruence|exact H]].
Qed.

Lemma wifigbk_addToHistory_run (ssid utf_ssid : list byte)
  (h : list GbkEvent) (g : Globals) :
  wifigbk_addToHistory ssid utf_ssid h g
  = match g_pItemListMutex g with
    | Some false =>
        if entry_exists ssid (g_pItemList g) then Some (tt, g, [])
        else if (is_empty ssid || is_empty utf_ssid)%bool then None
             else Some (tt, with_item g ssid utf_ssid, added_lines ssid utf_ssid)
    | _ => None
    end.
Proof.
  destruct g as [[[|]|] items]; try reflexivity.
  unfold wifigbk_addToHistory, gbind, pthread_mutex_lock, gget.
  cbn [g_pItemListMutex g_pItemList set_g_pItemListMutex].
  destruct (entry_exists ssid items); cbn [negb]; [reflexivity|].
  destruct ssid as [|b ssid]; [reflexivity|].
  rewrite wifigbk_dumpSsid_run by discriminate.
  destruct utf_ssid as [|u utf_ssid]; [reflexivity|].
  rewrite wifigbk_dumpSsid_run by discriminate.
  reflexivity.
Qed.

Lemma addToHistory_cases (ssid utf_ssid : list byte)
  (h : list GbkEvent) (g : Globals) :
  g_pItemListMutex g = Some false ->
  (In ssid (history_keys g) ->
   wifigbk_addToHistory ssid utf_ssid h g = Some (tt, g, []))
  /\ (~ In ssid (history_keys g) -> ssid <> [] -> utf_ssid <> [] ->
      wifigbk_addToHistory ssid utf_ssid h g
      = Some (tt, with_item g ssid utf_ssid, added_lines ssid utf_ssid))
  /\ (~ In ssid (history_keys g) -> ssid = [] \/ utf_ssid = [] ->
      wifigbk_addToHistory ssid utf_ssid h g = None).
Proof.
  intros Hm. rewrite wifigbk_addToHistory_run, Hm. unfold history_keys.
  split; [|split].
  - intros Hin. apply entry_exists_In in Hin. rewrite Hin. reflexivity.
  - intros Hnot Hs Hu.
    destruct (entry_exists ssid (g_pItemList g)) eqn:E;
      [apply entry_exists_In in E; contradiction|].
    destruct ssid as [|b ssid]; [contradiction|].
    destruct utf_ssid as [|u utf_ssid]; [contradiction|].
    reflexivity.
  - intros Hnot Hempty.
    destruct (entry_exists ssid (g_pItemList g)) eqn:E;
      [apply entry_exists_In in E; contradiction|].
    destruct Hempty as [-> | ->]; [reflexivity|].
    rewrite orb_true_r. reflexivity.
Qed.

(** X20. [wifigbk_addToHistory] needs the mutex: called before
    [wifigbk_init] or after [wifigbk_deinit] it locks a [NULL] mutex.  With
    the mutex at hand, the first mapping of an SSID wins: when the history
    holds an item with this SSID already, nothing is changed and nothing is
    logged, whatever the new UTF-8 form; otherwise, the SSID and its UTF-8
    form not being empty, two lines are logged, one item is appended at the
    end and the mutex is unlocked again.  A new SSID that is empty, or whose
    UTF-8 form is, is undefined: the lines are logged before the item is
    appended, and the line of an empty SSID streams a [NULL] pointer. *)
Theorem addToHistory_first_mapping_wins (ssid utf_ssid : list byte)
  (h : list GbkEvent) (g : Globals) :
  (g_pItemListMutex g = Some false ->
   (In ssid (history_keys g) ->
    wifigbk_addToHistory ssid utf_ssid h g = Some (tt, g, []))
   /\ (~ In ssid (history_keys g) -> ssid <> [] -> utf_ssid <> [] ->
       wifigbk_addToHistory ssid utf_ssid h g
       = Some (tt, with_item g ssid utf_ssid, added_lines ssid utf_ssid)
       /\ g_pItemListMutex (with_item g ssid utf_ssid) = Some false
       /\ history_keys (with_item g ssid utf_ssid) = history_keys g ++ [ssid])
   /\ (~ In ssid (history_keys g) -> ssid = [] \/ utf_ssid = [] ->
       wifigbk_addToHistory ssid utf_ssid h g = None))
  /\ (g_pItemListMutex g <> Some false ->
      wifigbk_addToHistory ssid utf_ssid h g = None).
Proof.
  rewrite wifigbk_addToHistory_run. unfold history_keys. split.
  - intros Hm. rewrite Hm. split; [|split].
    + intros Hin. apply entry_exists_In in Hin. rewrite Hin. reflexivity.
    + intros Hnot Hs Hu.
      destruct (entry_exists ssid (g_pItemList g)) eqn:E;
        [apply entry_exists_In in E; contradiction|].
      destruct ssid as [|b ssid]; [contradiction|].
      destruct utf_ssid as [|u utf_ssid]; [contradiction|].
      split; [reflexivity|split; [exact Hm|]].
      unfold with_item. cbn [g_pItemList set_g_pItemList].
      rewrite map_app. reflexivity.
    + intros Hnot Hempty.
      destruct (entry_exists ssid (g_pItemList g)) eqn:E;
        [apply entry_exists_In in E; contradiction|].
      destruct Hempty as [-> | ->]; [reflexivity|].
      rewrite orb_true_r. reflexivity.
  - intros Hm. destruct (g_pItemListMutex g) as [[|]|]; congruence.
Qed.

Lemma first_match_found (in_ssid : list byte) (isGbk : bool)
  (before : list accessPointObjectItem) (it : accessPointObjectItem)
  (after : list accessPointObjectItem) :
  (if isGbk then ssid it else utf_ssid it) = in_ssid ->
  (forall x, In x before -> (if isGbk then ssid x else utf_ssid x) <> in_ssid) ->
  first_match in_ssid isGbk (before ++ it :: after)
  = Some (if isGbk then utf_ssid it else ssid it).
Proof.
  intros Hit Hbefore. induction before as [|x before IH]; cbn [app first_match].
  - rewrite Hit, isSsidEual_refl. reflexivity.
  - assert (Hx : __isSsidEual in_ssid (if isGbk then ssid x else utf_ssid x) = false).
    { apply isSsidEual_false. intros E. apply (Hbefore x); [left; reflexivity|].
      symmetry. exact E. }
    rewrite Hx. apply IH. intros y Hy. apply Hbefore. right. exact Hy.
Qed.

Lemma first_match_none (in_ssid : list byte) (isGbk : bool)
  (items : list accessPointObjectItem) :
  (forall x, In x items -> (if isGbk then ssid x else utf_ssid x) <> in_ssid) ->
  first_match in_ssid isGbk items = None.
Proof.
  intros Hitems. induction items as [|x items IH]; cbn [first_match]; [reflexivity|].
  assert (Hx : __isSsidEual in_ssid (if isGbk then ssid x else utf_ssid x) = false).
  { apply isSsidEual_false. intros E. apply (Hitems x); [left; reflexivity|].
    symmetry. exact E. }
  rewrite Hx. apply IH. intros y Hy. apply Hitems. right. exact Hy.
Qed.

Lemma wifigbk_getFromHistory_run (in_ssid out_ssid : list byte)
  (h : list GbkEvent) (g : Globals) :
  wifigbk_getFromHistory in_ssid out_ssid h g
  = match g_pItemListMutex g with
    | None =>
        Some (((-2)%Z, out_ssid), g,
              [ELogInfo "wifigbk_toGbk fail as wifigbk is not inited."])
    | Some false =>
        match first_match in_ssid (wifigbk_isGbk in_ssid) (g_pItemList g) with
        | Some other => Some ((0%Z, other), g, [])
        | None => Some (((-1)%Z, out_ssid), g, [])
        end
    | Some true => None
    end.
Proof.
  destruct g as [[[|]|] items]; try reflexivity.
  unfold wifigbk_getFromHistory, gbind, pthread_mutex_lock, gget.
  cbn [g_pItemListMutex g_pItemList set_g_pItemListMutex].
  destruct (first_match in_ssid (wifigbk_isGbk in_ssid) items); reflexivity.
Qed.

(** X21. [wifigbk_getFromHistory] never changes the history.  Before
    [wifigbk_init] it returns -2, logs one line and leaves [out_ssid] alone.
    Otherwise it logs nothing and looks for the first item that matches: by
    its GBK form when the SSID asked for is in GBK, else by its UTF-8 form;
    it returns 0 with the other form of that item in [out_ssid], or -1 with
    [out_ssid] untouched when no item matches. *)
Theorem getFromHistory_looks_up (in_ssid out_ssid : list byte)
  (h : list GbkEvent) (g : Globals) :
  let r := wifigbk_getFromHistory in_ssid out_ssid h g in
  let key it := if wifigbk_isGbk in_ssid then ssid it else utf_ssid it in
  let other it := if wifigbk_isGbk in_ssid then utf_ssid it else ssid it in
  (g_pItemListMutex g = None ->
   r = Some (((-2)%Z, out_ssid), g,
             [ELogInfo "wifigbk_toGbk fail as wifigbk is not inited."]))
  /\ (g_pItemListMutex g = Some false ->
      (forall before it after,
          g_pItemList g = before ++ it :: after ->
          key it = in_ssid ->
          (forall x, In x before -> key x <> in_ssid) ->
          r = Some ((0%Z, other it), g, []))
      /\ ((forall x, In x (g_pItemList g) -> key x <> in_ssid) ->
          r = Some (((-1)%Z, out_ssid), g, [])))
  /\ (forall res g' e, r = Some (res, g', e) -> g' = g).
Proof.
  cbv zeta. rewrite wifigbk_getFromHistory_run. split; [|split].
  - intros ->. reflexivity.
  - intros ->. split.
    + intros before it after Hitems Hit Hbefore.
      rewrite Hitems, (first_match_found _ _ before it after Hit Hbefore).
      reflexivity.
    + intros Hnone. rewrite (first_match_none _ _ _ Hnone). reflexivity.
  - intros res g' e.
    destruct (g_pItemListMutex g) as [[|]|]; [discriminate| |congruence].
    destruct (first_match in_ssid (wifigbk_isGbk in_ssid) (g_pItemList g));
      congruence.
Qed.

(** X22. Round trip.  Once a new SSID in GBK is added with its UTF-8 form,
    neither of them empty, asking for the GBK SSID gives the UTF-8 form; and
    asking for the UTF-8 form, when it is not itself taken for GBK and no
    earlier item has it, gives the GBK SSID back.  Adding the SSID again with
    another UTF-8 form changes nothing. *)
Theorem history_round_trip (ssid utf_ssid : list byte)
  (h : list GbkEvent) (g : Globals) :
  g_pItemListMutex g = Some false ->
  ~ In ssid (history_keys g) ->
  ssid <> [] ->
  utf_ssid <> [] ->
  let g1 := with_item g ssid utf_ssid in
  gstate_of (wifigbk_addToHistory ssid utf_ssid h g) = Some g1
  /\ (wifigbk_isGbk ssid = true ->
      forall out h1,
        wifigbk_getFromHistory ssid out h1 g1 = Some ((0%Z, utf_ssid), g1, []))
  /\ (wifigbk_isGbk utf_ssid = false ->
      (forall it, In it (g_pItemList g) -> utf_form it <> utf_ssid) ->
      forall out h1,
        wifigbk_getFromHistory utf_ssid out h1 g1 = Some ((0%Z, ssid), g1, []))
  /\ (forall other h1, wifigbk_addToHistory ssid other h1 g1 = Some (tt, g1, [])).
Proof.
  intros Hm Hnew Hs Hu. cbv zeta.
  assert (Hm1 : g_pItemListMutex (with_item g ssid utf_ssid) = Some false) by exact Hm.
  split; [|split; [|split]].
  - rewrite wifigbk_addToHistory_run, Hm.
    destruct (entry_exists ssid (g_pItemList g)) eqn:E;
      [apply entry_exists_In in E; contradiction|].
    destruct ssid as [|b ssid]; [contradiction|].
    destruct utf_ssid as [|u utf_ssid]; [contradiction|].
    reflexivity.
  - intros Hgbk out h1. rewrite wifigbk_getFromHistory_run, Hm1, Hgbk.
    unfold with_item. cbn [g_pItemList set_g_pItemList].
    rewrite (first_match_found ssid true (g_pItemList g) (mkItem ssid utf_ssid) []).
    + reflexivity.
    + reflexivity.
    + intros x Hx E. apply Hnew. unfold history_keys. rewrite <- E.
      apply in_map. exact Hx.
  - intros Hutf Hfirst out h1. rewrite wifigbk_getFromHistory_run, Hm1, Hutf.
    unfold with_item. cbn [g_pItemList set_g_pItemList].
    rewrite (first_match_found utf_ssid false (g_pItemList g) (mkItem ssid utf_ssid) []).
    + reflexivity.
    + reflexivity.
    + exact Hfirst.
  - intros other h1. rewrite wifigbk_addToHistory_run, Hm1.
    assert (E : entry_exists ssid (g_pItemList (with_item g ssid utf_ssid)) = true).
    { apply entry_exists_In. unfold with_item. cbn [g_pItemList set_g_pItemList].
      rewrite map_app. apply in_or_app. right. left. reflexivity. }
    rewrite E. reflexivity.
Qed.

(** ** Converting an SSID *)

Lemma until_nul_no_zero (l : list byte) : ~ In x00 (until_nul l).
Proof.
  induction l as [|b l IH]; cbn [until_nul]; [intros []|].
  destruct (Byte.eqb b x00) eqn:E; [intros []|].
  intros [Hb|Hin]; [|exact (IH Hin)]. subst b. discriminate E.
Qed.

Lemma until_nul_id (l : list byte) : ~ In x00 l -> until_nul l = l.
Proof.
  induction l as [|b l IH]; cbn [until_nul]; [reflexivity|].
  intros Hnot. destruct (Byte.eqb b x00) eqn:E.
  - exfalso. apply Hnot. left. symmetry. apply byte_dec_bl. exact E.
  - f_equal. apply IH. intros Hin. apply Hnot. right. exact Hin.
Qed.

Lemma until_nul_app (l more : list byte) :
  ~ In x00 l -> until_nul (l ++ x00 :: more) = l.
Proof.
  induction l as [|b l IH]; cbn [app until_nul]; intros Hnot.
  - reflexivity.
  - destruct (Byte.eqb b x00) eqn:E.
    + exfalso. apply Hnot. left. symmetry. apply byte_dec_bl. exact E.
    + f_equal. apply IH. intros Hin. apply Hnot. right. exact Hin.
Qed.

Lemma until_nul_shorter (l : list byte) :
  In x00 l -> (List.length (until_nul l) < List.length l)%nat.
Proof.
  induction l as [|b l IH]; cbn [until_nul List.length In]; [intros []|].
  destruct (Byte.eqb b x00) eqn:E; cbn [List.length]; [lia|].
  intros [Hb|Hin]; [subst b; discriminate E|]. specialize (IH Hin). lia.
Qed.

Lemma firstn_until_nul (l : list byte) :
  firstn (List.length (until_nul l)) l = until_nul l.
Proof.
  induction l as [|b l IH]; cbn [until_nul]; [reflexivity|].
  destruct (Byte.eqb b x00); cbn [List.length firstn]; [reflexivity|].
  rewrite IH. reflexivity.
Qed.

Lemma strlen_spec (buf : list byte) :
  (In x00 buf -> strlen buf = Some (List.length (until_nul buf)))
  /\ (~ In x00 buf -> strlen buf = None).
Proof.
  unfold strlen. destruct (existsb (Byte.eqb x00) buf) eqn:E.
  - split; [reflexivity|]. intros Hnot. exfalso. apply Hnot.
    apply existsb_exists in E as (b & Hb & Eb).
    apply byte_dec_bl in Eb. subst b. exact Hb.
  - split; [|reflexivity]. intros Hin. exfalso.
    assert (existsb (Byte.eqb x00) buf = true); [|congruence].
    apply existsb_exists. exists x00. split; [exact Hin|reflexivity].
Qed.

Lemma terminated_short (written : list byte) :
  (List.length written < CONVERT_LINE_LEN)%nat -> terminated written.
Proof.
  unfold terminated, buffer_after. intros Hlen.
  rewrite firstn_app. apply in_or_app. right.
  destruct (CONVERT_LINE_LEN - List.length written)%nat as [|k] eqn:Ek; [lia|].
  unfold CONVERT_LINE_LEN at 1. cbn [repeat firstn]. left. reflexivity.
Qed.

Lemma wifigbk_toUtf_run (icu : Icu) (ssid : list byte) (utf_ssid : OutVector)
  (h : list GbkEvent) (g : Globals) :
  let ssid_len := wrap_int (Z.of_nat (List.length ssid)) in
  let converted := [Eucnv_open CHARSET_CN; Eucnv_toAlgorithmic ssid ssid_len] in
  let conv := ucnv_toAlgorithmic_utf8 icu (h ++ [Eucnv_open CHARSET_CN]) ssid ssid_len in
  let as_it_was :=
    match utf_ssid with Separate content => content | SameAsSsid => ssid end in
  wifigbk_toUtf icu ssid utf_ssid h g
  = if ucnv_open_fails icu h CHARSET_CN
    then Some (((-1)%Z, as_it_was), g, [Eucnv_open CHARSET_CN])
    else if snd conv
         then Some (((-2)%Z, as_it_was), g, converted ++ [Eucnv_close])
         else match strlen (buffer_after (fst conv)) with
              | None => None
              | Some n =>
                  let assigned := firstn n (buffer_after (fst conv)) in
                  let stored :=
                    match utf_ssid with
                    | Separate _ => ssid
                    | SameAsSsid => assigned
                    end in
                  match wifigbk_addToHistory stored assigned [] g with
                  | Some (_, g', e) =>
                      Some ((0%Z, assigned), g', converted ++ e ++ [Eucnv_close])
                  | None => None
                  end
              end.
Proof.
  cbv zeta. unfold wifigbk_toUtf, buffer_after. cbv zeta.
  unfold gbind at 1, gcall at 1.
  destruct (ucnv_open_fails icu h CHARSET_CN); [reflexivity|].
  unfold gbind at 1, gcall at 1.
  destruct (snd (ucnv_toAlgorithmic_utf8 icu (h ++ [Eucnv_open CHARSET_CN]) ssid
                   (wrap_int (Z.of_nat (List.length ssid))))); [reflexivity|].
  destruct (strlen _) as [n|]; [|reflexivity].
  unfold gbind at 1. rewrite !wifigbk_addToHistory_run.
  destruct (g_pItemListMutex g) as [[|]|]; try reflexivity.
  destruct (entry_exists _ (g_pItemList g)); [reflexivity|].
  destruct (is_empty _ || is_empty _)%bool; reflexivity.
Qed.

(** X23. The paths of [wifigbk_toUtf].  When the converter cannot be opened
    it returns -1 and nothing else happens.  When the conversion fails it
    closes the converter and returns -2; [*utf_ssid] and the history are
    untouched on both paths.  When the conversion succeeds, [*utf_ssid]
    becomes the text of the buffer, the bytes before its first zero byte
    (fewer than 512, none of them zero; all that ICU wrote when that is
    shorter than the buffer and holds no zero byte).  The SSID is read again
    after that: it is the SSID passed in, or, when [utf_ssid] points to the
    very vector [ssid] refers to, the text just assigned, so that the item
    has the UTF-8 form on both sides.  The pair is added to the history
    unless the SSID has an item already, the converter is closed and the
    result is 0.  That path is undefined when the buffer holds no zero byte,
    when the mutex is [NULL] ([wifigbk_toUtf] does not test whether
    [wifigbk_init] has run), and when a new pair has an empty side: an empty
    SSID, or a buffer that starts with a zero byte. *)
Theorem wifigbk_toUtf_paths (icu : Icu) (ssid : list byte) (utf_ssid : OutVector)
  (h : list GbkEvent) (g : Globals) :
  let ssid_len := wrap_int (Z.of_nat (List.length ssid)) in
  let converted := [Eucnv_open CHARSET_CN; Eucnv_toAlgorithmic ssid ssid_len] in
  let conv := ucnv_toAlgorithmic_utf8 icu (h ++ [Eucnv_open CHARSET_CN]) ssid ssid_len in
  let utf := text_of (fst conv) in
  let as_it_was :=
    match utf_ssid with Separate content => content | SameAsSsid => ssid end in
  let stored := match utf_ssid with Separate _ => ssid | SameAsSsid => utf end in
  let r := wifigbk_toUtf icu ssid utf_ssid h g in
  (ucnv_open_fails icu h CHARSET_CN = true ->
   r = Some (((-1)%Z, as_it_was), g, [Eucnv_open CHARSET_CN]))
  /\ (ucnv_open_fails icu h CHARSET_CN = false ->
      (snd conv = true ->
       r = Some (((-2)%Z, as_it_was), g, converted ++ [Eucnv_close]))
      /\ (snd conv = false ->
          (terminated (fst conv) -> g_pItemListMutex g = Some false ->
           (In stored (history_keys g) ->
            r = Some ((0%Z, utf), g, converted ++ [Eucnv_close]))
           /\ (~ In stored (history_keys g) -> stored <> [] -> utf <> [] ->
               r = Some ((0%Z, utf), with_item g stored utf,
                         converted ++ added_lines stored utf ++ [Eucnv_close]))
           /\ (~ In stored (history_keys g) -> stored = [] \/ utf = [] ->
               r = None)
           /\ (List.length utf < CONVERT_LINE_LEN)%nat
           /\ ~ In x00 utf
           /\ ((List.length (fst conv) < CONVERT_LINE_LEN)%nat ->
               ~ In x00 (fst conv) -> utf = fst conv))
          /\ (~ terminated (fst conv) \/ g_pItemListMutex g <> Some false ->
              r = None))).
Proof.
  cbv zeta. rewrite wifigbk_toUtf_run. cbv zeta. unfold text_of.
  set (conv := ucnv_toAlgorithmic_utf8 icu (h ++ [Eucnv_open CHARSET_CN]) ssid
                 (wrap_int (Z.of_nat (List.length ssid)))).
  set (buf := buffer_after (fst conv)).
  split; [intros ->; reflexivity|].
  intros ->. split; [intros ->; reflexivity|].
  intros ->. split.
  - intros Hterm Hm. unfold terminated in Hterm. fold buf in Hterm.
    destruct (strlen_spec buf) as [Hlen _]. rewrite (Hlen Hterm).
    cbv zeta. rewrite firstn_until_nul.
    set (stored := match utf_ssid with
                   | Separate _ => ssid
                   | SameAsSsid => until_nul buf
                   end).
    destruct (addToHistory_cases stored (until_nul buf) [] g Hm)
      as (Hold & Hnew & Hbad).
    split; [|split; [|split; [|split; [|split]]]].
    + intros Hin. rewrite (Hold Hin). reflexivity.
    + intros Hnot Hs Hu. rewrite (Hnew Hnot Hs Hu). reflexivity.
    + intros Hnot Hempty. rewrite (Hbad Hnot Hempty). reflexivity.
    + pose proof (until_nul_shorter buf Hterm) as Hshort.
      pose proof (firstn_le_length CONVERT_LINE_LEN
                    (fst conv ++ repeat x00 CONVERT_LINE_LEN)) as Hle.
      fold (buffer_after (fst conv)) in Hle. fold buf in Hle. lia.
    + apply until_nul_no_zero.
    + intros Hshort Hnot. subst buf. unfold buffer_after. rewrite firstn_app.
      rewrite (firstn_all2 (n := CONVERT_LINE_LEN) (fst conv)) by lia.
      destruct (CONVERT_LINE_LEN - List.length (fst conv))%nat as [|k] eqn:Ek; [lia|].
      unfold CONVERT_LINE_LEN at 1. cbn [repeat firstn].
      apply until_nul_app. exact Hnot.
  - intros [Hnt|Hm].
    + destruct (strlen_spec buf) as [_ Hnone]. rewrite (Hnone Hnt). reflexivity.
    + destruct (strlen buf); [|reflexivity]. cbv zeta.
      rewrite wifigbk_addToHistory_run.
      destruct (g_pItemListMutex g) as [[|]|]; congruence.
Qed.

(** ** From start to end *)

Lemma wifigbk_init_run (h : list GbkEvent) (g : Globals) :
  wifigbk_init h g
  = Some (0%Z,
          match g_pItemListMutex g with
          | None => set_g_pItemListMutex g (Some false)
          | Some _ => g
          end, []).
Proof. destruct g as [[m|] items]; reflexivity. Qed.

Lemma wifigbk_deinit_run (h : list GbkEvent) (g : Globals) :
  wifigbk_deinit h g
  = match g_pItemListMutex g with
    | Some false => Some (0%Z, globals_at_start, [])
    | Some true => None
    | None => Some (0%Z, g, [])
    end.
Proof. destruct g as [[[|]|] items]; reflexivity. Qed.

Lemma then_gret_tt {A : Type} (m : G A) (h : list GbkEvent) (g : Globals) :
  gbind m (fun _ => gret tt) h g
  = match m h g with
    | Some (_, g1, e1) => Some (tt, g1, e1)
    | None => None
    end.
Proof.
  unfold gbind, gret. destruct (m h g) as [[[a g1] e1]|]; [|reflexivity].
  rewrite app_nil_r. reflexivity.
Qed.

Lemma gbk_inv_with_item (g : Globals) (k v : list byte) :
  gbk_inv g -> g_pItemListMutex g = Some false ->
  entry_exists k (g_pItemList g) = false ->
  gbk_inv (with_item g k v).
Proof.
  intros (Hd & Hl & Hn) Hm He. unfold gbk_inv, with_item, history_keys in *.
  cbn [g_pItemList g_pItemListMutex set_g_pItemList]. rewrite Hm.
  split; [|split; [discriminate|discriminate]].
  rewrite map_app. cbn [map ssid].
  apply NoDup_app; [exact Hd|constructor; [intros []|constructor]|].
  intros x Hx [<-|[]].
  apply entry_exists_In in Hx. congruence.
Qed.

Lemma gbk_call_inv (icu : Icu) (c : GbkCall) (h : list GbkEvent) (g g' : Globals)
  (e : list GbkEvent) :
  gbk_inv g -> gbk_call icu c h g = Some (tt, g', e) -> gbk_inv g'.
Proof.
  intros Hinv. pose proof Hinv as (Hd & Hl & Hn).
  assert (Hadd : forall k v h1 (res : unit) g1 e1,
             wifigbk_addToHistory k v h1 g = Some (res, g1, e1) -> gbk_inv g1).
  { intros k v h1 res g1 e1. rewrite wifigbk_addToHistory_run.
    destruct (g_pItemListMutex g) as [[|]|] eqn:Hm; try discriminate.
    destruct (entry_exists k (g_pItemList g)) eqn:E.
    - intros H. injection H as _ <- _. exact Hinv.
    - destruct (is_empty k || is_empty v)%bool; [discriminate|].
      intros H. injection H as _ <- _. apply gbk_inv_with_item; assumption. }
  destruct c as [| |s|s u|i o|s u|t s|]; cbn [gbk_call].
  - rewrite then_gret_tt, wifigbk_init_run. intros H. injection H as <- _.
    destruct (g_pItemListMutex g) as [m|] eqn:Hm; [exact Hinv|].
    unfold gbk_inv, history_keys in *.
    cbn [g_pItemList g_pItemListMutex set_g_pItemListMutex].
    split; [exact Hd|split; discriminate].
  - rewrite then_gret_tt, wifigbk_deinit_run.
    destruct (g_pItemListMutex g) as [[|]|] eqn:Hm; intros H;
      [discriminate| |injection H as <- _; exact Hinv].
    injection H as <- _. unfold gbk_inv, globals_at_start, history_keys.
    cbn. split; [constructor|split; [discriminate|reflexivity]].
  - unfold gret. intros H. injection H as <- _. exact Hinv.
  - rewrite then_gret_tt, wifigbk_toUtf_run. cbv zeta.
    destruct (ucnv_open_fails icu h CHARSET_CN);
      [intros H; injection H as <- _; exact Hinv|].
    destruct (snd _); [intros H; injection H as <- _; exact Hinv|].
    destruct (strlen _) as [n|]; [|discriminate].
    destruct (wifigbk_addToHistory _ _ [] g) as [[[res g1] e1]|] eqn:E;
      [|discriminate].
    intros H. injection H as <- _. apply (Hadd _ _ _ _ _ _ E).
  - rewrite then_gret_tt, wifigbk_getFromHistory_run.
    destruct (g_pItemListMutex g) as [[|]|]; try discriminate.
    + destruct (first_match _ _ _); intros H; injection H as <- _; exact Hinv.
    + intros H; injection H as <- _; exact Hinv.
  - intros H. apply (Hadd _ _ _ _ _ _ H).
  - unfold wifigbk_dumpSsid.
    destruct (negb (List.length s =? 0)%nat); [|discriminate].
    unfold gemit. intros H. injection H as <- _. exact Hinv.
  - unfold wifigbk_dumpHistory, gret. intros H. injection H as <- _. exact Hinv.
Qed.

Lemma gbk_calls_inv (icu : Icu) (cs : list GbkCall) :
  forall (h : list GbkEvent) (g g' : Globals) (e : list GbkEvent),
    gbk_inv g -> gbk_calls icu cs h g = Some (tt, g', e) -> gbk_inv g'.
Proof.
  induction cs as [|c cs IH]; intros h g g' e Hinv; cbn [gbk_calls].
  - unfold gret. intros H. injection H as <- _. exact Hinv.
  - unfold gbind.
    destruct (gbk_call icu c h g) as [[[[] g1] e1]|] eqn:Hc; [|discriminate].
    destruct (gbk_calls icu cs (h ++ e1) g1) as [[[[] g2] e2]|] eqn:Hcs; [|discriminate].
    intros H. injection H as <- _.
    apply (IH _ _ _ _ (gbk_call_inv icu c h g g1 e1 Hinv Hc) Hcs).
Qed.

(** X24. From the start of the program on, after any sequence of calls of
    the functions of the header that is defined: no two items of the history
    have the same SSID, a history exists only while the mutex does, and the
    mutex is not left locked.  So [wifigbk_deinit] can always be called then:
    it returns 0 and brings the globals back to where the program started;
    [wifigbk_init] returns 0 and keeps the history. *)
Theorem history_between_calls (icu : Icu) (cs : list GbkCall)
  (g : Globals) (e : list GbkEvent) :
  gbk_calls icu cs [] globals_at_start = Some (tt, g, e) ->
  NoDup (history_keys g)
  /\ g_pItemListMutex g <> Some true
  /\ (g_pItemListMutex g = None -> g_pItemList g = [])
  /\ (forall h, wifigbk_deinit h g = Some (0%Z, globals_at_start, []))
  /\ (forall h, exists g', wifigbk_init h g = Some (0%Z, g', [])
                           /\ g_pItemList g' = g_pItemList g
                           /\ g_pItemListMutex g' = Some false).
Proof.
  intros Hrun.
  assert (Hstart : gbk_inv globals_at_start).
  { unfold gbk_inv, globals_at_start, history_keys. cbn.
    split; [constructor|split; [discriminate|reflexivity]]. }
  destruct (gbk_calls_inv icu cs [] globals_at_start g e Hstart Hrun) as (Hd & Hl & Hn).
  split; [exact Hd|split; [exact Hl|split; [exact Hn|split]]].
  - intros h. rewrite wifigbk_deinit_run.
    destruct (g_pItemListMutex g) as [[|]|] eqn:Hm; [congruence|reflexivity|].
    destruct g as [m items]. cbn in *. subst m. rewrite (Hn eq_refl). reflexivity.
  - intros h. rewrite wifigbk_init_run.
    destruct (g_pItemListMutex g) as [[|]|] eqn:Hm; [congruence| |];
      eexists; (split; [reflexivity|split; [reflexivity|]]).
    + exact Hm.
    + reflexivity.
Qed.

(** ** No undefined run after [wifigbk_init] *)





(** * The SSID code at work *)

Example zhongwen_is_gbk :
  wifigbk_isGbk zhongwen_gbk = true /\ wifigbk_isGbk zhongwen_utf8 = false.
Proof. split; reflexivity. Qed.

(** Shaped like both: UTF-8 wins. *)
Example copyright_sign_is_not_gbk :
  __isGBKString copyright_sign 2 = true
  /\ __isUTF8String copyright_sign 2 = true
  /\ wifigbk_isGbk copyright_sign = false.
Proof. repeat split. Qed.

Example dump_three_bytes :
  wifigbk_dumpSsid "ssid" (bytes_of [0x41; 0xff; 0x0a]%N) [] globals_at_start
  = Some (tt, globals_at_start, [ELogSsid "ssid[len=3] " " 41 ff 0a"]).
Proof. reflexivity. Qed.

(** An SSID in GBK that starts with a zero byte: the text ICU leaves in the
    buffer is empty, and the line that shows it streams a [NULL] pointer. *)
Example zero_byte_first :
  wifigbk_isGbk nul_then_zhong = true
  /\ option_map gresult
       ((_ <- wifigbk_init ;;
         wifigbk_toUtf nul_icu nul_then_zhong (Separate []))%G [] globals_at_start)
     = None.
Proof. split; reflexivity. Qed.

Example convert_and_look_up :
  option_map gresult
    ((_ <- wifigbk_init ;;
      _ <- wifigbk_toUtf sample_icu zhongwen_gbk (Separate []) ;;
      wifigbk_getFromHistory zhongwen_utf8 [])%G [] globals_at_start)
  = Some (0%Z, zhongwen_gbk).
Proof. reflexivity. Qed.


(** ** X19: three bytes are shown, an empty SSID is not *)
Lemma wifigbk_dumpSsid_line_witness :
  wifigbk_dumpSsid "ssid" (bytes_of [0x41; 0xff; 0x0a]%N) [] globals_at_start
  = Some (tt, globals_at_start, [ELogSsid "ssid[len=3] " " 41 ff 0a"])
  /\ wifigbk_dumpSsid "ssid" [] [] globals_at_start = None.
Proof.
  pose proof (wifigbk_dumpSsid_line "ssid" (bytes_of [0x41; 0xff; 0x0a]%N) []
                globals_at_start) as H1.
  pose proof (wifigbk_dumpSsid_line "ssid" [] [] globals_at_start) as H2.
  cbv zeta in H1, H2.
  destruct H1 as (Hshown & _). destruct H2 as (_ & Hnull & _).
  split.
  - apply Hshown. discriminate.
  - apply Hnull. reflexivity.
Defined.

(** ** X22: the SSID of two characters, there and back *)
Lemma history_round_trip_witness :
  let g1 := with_item initialised zhongwen_gbk zhongwen_utf8 in
  wifigbk_getFromHistory zhongwen_gbk [] [] g1 = Some ((0%Z, zhongwen_utf8), g1, [])
  /\ wifigbk_getFromHistory zhongwen_utf8 [] [] g1 = Some ((0%Z, zhongwen_gbk), g1, []).
Proof.
  cbv zeta.
  pose proof (history_round_trip zhongwen_gbk zhongwen_utf8 [] initialised eq_refl) as H.
  cbv zeta in H. destruct H as (_ & Hgbk & Hutf & _).
  - intros [].
  - discriminate.
  - discriminate.
  - split.
    + apply Hgbk. reflexivity.
    + apply Hutf; [reflexivity|intros it []].
Defined.

(** ** X24: after the sample calls *)
Lemma history_between_calls_witness :
  let g := with_item initialised zhongwen_gbk zhongwen_utf8 in
  NoDup (history_keys g)
  /\ wifigbk_deinit [] g = Some (0%Z, globals_at_start, []).
Proof.
  cbv zeta.
  edestruct (history_between_calls sample_icu sample_calls
               (with_item initialised zhongwen_gbk zhongwen_utf8))
    as (Hd & _ & _ & Hdeinit & _).
  - vm_compute. reflexivity.
  - split; [exact Hd|apply Hdeinit].
Defined.


(** ** X16 and X17: the two forms of the sample SSID *)
Lemma isGBKString_grammar_witness :
  __isGBKString zhongwen_gbk 4 = true
  /\ __isGBKString (bytes_of [0x41; 0xd6]%N) 2 = false.
Proof.
  pose proof (isGBKString_grammar zhongwen_gbk 4) as H1.
  pose proof (isGBKString_grammar (bytes_of [0x41; 0xd6]%N) 2) as H2.
  cbv zeta in H1, H2.
  destruct H1 as (Hiff & _ & _). destruct H2 as (_ & _ & Hcut).
  split.
  - apply Hiff.
    apply (gbk_text_pair xd6 xd0 [xce; xc4] true); [reflexivity|reflexivity|].
    apply (gbk_text_pair xce xc4 [] false); [reflexivity|reflexivity|constructor].
  - apply (Hcut false [x41] xd6); [reflexivity| |reflexivity].
    constructor; [reflexivity|constructor].
Defined.

Lemma isUTF8String_grammar_witness :
  __isUTF8String zhongwen_utf8 6 = true /\ __isUTF8String zhongwen_gbk 4 = false.
Proof.
  pose proof (isUTF8String_grammar zhongwen_utf8 6) as H1.
  cbv zeta in H1. destruct H1 as (Hiff & _).
  split; [|reflexivity].
  apply Hiff.
  apply (utf8_shaped_seq xe4 3 [xb8; xad] [xe6; x96; x87] true);
    [reflexivity|reflexivity|reflexivity|].
  apply (utf8_shaped_seq xe6 3 [x96; x87] [] false);
    [reflexivity|reflexivity|reflexivity|constructor].
Defined.

(** ** X18: the sample SSID is in GBK, the empty one is not *)
Lemma wifigbk_isGbk_spec_witness :
  (gbk_text true zhongwen_gbk /\ ~ utf8_shaped true zhongwen_gbk)
  /\ wifigbk_isGbk [] = false.
Proof.
  destruct (wifigbk_isGbk_spec zhongwen_gbk) as (Hiff & _).
  destruct (wifigbk_isGbk_spec []) as (_ & Hascii & _).
  split.
  - apply Hiff; [unfold INT_MAX; cbn; lia|reflexivity].
  - apply Hascii. reflexivity.
Defined.

(** ** X20: the sample SSID is added, added again, added without a UTF-8
    form, and added too early *)
Lemma addToHistory_first_mapping_wins_witness :
  let g1 := with_item initialised zhongwen_gbk zhongwen_utf8 in
  wifigbk_addToHistory zhongwen_gbk zhongwen_utf8 [] initialised
  = Some (tt, g1, added_lines zhongwen_gbk zhongwen_utf8)
  /\ wifigbk_addToHistory zhongwen_gbk [] [] g1 = Some (tt, g1, [])
  /\ wifigbk_addToHistory zhongwen_gbk [] [] initialised = None
  /\ wifigbk_addToHistory zhongwen_gbk zhongwen_utf8 [] globals_at_start = None.
Proof.
  cbv zeta.
  destruct (addToHistory_first_mapping_wins zhongwen_gbk zhongwen_utf8 [] initialised)
    as (Hinit & _).
  destruct (Hinit eq_refl) as (_ & Hnew & _).
  destruct (addToHistory_first_mapping_wins zhongwen_gbk [] []
              (with_item initialised zhongwen_gbk zhongwen_utf8)) as (Hagain & _).
  destruct (Hagain eq_refl) as (Hold & _).
  destruct (addToHistory_first_mapping_wins zhongwen_gbk [] [] initialised)
    as (Hempty & _).
  destruct (Hempty eq_refl) as (_ & _ & Hnull).
  destruct (addToHistory_first_mapping_wins zhongwen_gbk zhongwen_utf8 []
              globals_at_start) as (_ & Hearly).
  split; [|split; [|split]].
  - apply Hnew; [intros []|discriminate|discriminate].
  - apply Hold. left. reflexivity.
  - apply Hnull; [intros []|right; reflexivity].
  - apply Hearly. discriminate.
Defined.

(** ** X21: asked too early, and asked for an SSID that is not there *)
Lemma getFromHistory_looks_up_witness :
  wifigbk_getFromHistory zhongwen_gbk [x41] [] globals_at_start
  = Some (((-2)%Z, [x41]), globals_at_start,
          [ELogInfo "wifigbk_toGbk fail as wifigbk is not inited."])
  /\ wifigbk_getFromHistory zhongwen_gbk [x41] [] initialised
     = Some (((-1)%Z, [x41]), initialised, []).
Proof.
  pose proof (getFromHistory_looks_up zhongwen_gbk [x41] [] globals_at_start) as H1.
  pose proof (getFromHistory_looks_up zhongwen_gbk [x41] [] initialised) as H2.
  cbv zeta in H1, H2.
  destruct H1 as (Hearly & _). destruct H2 as (_ & Hinit & _).
  split.
  - apply Hearly. reflexivity.
  - destruct (Hinit eq_refl) as (_ & Hnone). apply Hnone. intros x [].
Defined.

(** ** X23: the sample SSID is converted, into a vector of its own and
    into its own vector; an SSID that starts with a zero byte *)
Lemma wifigbk_toUtf_paths_witness :
  wifigbk_toUtf sample_icu zhongwen_gbk (Separate []) [] initialised
  = Some ((0%Z, zhongwen_utf8), with_item initialised zhongwen_gbk zhongwen_utf8,
          [Eucnv_open "gbk"; Eucnv_toAlgorithmic zhongwen_gbk 4]
          ++ added_lines zhongwen_gbk zhongwen_utf8 ++ [Eucnv_close])
  /\ gstate_of (wifigbk_toUtf sample_icu zhongwen_gbk SameAsSsid [] initialised)
     = Some (with_item initialised zhongwen_utf8 zhongwen_utf8)
  /\ wifigbk_toUtf nul_icu nul_then_zhong (Separate []) [] initialised = None.
Proof.
  pose proof (wifigbk_toUtf_paths sample_icu zhongwen_gbk (Separate []) []
                initialised) as H1.
  pose proof (wifigbk_toUtf_paths sample_icu zhongwen_gbk SameAsSsid []
                initialised) as H2.
  pose proof (wifigbk_toUtf_paths nul_icu nul_then_zhong (Separate []) []
                initialised) as H3.
  cbv zeta in H1, H2, H3.
  destruct H1 as (_ & H1). destruct (H1 eq_refl) as (_ & H1c).
  destruct (H1c eq_refl) as (H1d & _).
  destruct H2 as (_ & H2). destruct (H2 eq_refl) as (_ & H2c).
  destruct (H2c eq_refl) as (H2d & _).
  destruct H3 as (_ & H3). destruct (H3 eq_refl) as (_ & H3c).
  destruct (H3c eq_refl) as (H3d & _).
  assert (Hshort : forall w : list byte,
             (List.length w < 512)%nat -> terminated w)
    by (intros w Hw; apply terminated_short; exact Hw).
  destruct H1d as (_ & Hsep & _);
    [apply Hshort; cbn; lia|reflexivity|].
  destruct H2d as (_ & Hsame & _);
    [apply Hshort; cbn; lia|reflexivity|].
  destruct H3d as (_ & _ & Hnul & _);
    [apply Hshort; cbn; lia|reflexivity|].
  split; [|split].
  - apply Hsep; [intros []|discriminate|vm_compute; discriminate].
  - rewrite Hsame; [reflexivity|intros []| |]; vm_compute; discriminate.
  - apply Hnul; [intros []|right; reflexivity].
Defined.
